(** * MedAssist: the offline/online diagnosis relay, its snapshot cache and
      the SQLite record gateway, embedded in Rocq.

    The development follows the sources file by file:
    - [Number]    the numbers of JavaScript, with [Number::toString];
    - [JSON]      the JavaScript values that cross a serialisation boundary,
                  with [JSON.stringify] and [JSON.parse];
    - [Zod]       shared/schema.ts ([symptomAnalysisSchema]), with the
                  records of the types it declares;
    - [Offline]   client/src/lib/offline.ts ([offlineCache], [isOnline],
                  [diagnoseOffline]) and the [analyzeMutation] resolver of
                  client/src/pages/DiagnosisPage.tsx;
    - [Db]        server/db.ts (the three tables and their constraints);
    - [Storage]   server/storage.ts ([SqliteStorage]);
    - [Routes]    server/routes.ts (the POST /api/diagnose handler);
    - [Schemas]   shared/schema.ts ([drugInteractionSchema]);
    - [Endpoints] server/routes.ts (the read routes, the drug-interaction
                  route and the knowledge search);
    - [Pages]     client/src/pages (the callbacks of [analyzeMutation] and
                  [handleSymptomToggle] of DiagnosisPage.tsx, the order of
                  HistoryPage.tsx).

    A number is the decimal it is written as, with a fraction and an
    exponent where it has them; the rounding of binary64, which sets in
    beyond 15 significant digits, is not modelled.  Strings are byte strings;
    a timestamp is the number of milliseconds since the epoch it denotes.
    What the code takes from its environment (the outcome of a request, the
    id [randomUUID] draws, the time of the clock, the room left in
    localStorage) is an argument of the function that uses it.

    The definitions come first, the theorems after them. *)

From Stdlib Require Import ZArith String Ascii List Bool Lia.
From Stdlib Require Import Sorted Permutation.
From Stdlib Require Import Decimal DecimalFacts DecimalString DecimalN.
From stdpp Require Import gmap strings.

Import ListNotations.
Local Open Scope list_scope.
Local Open Scope Z_scope.

(* ===================================================================== *)
(** ** JavaScript numbers *)
(* ===================================================================== *)

Module Number.

(** A decimal digit other than zero. *)
Inductive digit := d1 | d2 | d3 | d4 | d5 | d6 | d7 | d8 | d9.

(** A finite number: zero, or [(10 * hi + lo) * 10 ^ e] with its sign.
    The last digit [lo] is not zero, so that a number is written in one
    way only: 98.6 is [Dec false 98 d6 (-1)] ([986 * 10 ^ -1]), 72 is
    [Dec false 7 d2 0] and 1500 is [Dec false 1 d5 2] ([15 * 10 ^ 2]).

    Of a binary64 value this is the shortest decimal that denotes it,
    the one [Number::toString] writes and [JSON.parse] reads back.  The
    decimals that are the shortest decimal of no binary64 value (those
    of more than 17 significant digits, or out of its range) are numbers
    here as well, where JavaScript holds the binary64 value next to
    them. *)
Inductive t : Type :=
| Zero
| Dec (negative : bool) (hi : N) (lo : digit) (e : Z).

Definition digit_value (d : digit) : N :=
  match d with
  | d1 => 1 | d2 => 2 | d3 => 3 | d4 => 4 | d5 => 5
  | d6 => 6 | d7 => 7 | d8 => 8 | d9 => 9
  end%N.

Definition digit_of (n : N) : digit :=
  match n with
  | 1 => d1 | 2 => d2 | 3 => d3 | 4 => d4 | 5 => d5
  | 6 => d6 | 7 => d7 | 8 => d8 | _ => d9
  end%N.

(** The integer the digits of a number denote. *)
Definition digits (hi : N) (lo : digit) : N := (10 * hi + digit_value lo)%N.

(** [m * 10 ^ e] with the zeros at the end of [m] moved to the exponent. *)
Fixpoint strip (fuel : nat) (m : N) (e : Z) : N * Z :=
  match fuel with
  | O => (m, e)
  | S f => if (m mod 10 =? 0)%N then strip f (m / 10)%N (e + 1) else (m, e)
  end.

(** The number [m * 10 ^ e], with its sign. *)
Definition make (negative : bool) (m : N) (e : Z) : t :=
  if (m =? 0)%N then Zero
  else
    let (m', e') := strip (S (N.to_nat (N.log2 m))) m e in
    Dec negative (m' / 10)%N (digit_of (m' mod 10)%N) e'.

Definition of_Z (z : Z) : t := make (z <? 0) (Z.abs_N z) 0.

(** *** Comparison and subtraction *)

Definition signed (x : t) : Z :=
  match x with
  | Zero => 0
  | Dec negative hi lo _ =>
      if negative then - Z.of_N (digits hi lo) else Z.of_N (digits hi lo)
  end.

Definition exponent (x : t) : Z :=
  match x with
  | Zero => 0
  | Dec _ _ _ e => e
  end.

(** [x] in units of [10 ^ E], for an [E] that is at most its exponent. *)
Definition scaled (E : Z) (x : t) : Z := signed x * 10 ^ (exponent x - E).

Definition compare (a b : t) : comparison :=
  let E := Z.min (exponent a) (exponent b) in
  (scaled E a ?= scaled E b).

(** [a < b] and [a <= b]. *)
Definition ltb (a b : t) : bool :=
  match compare a b with Lt => true | _ => false end.

Definition leb (a b : t) : bool :=
  match compare a b with Gt => false | _ => true end.

Definition lt (a b : t) : Prop := compare a b = Lt.
Definition le (a b : t) : Prop := compare a b <> Gt.

(** [a - b], exactly.  The code subtracts in the comparator of a sort
    only, which reads the sign of the difference, and rounding keeps the
    sign. *)
Definition sub (a b : t) : t :=
  let E := Z.min (exponent a) (exponent b) in
  let z := scaled E a - scaled E b in
  make (z <? 0) (Z.abs_N z) E.

(** -1, 0 or 1: what a sort reads of the number its comparator
    returns. *)
Definition sign (x : t) : Z :=
  match x with
  | Zero => 0
  | Dec true _ _ _ => -1
  | Dec false _ _ _ => 1
  end.

(** *** Number::toString *)

Definition print_nat (n : N) : string :=
  NilEmpty.string_of_uint (N.to_uint n).

Fixpoint zeros (n : nat) : string :=
  match n with
  | O => ""
  | S n' => String "0" (zeros n')
  end.

Fixpoint take (n : nat) (s : string) : string :=
  match n, s with
  | S n', String c s' => String c (take n' s')
  | _, _ => ""
  end.

Fixpoint drop (n : nat) (s : string) : string :=
  match n, s with
  | S n', String _ s' => drop n' s'
  | _, _ => s
  end.

Definition exponent_text (z : Z) : string :=
  (if z <? 0 then "-" else "+") +:+ print_nat (Z.abs_N z).

(** Number::toString of a positive number: [s] are the digits of
    [10 * hi + lo], [k] is their number and [n] the place of the decimal
    point, counted from the first digit.  The digits are followed by
    zeros up to 1e21, hold the point as in 98.6, follow "0." and zeros
    down to 1e-6, and come with an exponent otherwise. *)
Definition unsigned_string (hi : N) (lo : digit) (e : Z) : string :=
  let s := print_nat (digits hi lo) in
  let k := Z.of_nat (String.length s) in
  let n := k + e in
  if (k <=? n) && (n <=? 21) then s +:+ zeros (Z.to_nat (n - k))
  else if (0 <? n) && (n <=? 21) then
    take (Z.to_nat n) s +:+ "." +:+ drop (Z.to_nat n) s
  else if (-6 <? n) && (n <=? 0) then
    "0." +:+ zeros (Z.to_nat (- n)) +:+ s
  else
    match s with
    | String c "" => String c ("e" +:+ exponent_text (n - 1))
    | String c r => String c ("." +:+ r +:+ "e" +:+ exponent_text (n - 1))
    | "" => ""
    end.

Definition to_string (x : t) : string :=
  match x with
  | Zero => "0"
  | Dec negative hi lo e =>
      if negative then String "-" (unsigned_string hi lo e)
      else unsigned_string hi lo e
  end.

(** *** Reading digits *)

(** The integer a string of decimal digits denotes. *)
Fixpoint value_from (acc : N) (s : string) : N :=
  match s with
  | "" => acc
  | String c s' => value_from (10 * acc + N.of_nat (nat_of_ascii c - 48))%N s'
  end.

Definition value (s : string) : N := value_from 0 s.

End Number.

(** An integer literal stands for the number it denotes. *)
Coercion Number.of_Z : Z >-> Number.t.

(* ===================================================================== *)
(** ** JavaScript JSON values *)
(* ===================================================================== *)

Module JSON.

Unset Elimination Schemes.
Inductive json : Type :=
| JNull
| JBool (b : bool)
| JNum (n : Number.t)
| JStr (s : string)
| JArr (elems : list json)
| JObj (members : list (string * json)).
Set Elimination Schemes.

(** The double quote and the backslash, as characters. *)
Definition DQ : ascii := "034"%char.
Definition BS : ascii := "092"%char.

Definition is_digit (c : ascii) : bool :=
  (48 <=? nat_of_ascii c)%nat && (nat_of_ascii c <=? 57)%nat.

(** JSON whitespace: space, tab, line feed, carriage return. *)
Definition is_ws (c : ascii) : bool :=
  match nat_of_ascii c with
  | 32%nat | 9%nat | 10%nat | 13%nat => true
  | _ => false
  end.

Definition hex_digit (n : nat) : ascii :=
  if (n <? 10)%nat then ascii_of_nat (48 + n) else ascii_of_nat (87 + n).

Definition hex_value (c : ascii) : option nat :=
  let n := nat_of_ascii c in
  if (48 <=? n)%nat && (n <=? 57)%nat then Some (n - 48)%nat
  else if (97 <=? n)%nat && (n <=? 102)%nat then Some (n - 87)%nat
  else if (65 <=? n)%nat && (n <=? 70)%nat then Some (n - 55)%nat
  else None.

(** *** JSON.stringify *)

(** QuoteJSONString, one code unit at a time. *)
Definition escape_char (c : ascii) : string :=
  let n := nat_of_ascii c in
  if Ascii.eqb c DQ then String BS (String DQ "")
  else if Ascii.eqb c BS then String BS (String BS "")
  else if (n =? 8)%nat then String BS "b"
  else if (n =? 12)%nat then String BS "f"
  else if (n =? 10)%nat then String BS "n"
  else if (n =? 13)%nat then String BS "r"
  else if (n =? 9)%nat then String BS "t"
  else if (n <? 32)%nat then
    String BS (String "u" (String "0" (String "0"
      (String (hex_digit (n / 16)) (String (hex_digit (n mod 16)) "")))))
  else String c "".

Fixpoint escape (s : string) : string :=
  match s with
  | EmptyString => ""
  | String c s' => escape_char c +:+ escape s'
  end.

Definition quote (s : string) : string :=
  String DQ (escape s +:+ String DQ "").

Fixpoint join (l : list string) : string :=
  match l with
  | [] => ""
  | x :: t => match t with [] => x | _ :: _ => x +:+ "," +:+ join t end
  end.

Fixpoint stringify (v : json) : string :=
  match v with
  | JNull => "null"
  | JBool true => "true"
  | JBool false => "false"
  | JNum n => Number.to_string n
  | JStr s => quote s
  | JArr l => "[" +:+ join (map stringify l) +:+ "]"
  | JObj l =>
      "{" +:+ join (map (fun kv => quote (fst kv) +:+ ":" +:+ stringify (snd kv)) l)
          +:+ "}"
  end.

(** *** JSON.parse *)

Fixpoint skip_ws (s : string) : string :=
  match s with
  | String c s' => if is_ws c then skip_ws s' else s
  | EmptyString => s
  end.

(** [expect lit s]: [s] with the literal [lit] removed from its front. *)
Fixpoint expect (lit s : string) : option string :=
  match lit with
  | EmptyString => Some s
  | String c lit' =>
      match s with
      | String d s' => if Ascii.eqb c d then expect lit' s' else None
      | EmptyString => None
      end
  end.

Definition unescape (e : ascii) : option ascii :=
  if Ascii.eqb e DQ then Some DQ
  else if Ascii.eqb e BS then Some BS
  else if Ascii.eqb e "/" then Some "/"%char
  else if Ascii.eqb e "b" then Some (ascii_of_nat 8)
  else if Ascii.eqb e "f" then Some (ascii_of_nat 12)
  else if Ascii.eqb e "n" then Some (ascii_of_nat 10)
  else if Ascii.eqb e "r" then Some (ascii_of_nat 13)
  else if Ascii.eqb e "t" then Some (ascii_of_nat 9)
  else None.

(** The UTF-8 bytes of a code unit given by four hexadecimal digits. *)
Definition utf8 (cp : nat) : string :=
  if (cp <? 128)%nat then String (ascii_of_nat cp) ""
  else if (cp <? 2048)%nat then
    String (ascii_of_nat (192 + cp / 64))
      (String (ascii_of_nat (128 + cp mod 64)) "")
  else
    String (ascii_of_nat (224 + cp / 4096))
      (String (ascii_of_nat (128 + (cp / 64) mod 64))
         (String (ascii_of_nat (128 + cp mod 64)) "")).

Definition hex4 (a b c d : ascii) : option nat :=
  match hex_value a, hex_value b, hex_value c, hex_value d with
  | Some x, Some y, Some z, Some w =>
      Some (((x * 16 + y) * 16 + z) * 16 + w)%nat
  | _, _, _, _ => None
  end.

(** The characters of a string literal, after its opening quote, up to and
    including the closing quote. *)
Fixpoint parse_chars (s : string) : option (string * string) :=
  match s with
  | EmptyString => None
  | String c s1 =>
      if Ascii.eqb c DQ then Some ("", s1)
      else if Ascii.eqb c BS then
        match s1 with
        | EmptyString => None
        | String e s2 =>
            match unescape e with
            | Some ch =>
                match parse_chars s2 with
                | Some (r, rest) => Some (String ch r, rest)
                | None => None
                end
            | None =>
                if Ascii.eqb e "u" then
                  match s2 with
                  | String h1 (String h2 (String h3 (String h4 s6))) =>
                      match hex4 h1 h2 h3 h4 with
                      | Some cp =>
                          match parse_chars s6 with
                          | Some (r, rest) => Some (utf8 cp +:+ r, rest)
                          | None => None
                          end
                      | None => None
                      end
                  | _ => None
                  end
                else None
            end
        end
      else if (nat_of_ascii c <? 32)%nat then None
      else
        match parse_chars s1 with
        | Some (r, rest) => Some (String c r, rest)
        | None => None
        end
  end.

Fixpoint span_digits (s : string) : string * string :=
  match s with
  | String c s' =>
      if is_digit c then
        let (ds, rest) := span_digits s' in (String c ds, rest)
      else ("", s)
  | EmptyString => ("", "")
  end.

(** The integer part of a number literal: [0], or digits that do not
    start with [0]. *)
Definition parse_int (s : string) : option (string * string) :=
  let (ds, rest) := span_digits s in
  match ds with
  | "" => None
  | String c "" => Some (ds, rest)
  | String c (String _ _) => if Ascii.eqb c "0" then None else Some (ds, rest)
  end.

(** The fraction of a number literal, without its point: one digit at
    least; the empty string where the literal has no fraction. *)
Definition parse_frac (s : string) : option (string * string) :=
  match s with
  | String c s' =>
      if Ascii.eqb c "." then
        match span_digits s' with
        | ("", _) => None
        | (ds, rest) => Some (ds, rest)
        end
      else Some ("", s)
  | "" => Some ("", "")
  end.

(** The exponent of a number literal: [e] or [E], a sign or none, one
    digit at least; 0 where the literal has no exponent. *)
Definition parse_exp (s : string) : option (Z * string) :=
  match s with
  | String c s' =>
      if Ascii.eqb c "e" || Ascii.eqb c "E" then
        let (negative, s'') :=
          match s' with
          | String d r =>
              if Ascii.eqb d "-" then (true, r)
              else if Ascii.eqb d "+" then (false, r)
              else (false, s')
          | "" => (false, s')
          end in
        match span_digits s'' with
        | ("", _) => None
        | (ds, rest) =>
            Some (if negative then - Z.of_N (Number.value ds)
                  else Z.of_N (Number.value ds), rest)
        end
      else Some (0, s)
  | "" => Some (0, "")
  end.

(** A number literal after its sign: the integer part, the fraction and
    the exponent.  It denotes [digits * 10 ^ (exponent - length of the
    fraction)]. *)
Definition parse_number (negative : bool) (s : string)
    : option (Number.t * string) :=
  match parse_int s with
  | None => None
  | Some (int, r1) =>
      match parse_frac r1 with
      | None => None
      | Some (frac, r2) =>
          match parse_exp r2 with
          | None => None
          | Some (e, r3) =>
              Some (Number.make negative (Number.value (int +:+ frac))
                      (e - Z.of_nat (String.length frac)), r3)
          end
      end
  end.

Fixpoint parse_value (fuel : nat) (s : string) : option (json * string) :=
  match fuel with
  | O => None
  | S f =>
      match skip_ws s with
      | EmptyString => None
      | String c s1 =>
          if is_digit c then
            option_map (fun p => (JNum (fst p), snd p))
              (parse_number false (String c s1))
          else if Ascii.eqb c "-" then
            option_map (fun p => (JNum (fst p), snd p))
              (parse_number true s1)
          else if Ascii.eqb c DQ then
            option_map (fun p => (JStr (fst p), snd p)) (parse_chars s1)
          else if Ascii.eqb c "[" then
            match skip_ws s1 with
            | EmptyString => None
            | String d r =>
                if Ascii.eqb d "]" then Some (JArr [], r)
                else option_map (fun p => (JArr (fst p), snd p))
                       (parse_elems f (String d r))
            end
          else if Ascii.eqb c "{" then
            match skip_ws s1 with
            | EmptyString => None
            | String d r =>
                if Ascii.eqb d "}" then Some (JObj [], r)
                else option_map (fun p => (JObj (fst p), snd p))
                       (parse_members f (String d r))
            end
          else if Ascii.eqb c "n" then
            option_map (fun r => (JNull, r)) (expect "ull" s1)
          else if Ascii.eqb c "t" then
            option_map (fun r => (JBool true, r)) (expect "rue" s1)
          else if Ascii.eqb c "f" then
            option_map (fun r => (JBool false, r)) (expect "alse" s1)
          else None
      end
  end

with parse_elems (fuel : nat) (s : string) : option (list json * string) :=
  match fuel with
  | O => None
  | S f =>
      match parse_value f s with
      | None => None
      | Some (v, r) =>
          match skip_ws r with
          | EmptyString => None
          | String d r1 =>
              if Ascii.eqb d "," then
                option_map (fun p => (v :: fst p, snd p)) (parse_elems f r1)
              else if Ascii.eqb d "]" then Some ([v], r1)
              else None
          end
      end
  end

with parse_members (fuel : nat) (s : string)
     : option (list (string * json) * string) :=
  match fuel with
  | O => None
  | S f =>
      match skip_ws s with
      | EmptyString => None
      | String c s1 =>
          if Ascii.eqb c DQ then
            match parse_chars s1 with
            | None => None
            | Some (k, r) =>
                match skip_ws r with
                | EmptyString => None
                | String d r1 =>
                    if Ascii.eqb d ":" then
                      match parse_value f r1 with
                      | None => None
                      | Some (v, r2) =>
                          match skip_ws r2 with
                          | EmptyString => None
                          | String e r3 =>
                              if Ascii.eqb e "," then
                                option_map
                                  (fun p => ((k, v) :: fst p, snd p))
                                  (parse_members f r3)
                              else if Ascii.eqb e "}" then Some ([(k, v)], r3)
                              else None
                          end
                      end
                    else None
                end
            end
          else None
      end
  end.

(** [JSON.parse]: one value, surrounded by optional whitespace.  [None]
    is the SyntaxError. *)
Definition parse (s : string) : option json :=
  match parse_value (S (String.length s)) s with
  | Some (v, rest) =>
      match skip_ws rest with
      | EmptyString => Some v
      | String _ _ => None
      end
  | None => None
  end.

(** The number of nodes of a value, counting each element and member. *)
Fixpoint size (v : json) : nat :=
  match v with
  | JArr l => S (list_sum (map (fun x => S (size x)) l))
  | JObj l => S (list_sum (map (fun kv => S (size (snd kv))) l))
  | _ => 1
  end.

(** *** Notions used to reason about the two functions *)

(** The text of one member of an object. *)
Definition member_text (kv : string * json) : string :=
  quote (fst kv) +:+ ":" +:+ stringify (snd kv).

(** A number literal ends where the input ends or goes on with a
    character that is not a digit, a point or an exponent mark. *)
Definition ends_number (rest : string) : bool :=
  match rest with
  | String c _ =>
      negb (is_digit c || Ascii.eqb c "." || Ascii.eqb c "e" || Ascii.eqb c "E")
  | EmptyString => true
  end.

(** A string of digits, and a string that does not go on with one. *)
Fixpoint all_digits (s : string) : bool :=
  match s with
  | "" => true
  | String c s' => is_digit c && all_digits s'
  end.

Definition stops (rest : string) : bool :=
  match rest with
  | String c _ => negb (is_digit c)
  | "" => true
  end.

(** The characters a serialised value can start with. *)
Definition value_head (c : ascii) : bool :=
  is_digit c || Ascii.eqb c "-" || Ascii.eqb c DQ || Ascii.eqb c "["
  || Ascii.eqb c "{" || Ascii.eqb c "n" || Ascii.eqb c "t" || Ascii.eqb c "f".

(** [v] is read back from its text, whatever follows the text. *)
Definition roundtrips (v : json) : Prop :=
  forall fuel rest,
    (size v <= fuel)%nat -> ends_number rest = true ->
    parse_value fuel (stringify v +:+ rest) = Some (v, rest).

(** Induction on a value, with the elements and the members of the
    value at hand as hypotheses. *)
Section Induction.
Variable P : json -> Prop.
Hypothesis Hnull : P JNull.
Hypothesis Hbool : forall b, P (JBool b).
Hypothesis Hnum : forall n, P (JNum n).
Hypothesis Hstr : forall s, P (JStr s).
Hypothesis Harr : forall l, Forall P l -> P (JArr l).
Hypothesis Hobj : forall l, Forall (fun kv => P (snd kv)) l -> P (JObj l).

Fixpoint json_ind (v : json) : P v :=
  match v with
  | JNull => Hnull
  | JBool b => Hbool b
  | JNum n => Hnum n
  | JStr s => Hstr s
  | JArr l =>
      Harr l ((fix elems (l : list json) : Forall P l :=
                 match l with
                 | [] => @List.Forall_nil _ P
                 | x :: t => @List.Forall_cons _ P x t (json_ind x) (elems t)
                 end) l)
  | JObj l =>
      Hobj l ((fix members (l : list (string * json))
                 : Forall (fun kv => P (snd kv)) l :=
                 match l with
                 | [] => @List.Forall_nil _ (fun kv => P (snd kv))
                 | kv :: t =>
                     @List.Forall_cons _ (fun kv => P (snd kv)) kv t
                       (json_ind (snd kv)) (members t)
                 end) l)
  end.
End Induction.

End JSON.

Import JSON.

(* ===================================================================== *)
(** ** Shared JavaScript notions *)
(* ===================================================================== *)

(** A computation that returns or throws. *)
Inductive result (E A : Type) : Type :=
| Ok (a : A)
| Throw (e : E).
Arguments Ok {E A} a.
Arguments Throw {E A} e.

(** [try { body } catch (error) { handler }]. *)
Definition try_catch {E A : Type} (body : result E A)
    (handler : E -> result E A) : result E A :=
  match body with
  | Ok a => Ok a
  | Throw e => handler e
  end.

(** Property lookup on the members of an object; the last member of a
    given name is the one a JavaScript object holds. *)
Fixpoint prop (k : string) (members : list (string * json)) : option json :=
  match members with
  | [] => None
  | (k', v) :: rest =>
      match prop k rest with
      | Some w => Some w
      | None => if String.eqb k k' then Some v else None
      end
  end.

(** [k in obj] on the members of an object. *)
Definition has_key (k : string) (members : list (string * json)) : bool :=
  existsb (fun kv => String.eqb k (fst kv)) members.

(** [xs.sort(cmp)]: stable, an element [a] stays before [b] unless
    [cmp a b > 0]. *)
Fixpoint sort_insert {A : Type} (cmp : A -> A -> Z) (x : A) (l : list A)
    : list A :=
  match l with
  | [] => [x]
  | y :: t => if cmp x y <=? 0 then x :: y :: t else y :: sort_insert cmp x t
  end.

Definition sort {A : Type} (cmp : A -> A -> Z) (l : list A) : list A :=
  fold_right (sort_insert cmp) [] l.

(** [xs.map(f)] for an [f] that may throw. *)
Fixpoint map_throwing {E A B : Type} (f : A -> result E B) (l : list A)
    : result E (list B) :=
  match l with
  | [] => Ok []
  | x :: t =>
      match f x with
      | Throw e => Throw e
      | Ok y =>
          match map_throwing f t with
          | Throw e => Throw e
          | Ok ys => Ok (y :: ys)
          end
      end
  end.

(** [xs.filter(f)] for an [f] that may throw. *)
Fixpoint filter_throwing {E A : Type} (f : A -> result E bool) (l : list A)
    : result E (list A) :=
  match l with
  | [] => Ok []
  | x :: t =>
      match f x with
      | Throw e => Throw e
      | Ok b =>
          match filter_throwing f t with
          | Throw e => Throw e
          | Ok ys => Ok (if b then x :: ys else ys)
          end
      end
  end.

(** [haystack.includes(needle)] on strings. *)
Definition string_includes (needle haystack : string) : bool :=
  match String.index 0 needle haystack with
  | Some _ => true
  | None => false
  end.

(* ===================================================================== *)
(** ** shared/schema.ts *)
(* ===================================================================== *)

Module VitalSigns.
Record t := mk {
  temperature : option Number.t;
  bloodPressure : option string;
  heartRate : option Number.t;
  respiratoryRate : option Number.t;
  oxygenSaturation : option Number.t }.

Definition field {A : Type} (k : string) (f : A -> json) (o : option A)
    : list (string * json) :=
  match o with
  | Some a => [(k, f a)]
  | None => []
  end.

(** The JavaScript object a value of this type is. *)
Definition to_json (v : t) : json :=
  JObj (field "temperature" JNum (temperature v)
        ++ field "bloodPressure" JStr (bloodPressure v)
        ++ field "heartRate" JNum (heartRate v)
        ++ field "respiratoryRate" JNum (respiratoryRate v)
        ++ field "oxygenSaturation" JNum (oxygenSaturation v)).
End VitalSigns.

Module DifferentialDiagnosis.
Record t := mk {
  condition : string;
  confidence : Number.t;
  reasoning : string }.

Definition to_json (d : t) : json :=
  JObj [("condition", JStr (condition d));
        ("confidence", JNum (confidence d));
        ("reasoning", JStr (reasoning d))].
End DifferentialDiagnosis.

Module Medication.
Record t := mk {
  name : string;
  dosage : string;
  frequency : string;
  duration : string }.

Definition to_json (m : t) : json :=
  JObj [("name", JStr (name m)); ("dosage", JStr (dosage m));
        ("frequency", JStr (frequency m)); ("duration", JStr (duration m))].
End Medication.

Module TreatmentProtocol.
Record t := mk {
  medications : list Medication.t;
  procedures : list string;
  lifestyle : list string }.

Definition to_json (p : t) : json :=
  JObj [("medications", JArr (map Medication.to_json (medications p)));
        ("procedures", JArr (map JStr (procedures p)));
        ("lifestyle", JArr (map JStr (lifestyle p)))].
End TreatmentProtocol.

(** [z.infer<typeof symptomAnalysisSchema>]. *)
Module SymptomAnalysis.
Record t := mk {
  patientId : string;
  symptoms : list string;
  vitalSigns : option VitalSigns.t;
  patientAge : Number.t;
  patientGender : string;
  patientWeight : option Number.t;
  language : string }.
End SymptomAnalysis.

Module Zod.

Inductive segment := Key (k : string) | Index (i : nat).

Inductive code := invalid_type | too_small | invalid_enum_value.

(** An issue of a ZodError.  [message] is the schema's own message where
    it gives one, and [None] for the library's default text. *)
Record ZodIssue := mkIssue {
  issue_code : code;
  path : list segment;
  message : option string }.

(** The outcome of a schema on a value: the issues, or the parsed value. *)
Definition parsed (A : Type) : Type := (list ZodIssue + A)%type.

Definition ap {A B : Type} (f : parsed (A -> B)) (a : parsed A) : parsed B :=
  match f, a with
  | inr g, inr x => inr (g x)
  | inl i, inr _ => inl i
  | inr _, inl j => inl j
  | inl i, inl j => inl (i ++ j)
  end.

Definition invalid (p : list segment) : list ZodIssue :=
  [mkIssue invalid_type p None].

(** A schema reads the value of a key, [None] when the key is missing
    ([undefined]). *)
Definition schema (A : Type) : Type := list segment -> option json -> parsed A.

Definition string_ : schema string := fun p v =>
  match v with
  | Some (JStr s) => inr s
  | _ => inl (invalid p)
  end.

Definition number : schema Number.t := fun p v =>
  match v with
  | Some (JNum n) => inr n
  | _ => inl (invalid p)
  end.

Definition optional {A : Type} (s : schema A) : schema (option A) := fun p v =>
  match v with
  | None => inr None
  | Some _ =>
      match s p v with
      | inr a => inr (Some a)
      | inl i => inl i
      end
  end.

(** The issues of the elements of [z.array(z.string())], from index [i]. *)
Fixpoint string_items (p : list segment) (i : nat) (l : list json)
    : parsed (list string) :=
  match l with
  | [] => inr []
  | x :: t =>
      ap (ap (inr cons) (string_ (p ++ [Index i]) (Some x)))
         (string_items p (S i) t)
  end.

(** [z.array(z.string()).min(1, msg)]. *)
Definition array_string_min1 (msg : string) : schema (list string) := fun p v =>
  match v with
  | Some (JArr l) =>
      let short :=
        if (length l <? 1)%nat then [mkIssue too_small p (Some msg)] else [] in
      match short, string_items p 0 l with
      | [], r => r
      | _ :: _, inr _ => inl short
      | _ :: _, inl i => inl (short ++ i)
      end
  | _ => inl (invalid p)
  end.

(** [z.enum(values).default(d)]. *)
Definition enum_default (values : list string) (d : string) : schema string :=
  fun p v =>
    match v with
    | None => inr d
    | Some (JStr s) =>
        if existsb (String.eqb s) values then inr s
        else inl [mkIssue invalid_enum_value p None]
    | Some _ => inl (invalid p)
    end.

Definition languages : list string := ["en"; "hi"; "ta"; "te"; "bn"].

Definition vitalSigns : schema VitalSigns.t := fun p v =>
  match v with
  | Some (JObj m) =>
      let at_ (k : string) := (p ++ [Key k]) in
      ap (ap (ap (ap (ap (inr VitalSigns.mk)
        (optional number (at_ "temperature") (prop "temperature" m)))
        (optional string_ (at_ "bloodPressure") (prop "bloodPressure" m)))
        (optional number (at_ "heartRate") (prop "heartRate" m)))
        (optional number (at_ "respiratoryRate") (prop "respiratoryRate" m)))
        (optional number (at_ "oxygenSaturation") (prop "oxygenSaturation" m))
  | _ => inl (invalid p)
  end.

(** [symptomAnalysisSchema.parse(body)]; [inl issues] is the ZodError
    thrown. *)
Definition symptomAnalysisSchema (body : json) : parsed SymptomAnalysis.t :=
  match body with
  | JObj m =>
      ap (ap (ap (ap (ap (ap (ap (inr SymptomAnalysis.mk)
        (string_ [Key "patientId"] (prop "patientId" m)))
        (array_string_min1 "At least one symptom is required"
           [Key "symptoms"] (prop "symptoms" m)))
        (optional vitalSigns [Key "vitalSigns"] (prop "vitalSigns" m)))
        (number [Key "patientAge"] (prop "patientAge" m)))
        (string_ [Key "patientGender"] (prop "patientGender" m)))
        (optional number [Key "patientWeight"] (prop "patientWeight" m)))
        (enum_default languages "en" [Key "language"] (prop "language" m))
  | _ => inl (invalid [])
  end.

End Zod.

(* ===================================================================== *)
(** ** client/src/lib/offline.ts and the resolver of DiagnosisPage.tsx *)
(* ===================================================================== *)

Module Offline.

Inductive exn :=
| QuotaExceededError
| SyntaxError
| TypeError
| NetworkError
| Error (message : string)
| RequestFailed (status : nat).

(** *** window.localStorage *)

(** The origin's storage area: its key/value pairs and the number of
    characters it can hold. *)
Record Storage := mkStorage {
  items : gmap string string;
  quota : nat }.

Definition used (m : gmap string string) : nat :=
  map_fold (fun k v n => (String.length k + String.length v + n)%nat) 0%nat m.

Definition getItem (k : string) (ls : Storage) : option string :=
  items ls !! k.

(** [setItem] throws when the new value does not fit. *)
Definition setItem (k v : string) (ls : Storage) : result exn Storage :=
  let m := <[k := v]> (items ls) in
  if (used m <=? quota ls)%nat then Ok (mkStorage m (quota ls))
  else Throw QuotaExceededError.

Definition removeItem (k : string) (ls : Storage) : Storage :=
  mkStorage (delete k (items ls)) (quota ls).

Module CACHE_KEYS.
Definition PATIENTS : string := "medassist-cache-patients".
Definition DIAGNOSES : string := "medassist-cache-diagnoses".
Definition LAST_SYNC : string := "medassist-last-sync".
(** [Object.values(CACHE_KEYS)]. *)
Definition values : list string := [PATIENTS; DIAGNOSES; LAST_SYNC].
End CACHE_KEYS.

(** A non-empty string is truthy. *)
Definition truthy (s : string) : bool :=
  match s with
  | EmptyString => false
  | String _ _ => true
  end.

(** *** offlineCache *)

(** [now] is [new Date().toISOString()].  A write that throws is logged
    and the statements after it in the [try] block are skipped. *)
Definition savePatients (now : string) (patients : list json)
    (ls : Storage) : Storage :=
  match setItem CACHE_KEYS.PATIENTS (stringify (JArr patients)) ls with
  | Throw _ => ls
  | Ok ls1 =>
      match setItem CACHE_KEYS.LAST_SYNC now ls1 with
      | Throw _ => ls1
      | Ok ls2 => ls2
      end
  end.

(** [JNull] is the [null] the function returns. *)
Definition getPatients (ls : Storage) : json :=
  match getItem CACHE_KEYS.PATIENTS ls with
  | Some cached =>
      if truthy cached then
        match parse cached with
        | Some v => v
        | None => JNull
        end
      else JNull
  | None => JNull
  end.

Definition saveDiagnoses (now : string) (diagnoses : list json)
    (ls : Storage) : Storage :=
  match setItem CACHE_KEYS.DIAGNOSES (stringify (JArr diagnoses)) ls with
  | Throw _ => ls
  | Ok ls1 =>
      match setItem CACHE_KEYS.LAST_SYNC now ls1 with
      | Throw _ => ls1
      | Ok ls2 => ls2
      end
  end.

Definition getDiagnoses (ls : Storage) : json :=
  match getItem CACHE_KEYS.DIAGNOSES ls with
  | Some cached =>
      if truthy cached then
        match parse cached with
        | Some v => v
        | None => JNull
        end
      else JNull
  | None => JNull
  end.

(** The ISO text of the last synchronisation, [None] for [null]. *)
Definition getLastSync (ls : Storage) : option string :=
  match getItem CACHE_KEYS.LAST_SYNC ls with
  | Some lastSync => if truthy lastSync then Some lastSync else None
  | None => None
  end.

Definition clearAll (ls : Storage) : Storage :=
  fold_left (fun acc key => removeItem key acc) CACHE_KEYS.values ls.

(** The two collections of the snapshot store, as the specification
    names them. *)
Inductive collection := Patients | Diagnoses.

Definition save (c : collection) : string -> list json -> Storage -> Storage :=
  match c with
  | Patients => savePatients
  | Diagnoses => saveDiagnoses
  end.

Definition get (c : collection) : Storage -> json :=
  match c with
  | Patients => getPatients
  | Diagnoses => getDiagnoses
  end.

Definition key_of (c : collection) : string :=
  match c with
  | Patients => CACHE_KEYS.PATIENTS
  | Diagnoses => CACHE_KEYS.DIAGNOSES
  end.

(** *** Connectivity *)

(** [navigator] is [None] where the global is undefined, and otherwise
    holds [navigator.onLine]. *)
Definition isOnline (navigator : option bool) : bool :=
  match navigator with
  | None => true
  | Some onLine => onLine
  end.

(** *** The offline diagnosis engine *)

Module OfflineDiagnosisInput.
Record t := mk {
  patientId : option string;
  symptoms : list string;
  vitalSigns : option VitalSigns.t;
  patientAge : Number.t;
  patientGender : string;
  patientWeight : option Number.t;
  language : string }.
End OfflineDiagnosisInput.

(** What a caller of the resolver holds: a JSON value, or an array that
    was given properties of its own. *)
Inductive value :=
| Plain (j : json)
| ArrayWith (elems : list json) (props : list (string * json)).

(** [v.mode]. *)
Definition mode (v : value) : option json :=
  match v with
  | Plain (JObj m) => prop "mode" m
  | Plain _ => None
  | ArrayWith _ props => prop "mode" props
  end.

(** [v[k]] for the other properties the page reads. *)
Definition get_prop (k : string) (v : value) : option json :=
  match v with
  | Plain (JObj m) => prop k m
  | Plain _ => None
  | ArrayWith _ props => prop k props
  end.

(** A response of [fetch]: its status and what [res.json()] resolves to
    ([None] when the body is not JSON and it rejects). *)
Record Response := mkResponse {
  status : nat;
  json_body : option json }.

Definition ok (res : Response) : bool :=
  (200 <=? status res)%nat && (status res <=? 299)%nat.

Inductive fetched :=
| Rejected
| Resolved (res : Response).

(** The two collaborators of the resolver.  [apiRequest] is
    client/src/lib/queryClient.ts, which is not part of the sources read
    here; it is taken as it is used: it returns a value or throws. *)
Record World := mkWorld {
  navigator : option bool;
  apiRequest : string -> string -> OfflineDiagnosisInput.t -> result exn value;
  fetch : string -> OfflineDiagnosisInput.t -> fetched }.

Inductive call :=
| Primary (method url : string) (data : OfflineDiagnosisInput.t)
| Fallback (url : string) (input : OfflineDiagnosisInput.t).

(** Computations that record the backend calls they make. *)
Definition Eff (A : Type) : Type := (list call * A)%type.

#[global] Instance Eff_ret : MRet Eff := fun A a => ([], a).

#[global] Instance Eff_bind : MBind Eff := fun A B f m =>
  let (t1, a) := m in
  let (t2, b) := f a in
  (t1 ++ t2, b).

Definition await_apiRequest (w : World) (method url : string)
    (data : OfflineDiagnosisInput.t) : Eff (result exn value) :=
  ([Primary method url data], apiRequest w method url data).

Definition await_fetch (w : World) (url : string)
    (input : OfflineDiagnosisInput.t) : Eff fetched :=
  ([Fallback url input], fetch w url input).

(** The body of the [try] block once [fetch] has settled. *)
Definition tag_response (r : fetched) : result exn value :=
  match r with
  | Rejected => Throw NetworkError
  | Resolved res =>
      if negb (ok res) then
        Throw (Error ("Offline NLP API returned status "
                      +:+ Number.print_nat (N.of_nat (status res))))
      else
        match json_body res with
        | None => Throw SyntaxError
        | Some data =>
            match data with
            | JObj m =>
                if negb (has_key "mode" m)
                then Ok (Plain (JObj (m ++ [("mode", JStr "offline")])))
                else Ok (Plain data)
            | JArr l => Ok (ArrayWith l [("mode", JStr "offline")])
            | _ => Throw TypeError
            end
        end
  end.

(** The object the [catch] block returns. *)
Definition unavailable (input : OfflineDiagnosisInput.t) : value :=
  Plain (JObj
    [("mode", JStr "offline");
     ("patientId",
        JStr (match OfflineDiagnosisInput.patientId input with
              | Some id => id
              | None => ""
              end));
     ("primaryDiagnosis", JStr "Offline diagnosis service unavailable");
     ("differentialDiagnoses", JArr []);
     ("treatmentProtocol", JNull);
     ("requiresReferral", JBool false);
     ("referralReason", JStr "Error in local NLP service");
     ("knowledgeSnippets", JArr [])]).

Definition diagnoseOffline (w : World) (input : OfflineDiagnosisInput.t)
    : Eff (result exn value) :=
  res ← await_fetch w "http://localhost:8000/analyze" input;
  mret (try_catch (tag_response res) (fun _ => Ok (unavailable input))).

(** [analyzeMutation.mutationFn]. *)
Definition analyze (w : World) (data : OfflineDiagnosisInput.t)
    : Eff (result exn value) :=
  if negb (isOnline (navigator w)) then
    diagnoseOffline w data
  else
    r ← await_apiRequest w "POST" "/api/diagnose" data;
    match r with
    | Ok result => mret (Ok result)
    | Throw _ => diagnoseOffline w data
    end.

(** How often a run called each backend. *)
Definition is_primary (c : call) : bool :=
  match c with Primary _ _ _ => true | Fallback _ _ => false end.

Definition is_fallback (c : call) : bool :=
  match c with Primary _ _ _ => false | Fallback _ _ => true end.

Definition primary_calls (t : list call) : nat := length (List.filter is_primary t).
Definition fallback_calls (t : list call) : nat := length (List.filter is_fallback t).

End Offline.

(* ===================================================================== *)
(** ** server/db.ts *)
(* ===================================================================== *)

Inductive sqlite_code :=
| SQLITE_CONSTRAINT_NOTNULL
| SQLITE_CONSTRAINT_PRIMARYKEY
| SQLITE_CONSTRAINT_FOREIGNKEY.

(** What the server code can throw. *)
Inductive exn :=
| ZodError (issues : list Zod.ZodIssue)
| AxiosError
| SqliteError (code : sqlite_code)
| SyntaxError
| TypeError.

Module Db.

(** The rows as a statement returns them to JavaScript.  A TEXT column
    the code tests for [null] is an [option string]; [createdAt] is the
    instant its ISO text denotes. *)
Module PatientRow.
Record t := mk {
  id : string;
  name : string;
  age : Number.t;
  gender : string;
  weight : option Number.t;
  contactNumber : option string;
  address : option string;
  createdAt : Z }.
End PatientRow.

Module DiagnosisRow.
Record t := mk {
  id : string;
  patientId : string;
  symptoms : option string;
  vitalSigns : option string;
  primaryDiagnosis : string;
  differentialDiagnoses : option string;
  treatmentProtocol : option string;
  requiresReferral : Z;
  referralReason : option string;
  language : option string;
  createdAt : Z }.
End DiagnosisRow.

Module KnowledgeRow.
Record t := mk {
  id : string;
  symptoms : option string;
  ageGroup : string;
  gender : string;
  diagnosis : string;
  confidence : Number.t;
  outcome : option string;
  createdAt : Z }.
End KnowledgeRow.

(** The database: three tables, each in rowid order. *)
Record t := mk {
  patients : list PatientRow.t;
  diagnoses : list DiagnosisRow.t;
  knowledge_base : list KnowledgeRow.t }.

Definition empty : t := mk [] [] [].

Definition not_null {A : Type} (o : option A) : bool :=
  match o with Some _ => true | None => false end.

(** INSERT INTO patients: [id TEXT PRIMARY KEY]. *)
Definition insert_patient (row : PatientRow.t) (db : t) : result exn t :=
  if existsb (fun r => String.eqb (PatientRow.id r) (PatientRow.id row))
       (patients db)
  then Throw (SqliteError SQLITE_CONSTRAINT_PRIMARYKEY)
  else Ok (mk (patients db ++ [row]) (diagnoses db) (knowledge_base db)).

(** INSERT INTO diagnoses: the NOT NULL columns, [id TEXT PRIMARY KEY],
    and [FOREIGN KEY (patientId) REFERENCES patients(id)] under
    [PRAGMA foreign_keys = ON]. *)
Definition insert_diagnosis (row : DiagnosisRow.t) (db : t) : result exn t :=
  if negb (not_null (DiagnosisRow.symptoms row)
           && not_null (DiagnosisRow.language row))
  then Throw (SqliteError SQLITE_CONSTRAINT_NOTNULL)
  else if existsb (fun r => String.eqb (DiagnosisRow.id r) (DiagnosisRow.id row))
            (diagnoses db)
  then Throw (SqliteError SQLITE_CONSTRAINT_PRIMARYKEY)
  else if negb (existsb
                  (fun r => String.eqb (PatientRow.id r)
                              (DiagnosisRow.patientId row))
                  (patients db))
  then Throw (SqliteError SQLITE_CONSTRAINT_FOREIGNKEY)
  else Ok (mk (patients db) (diagnoses db ++ [row]) (knowledge_base db)).

(** INSERT INTO knowledge_base. *)
Definition insert_knowledge (row : KnowledgeRow.t) (db : t) : result exn t :=
  if negb (not_null (KnowledgeRow.symptoms row))
  then Throw (SqliteError SQLITE_CONSTRAINT_NOTNULL)
  else if existsb (fun r => String.eqb (KnowledgeRow.id r) (KnowledgeRow.id row))
            (knowledge_base db)
  then Throw (SqliteError SQLITE_CONSTRAINT_PRIMARYKEY)
  else Ok (mk (patients db) (diagnoses db) (knowledge_base db ++ [row])).

(** [datetime(createdAt)] has a resolution of one second. *)
Definition datetime (createdAt : Z) : Z := createdAt / 1000.

(** [ORDER BY datetime(createdAt) DESC]. *)
Definition order_by_createdAt_desc {A : Type} (createdAt : A -> Z)
    (rows : list A) : list A :=
  sort (fun a b => datetime (createdAt b) - datetime (createdAt a)) rows.

End Db.

(* ===================================================================== *)
(** ** server/storage.ts *)
(* ===================================================================== *)

Module Patient.
Record t := mk {
  id : string;
  name : string;
  age : Number.t;
  gender : string;
  weight : option Number.t;
  contactNumber : option string;
  address : option string;
  createdAt : Z }.
End Patient.

Module InsertPatient.
Record t := mk {
  name : string;
  age : Number.t;
  gender : string;
  weight : option Number.t;
  contactNumber : option string;
  address : option string }.
End InsertPatient.

(** The [Diagnosis] a caller receives.  The fields read back with
    [JSON.parse] are whatever value the stored text denotes. *)
Module Diagnosis.
Record t := mk {
  id : string;
  patientId : string;
  symptoms : json;
  vitalSigns : json;
  primaryDiagnosis : string;
  differentialDiagnoses : json;
  treatmentProtocol : json;
  requiresReferral : bool;
  referralReason : option string;
  language : string;
  createdAt : Z }.
End Diagnosis.

Module InsertDiagnosis.
Record t := mk {
  patientId : string;
  symptoms : option (list string);
  vitalSigns : option VitalSigns.t;
  primaryDiagnosis : string;
  differentialDiagnoses : option (list DifferentialDiagnosis.t);
  treatmentProtocol : option TreatmentProtocol.t;
  requiresReferral : option bool;
  referralReason : option string;
  language : option string }.
End InsertDiagnosis.

Module KnowledgeBase.
Record t := mk {
  id : string;
  symptoms : json;
  ageGroup : string;
  gender : string;
  diagnosis : string;
  confidence : Number.t;
  outcome : option string;
  createdAt : Z }.
End KnowledgeBase.

(** [Omit<KnowledgeBase, "id" | "createdAt">]. *)
Module KnowledgeEntry.
Record t := mk {
  symptoms : option (list string);
  ageGroup : string;
  gender : string;
  diagnosis : string;
  confidence : Number.t;
  outcome : option string }.
End KnowledgeEntry.

Module Storage.

(** [a ?? b]. *)
Definition coalesce {A : Type} (a : option A) (b : A) : A :=
  match a with Some x => x | None => b end.

(** [col ? JSON.parse(col) : dflt] on a TEXT column. *)
Definition parse_column (col : option string) (dflt : json) : result exn json :=
  match col with
  | Some (String c s) =>
      match parse (String c s) with
      | Some v => Ok v
      | None => Throw SyntaxError
      end
  | _ => Ok dflt
  end.

Definition strings_json (l : list string) : json := JArr (map JStr l).

Definition differentials_json (l : list DifferentialDiagnosis.t) : json :=
  JArr (map DifferentialDiagnosis.to_json l).

Definition rowToPatient (row : Db.PatientRow.t) : Patient.t :=
  Patient.mk (Db.PatientRow.id row) (Db.PatientRow.name row)
    (Db.PatientRow.age row) (Db.PatientRow.gender row)
    (Db.PatientRow.weight row) (Db.PatientRow.contactNumber row)
    (Db.PatientRow.address row) (Db.PatientRow.createdAt row).

Definition rowToDiagnosis (row : Db.DiagnosisRow.t) : result exn Diagnosis.t :=
  match parse_column (Db.DiagnosisRow.vitalSigns row) JNull with
  | Throw e => Throw e
  | Ok vitalSigns =>
  match parse_column (Db.DiagnosisRow.differentialDiagnoses row) (JArr []) with
  | Throw e => Throw e
  | Ok differentialDiagnoses =>
  match parse_column (Db.DiagnosisRow.treatmentProtocol row) JNull with
  | Throw e => Throw e
  | Ok treatmentProtocol =>
  match parse_column (Db.DiagnosisRow.symptoms row) (JArr []) with
  | Throw e => Throw e
  | Ok symptoms =>
      Ok (Diagnosis.mk
            (Db.DiagnosisRow.id row)
            (Db.DiagnosisRow.patientId row)
            symptoms
            vitalSigns
            (Db.DiagnosisRow.primaryDiagnosis row)
            differentialDiagnoses
            treatmentProtocol
            (negb (Db.DiagnosisRow.requiresReferral row =? 0))
            (Db.DiagnosisRow.referralReason row)
            (coalesce (Db.DiagnosisRow.language row) "en")
            (Db.DiagnosisRow.createdAt row))
  end end end end.

Definition rowToKnowledge (row : Db.KnowledgeRow.t) : result exn KnowledgeBase.t :=
  match parse_column (Db.KnowledgeRow.symptoms row) (JArr []) with
  | Throw e => Throw e
  | Ok symptoms =>
      Ok (KnowledgeBase.mk
            (Db.KnowledgeRow.id row)
            symptoms
            (Db.KnowledgeRow.ageGroup row)
            (Db.KnowledgeRow.gender row)
            (Db.KnowledgeRow.diagnosis row)
            (Db.KnowledgeRow.confidence row)
            (Db.KnowledgeRow.outcome row)
            (Db.KnowledgeRow.createdAt row))
  end.

(** *** Patients *)

Definition getPatient (id : string) (db : Db.t) : option Patient.t :=
  option_map rowToPatient
    (find (fun r => String.eqb (Db.PatientRow.id r) id) (Db.patients db)).

Definition getAllPatients (db : Db.t) : list Patient.t :=
  map rowToPatient
    (Db.order_by_createdAt_desc Db.PatientRow.createdAt (Db.patients db)).

(** [id] and [createdAtIso] are what [newId()] and [nowIso()] return. *)
Definition createPatient (id : string) (createdAtIso : Z)
    (insertPatient : InsertPatient.t) (db : Db.t)
    : result exn (Patient.t * Db.t) :=
  match
    Db.insert_patient
      (Db.PatientRow.mk id
         (InsertPatient.name insertPatient)
         (InsertPatient.age insertPatient)
         (InsertPatient.gender insertPatient)
         (InsertPatient.weight insertPatient)
         (InsertPatient.contactNumber insertPatient)
         (InsertPatient.address insertPatient)
         createdAtIso) db
  with
  | Throw e => Throw e
  | Ok db' =>
      Ok (Patient.mk id
            (InsertPatient.name insertPatient)
            (InsertPatient.age insertPatient)
            (InsertPatient.gender insertPatient)
            (InsertPatient.weight insertPatient)
            (InsertPatient.contactNumber insertPatient)
            (InsertPatient.address insertPatient)
            createdAtIso, db')
  end.

(** *** Diagnoses *)

Definition getDiagnosis (id : string) (db : Db.t)
    : result exn (option Diagnosis.t) :=
  match find (fun r => String.eqb (Db.DiagnosisRow.id r) id) (Db.diagnoses db) with
  | Some row =>
      match rowToDiagnosis row with
      | Ok d => Ok (Some d)
      | Throw e => Throw e
      end
  | None => Ok None
  end.

Definition getDiagnosesByPatient (patientId : string) (db : Db.t)
    : result exn (list Diagnosis.t) :=
  map_throwing rowToDiagnosis
    (Db.order_by_createdAt_desc Db.DiagnosisRow.createdAt
       (List.filter (fun r => String.eqb (Db.DiagnosisRow.patientId r) patientId)
          (Db.diagnoses db))).

Definition getAllDiagnoses (db : Db.t) : result exn (list Diagnosis.t) :=
  map_throwing rowToDiagnosis
    (Db.order_by_createdAt_desc Db.DiagnosisRow.createdAt (Db.diagnoses db)).

(** The row [createDiagnosis] binds to its INSERT. *)
Definition diagnosis_row (id : string) (createdAtIso : Z)
    (insertDiagnosis : InsertDiagnosis.t) : Db.DiagnosisRow.t :=
  Db.DiagnosisRow.mk id
    (InsertDiagnosis.patientId insertDiagnosis)
    (Some (stringify
             (strings_json (coalesce (InsertDiagnosis.symptoms insertDiagnosis) []))))
    (match InsertDiagnosis.vitalSigns insertDiagnosis with
     | Some v => Some (stringify (VitalSigns.to_json v))
     | None => None
     end)
    (InsertDiagnosis.primaryDiagnosis insertDiagnosis)
    (match InsertDiagnosis.differentialDiagnoses insertDiagnosis with
     | Some l => Some (stringify (differentials_json l))
     | None => None
     end)
    (match InsertDiagnosis.treatmentProtocol insertDiagnosis with
     | Some p => Some (stringify (TreatmentProtocol.to_json p))
     | None => None
     end)
    (match InsertDiagnosis.requiresReferral insertDiagnosis with
     | Some true => 1
     | _ => 0
     end)
    (InsertDiagnosis.referralReason insertDiagnosis)
    (Some (coalesce (InsertDiagnosis.language insertDiagnosis) "en"))
    createdAtIso.

(** The record [createDiagnosis] returns. *)
Definition diagnosis_of (id : string) (createdAtIso : Z)
    (insertDiagnosis : InsertDiagnosis.t) : Diagnosis.t :=
  Diagnosis.mk id
    (InsertDiagnosis.patientId insertDiagnosis)
    (strings_json (coalesce (InsertDiagnosis.symptoms insertDiagnosis) []))
    (match InsertDiagnosis.vitalSigns insertDiagnosis with
     | Some v => VitalSigns.to_json v
     | None => JNull
     end)
    (InsertDiagnosis.primaryDiagnosis insertDiagnosis)
    (differentials_json
       (coalesce (InsertDiagnosis.differentialDiagnoses insertDiagnosis) []))
    (match InsertDiagnosis.treatmentProtocol insertDiagnosis with
     | Some p => TreatmentProtocol.to_json p
     | None => JNull
     end)
    (match InsertDiagnosis.requiresReferral insertDiagnosis with
     | Some true => true
     | _ => false
     end)
    (InsertDiagnosis.referralReason insertDiagnosis)
    (coalesce (InsertDiagnosis.language insertDiagnosis) "en")
    createdAtIso.

Definition createDiagnosis (id : string) (createdAtIso : Z)
    (insertDiagnosis : InsertDiagnosis.t) (db : Db.t)
    : result exn (Diagnosis.t * Db.t) :=
  match Db.insert_diagnosis (diagnosis_row id createdAtIso insertDiagnosis) db with
  | Throw e => Throw e
  | Ok db' => Ok (diagnosis_of id createdAtIso insertDiagnosis, db')
  end.

(** *** Knowledge base *)

Definition knowledge_row (id : string) (createdAtIso : Z)
    (entry : KnowledgeEntry.t) : Db.KnowledgeRow.t :=
  Db.KnowledgeRow.mk id
    (Some (stringify (strings_json (coalesce (KnowledgeEntry.symptoms entry) []))))
    (KnowledgeEntry.ageGroup entry)
    (KnowledgeEntry.gender entry)
    (KnowledgeEntry.diagnosis entry)
    (KnowledgeEntry.confidence entry)
    (KnowledgeEntry.outcome entry)
    createdAtIso.

(** The record [addKnowledgeEntry] returns. *)
Definition knowledge_of (id : string) (createdAtIso : Z)
    (entry : KnowledgeEntry.t) : KnowledgeBase.t :=
  KnowledgeBase.mk id
    (strings_json (coalesce (KnowledgeEntry.symptoms entry) []))
    (KnowledgeEntry.ageGroup entry)
    (KnowledgeEntry.gender entry)
    (KnowledgeEntry.diagnosis entry)
    (KnowledgeEntry.confidence entry)
    (KnowledgeEntry.outcome entry)
    createdAtIso.

Definition addKnowledgeEntry (id : string) (createdAtIso : Z)
    (entry : KnowledgeEntry.t) (db : Db.t)
    : result exn (KnowledgeBase.t * Db.t) :=
  match Db.insert_knowledge (knowledge_row id createdAtIso entry) db with
  | Throw e => Throw e
  | Ok db' => Ok (knowledge_of id createdAtIso entry, db')
  end.

(** [rowSymptoms.includes(s)]: on an array, on a string, and a TypeError
    on anything else. *)
Definition includes (rowSymptoms : json) (s : string) : result exn bool :=
  match rowSymptoms with
  | JArr l =>
      Ok (existsb (fun x => match x with
                            | JStr t => String.eqb t s
                            | _ => false
                            end) l)
  | JStr t => Ok (string_includes s t)
  | _ => Throw TypeError
  end.

(** [symptoms.some((s) => rowSymptoms.includes(s))]. *)
Fixpoint some_included (rowSymptoms : json) (symptoms : list string)
    : result exn bool :=
  match symptoms with
  | [] => Ok false
  | s :: rest =>
      match includes rowSymptoms s with
      | Throw e => Throw e
      | Ok true => Ok true
      | Ok false => some_included rowSymptoms rest
      end
  end.

Definition searchKnowledge (symptoms : list string) (ageGroup gender : string)
    (db : Db.t) : result exn (list KnowledgeBase.t) :=
  let rows :=
    List.filter (fun r =>
              String.eqb (Db.KnowledgeRow.ageGroup r) ageGroup
              && (String.eqb (Db.KnowledgeRow.gender r) gender
                  || String.eqb (Db.KnowledgeRow.gender r) "other"))
      (Db.knowledge_base db) in
  match
    filter_throwing
      (fun row =>
         match parse_column (Db.KnowledgeRow.symptoms row) (JArr []) with
         | Throw e => Throw e
         | Ok rowSymptoms => some_included rowSymptoms symptoms
         end) rows
  with
  | Throw e => Throw e
  | Ok filtered =>
      match map_throwing rowToKnowledge filtered with
      | Throw e => Throw e
      | Ok entries =>
          Ok (sort (fun a b =>
                      Number.sign (Number.sub (KnowledgeBase.confidence b)
                                              (KnowledgeBase.confidence a)))
                entries)
      end
  end.

End Storage.

(* ===================================================================== *)
(** ** server/routes.ts *)
(* ===================================================================== *)

(** Modelled from the spec: the body the diagnosis backend answers with
    (ml/app.py is not among the sources read here), as section 6 gives it:
    [{primaryDiagnosis, differentialDiagnoses: [{condition, confidence,
    reasoning}], treatmentProtocol?, requiresReferral?, referralReason?}].
    The handler reads [differentialDiagnoses] with optional chaining, so it
    is optional here as well. *)
Module AiDiagnosis.
Record t := mk {
  primaryDiagnosis : string;
  differentialDiagnoses : option (list DifferentialDiagnosis.t);
  treatmentProtocol : option TreatmentProtocol.t;
  requiresReferral : option bool;
  referralReason : option string }.
End AiDiagnosis.

Module Routes.

Inductive call :=
| AxiosPost (url : string) (data : SymptomAnalysis.t) (timeout : Z).

(** What the handler takes from outside: the answer of [axios.post], and
    the values [newId()] and [nowIso()] return to the two storage calls. *)
Record Env := mkEnv {
  post : string -> SymptomAnalysis.t -> Z -> result exn AiDiagnosis.t;
  diagnosisId : string;
  diagnosisCreatedAt : Z;
  knowledgeId : string;
  knowledgeCreatedAt : Z }.

Record State := mkState {
  db : Db.t;
  calls : list call }.

(** Handler code: it reads and writes the database, records the requests
    it sends, and returns or throws. *)
Definition M (A : Type) : Type := State -> result exn A * State.

#[global] Instance M_ret : MRet M := fun A a st => (Ok a, st).

#[global] Instance M_bind : MBind M := fun A B f m st =>
  match m st with
  | (Ok a, st') => f a st'
  | (Throw e, st') => (Throw e, st')
  end.

(** [schema.parse(body)]. *)
Definition zod_parse {A : Type} (r : Zod.parsed A) : M A := fun st =>
  match r with
  | inr a => (Ok a, st)
  | inl issues => (Throw (ZodError issues), st)
  end.

(** [await axios.post(url, data, { timeout })]. *)
Definition axios_post (env : Env) (url : string) (data : SymptomAnalysis.t)
    (timeout : Z) : M AiDiagnosis.t := fun st =>
  (post env url data timeout,
   mkState (db st) (calls st ++ [AxiosPost url data timeout])).

(** [await storage.op(...)]; a statement that fails leaves the database
    as it was. *)
Definition storage {A : Type} (op : Db.t -> result exn (A * Db.t)) : M A :=
  fun st =>
    match op (db st) with
    | Ok (a, db') => (Ok a, mkState db' (calls st))
    | Throw e => (Throw e, st)
    end.

Definition ageGroup (patientAge : Number.t) : string :=
  if Number.ltb patientAge 18 then "child"
  else if Number.ltb patientAge 60 then "adult"
  else "senior".

(** [aiDiagnosis.differentialDiagnoses?.[0]?.confidence ?? 100]. *)
Definition top_confidence (aiDiagnosis : AiDiagnosis.t) : Number.t :=
  match AiDiagnosis.differentialDiagnoses aiDiagnosis with
  | Some (d :: _) => DifferentialDiagnosis.confidence d
  | _ => 100
  end.

Definition insert_of (validatedData : SymptomAnalysis.t)
    (aiDiagnosis : AiDiagnosis.t) : InsertDiagnosis.t :=
  InsertDiagnosis.mk
    (SymptomAnalysis.patientId validatedData)
    (Some (SymptomAnalysis.symptoms validatedData))
    (SymptomAnalysis.vitalSigns validatedData)
    (AiDiagnosis.primaryDiagnosis aiDiagnosis)
    (AiDiagnosis.differentialDiagnoses aiDiagnosis)
    (AiDiagnosis.treatmentProtocol aiDiagnosis)
    (Some (Storage.coalesce (AiDiagnosis.requiresReferral aiDiagnosis) false))
    (AiDiagnosis.referralReason aiDiagnosis)
    (Some (SymptomAnalysis.language validatedData)).

Definition entry_of (validatedData : SymptomAnalysis.t)
    (aiDiagnosis : AiDiagnosis.t) : KnowledgeEntry.t :=
  KnowledgeEntry.mk
    (Some (SymptomAnalysis.symptoms validatedData))
    (ageGroup (SymptomAnalysis.patientAge validatedData))
    (SymptomAnalysis.patientGender validatedData)
    (AiDiagnosis.primaryDiagnosis aiDiagnosis)
    (top_confidence aiDiagnosis)
    None.

(** The [try] block of POST /api/diagnose. *)
Definition diagnose_try (env : Env) (body : json) : M Diagnosis.t :=
  validatedData ← zod_parse (Zod.symptomAnalysisSchema body);
  aiDiagnosis ← axios_post env "http://127.0.0.1:8000/analyze" validatedData 28000;
  diagnosis ← storage (Storage.createDiagnosis (diagnosisId env)
                         (diagnosisCreatedAt env)
                         (insert_of validatedData aiDiagnosis));
  _ ← storage (Storage.addKnowledgeEntry (knowledgeId env)
                 (knowledgeCreatedAt env)
                 (entry_of validatedData aiDiagnosis));
  mret diagnosis.

Inductive payload :=
| DiagnosisJson (diagnosis : Diagnosis.t)
| Message (message : string) (errors : option (list Zod.ZodIssue)).

Record Response := mkResponse {
  status : nat;
  body : payload }.

(** POST /api/diagnose: the [try] block and its [catch]. *)
Definition diagnose (env : Env) (req_body : json) (st : State)
    : Response * State :=
  match diagnose_try env req_body st with
  | (Ok diagnosis, st') => (mkResponse 201 (DiagnosisJson diagnosis), st')
  | (Throw (ZodError errors), st') =>
      (mkResponse 400 (Message "Invalid diagnosis data" (Some errors)), st')
  | (Throw _, st') =>
      (mkResponse 500 (Message "NLP service unavailable" None), st')
  end.

End Routes.

(* ===================================================================== *)
(** ** shared/schema.ts: [drugInteractionSchema] *)
(* ===================================================================== *)

(** [z.infer<typeof drugInteractionSchema>]. *)
Module DrugInteraction.
Record t := mk {
  medications : list string;
  patientAge : Number.t;
  patientWeight : option Number.t }.
End DrugInteraction.

Module Schemas.
Import Zod.

(** [z.array(z.string()).min(1)], with the message of the library. *)
Definition array_string_nonempty : schema (list string) := fun p v =>
  match v with
  | Some (JArr l) =>
      let short :=
        if (length l <? 1)%nat then [mkIssue too_small p None] else [] in
      match short, string_items p 0 l with
      | [], r => r
      | _ :: _, inr _ => inl short
      | _ :: _, inl i => inl (short ++ i)
      end
  | _ => inl (invalid p)
  end.

(** [drugInteractionSchema.parse(body)]. *)
Definition drugInteractionSchema (body : json) : parsed DrugInteraction.t :=
  match body with
  | JObj m =>
      ap (ap (ap (inr DrugInteraction.mk)
        (array_string_nonempty [Key "medications"] (prop "medications" m)))
        (number [Key "patientAge"] (prop "patientAge" m)))
        (optional number [Key "patientWeight"] (prop "patientWeight" m))
  | _ => inl (invalid [])
  end.

(** *** [insertPatientSchema]

    [createInsertSchema(patients).omit({ id, createdAt }).extend({...})]:
    the four keys of [extend] as they are written there, and the two
    nullable text columns the way drizzle-zod derives them,
    [z.string().nullable().optional()]. *)

(** The codes of the issues of this schema: those above, and the one of
    [max]. *)
Inductive code :=
| zod (c : Zod.code)
| too_big.

Record Issue := mkPatientIssue {
  issue_code : code;
  path : list segment;
  message : option string }.

Definition checked (A : Type) : Type := (list Issue + A)%type.

Definition and_then {A B : Type} (f : checked (A -> B)) (a : checked A)
    : checked B :=
  match f, a with
  | inr g, inr x => inr (g x)
  | inl i, inr _ => inl i
  | inr _, inl j => inl j
  | inl i, inl j => inl (i ++ j)
  end.

Definition of_zod {A : Type} (r : parsed A) : checked A :=
  match r with
  | inl issues =>
      inl (map (fun i => mkPatientIssue (zod (Zod.issue_code i)) (Zod.path i)
                           (Zod.message i)) issues)
  | inr a => inr a
  end.

(** [z.string().min(1, msg)]. *)
Definition string_min1 (msg : string) (p : list segment) (v : option json)
    : checked string :=
  match of_zod (string_ p v) with
  | inl i => inl i
  | inr s =>
      if (String.length s <? 1)%nat
      then inl [mkPatientIssue (zod too_small) p (Some msg)]
      else inr s
  end.

(** [z.number().min(lo).max(hi)]: every check that fails adds its
    issue. *)
Definition number_min_max (lo hi : Number.t) (p : list segment)
    (v : option json) : checked Number.t :=
  match of_zod (number p v) with
  | inl i => inl i
  | inr n =>
      match (if Number.ltb n lo then [mkPatientIssue (zod too_small) p None]
             else [])
            ++ (if Number.ltb hi n then [mkPatientIssue too_big p None]
                else []) with
      | [] => inr n
      | i :: issues => inl (i :: issues)
      end
  end.

(** [z.enum(values)]. *)
Definition enum (values : list string) (p : list segment) (v : option json)
    : checked string :=
  match v with
  | Some (JStr s) =>
      if existsb (String.eqb s) values then inr s
      else inl [mkPatientIssue (zod invalid_enum_value) p None]
  | _ => inl [mkPatientIssue (zod invalid_type) p None]
  end.

(** [s.optional()] on the schemas of this section. *)
Definition or_undefined {A : Type}
    (s : list segment -> option json -> checked A)
    (p : list segment) (v : option json) : checked (option A) :=
  match v with
  | None => inr None
  | Some _ =>
      match s p v with
      | inr a => inr (Some a)
      | inl i => inl i
      end
  end.

(** [z.string().nullable().optional()]; [null] and [undefined] are both
    [None], as the gateway stores [null] for either. *)
Definition string_nullable_optional (p : list segment) (v : option json)
    : checked (option string) :=
  match v with
  | None => inr None
  | Some JNull => inr None
  | Some (JStr s) => inr (Some s)
  | Some _ => inl [mkPatientIssue (zod invalid_type) p None]
  end.

Definition genders : list string := ["male"; "female"; "other"].

(** [insertPatientSchema.parse(body)]. *)
Definition insertPatientSchema (body : json) : checked InsertPatient.t :=
  match body with
  | JObj m =>
      and_then (and_then (and_then (and_then (and_then (and_then
        (inr InsertPatient.mk)
        (string_min1 "Name is required" [Key "name"] (prop "name" m)))
        (number_min_max 0 150 [Key "age"] (prop "age" m)))
        (enum genders [Key "gender"] (prop "gender" m)))
        (or_undefined (number_min_max 1 300) [Key "weight"] (prop "weight" m)))
        (string_nullable_optional [Key "contactNumber"]
           (prop "contactNumber" m)))
        (string_nullable_optional [Key "address"] (prop "address" m))
  | _ => inl [mkPatientIssue (zod invalid_type) [] None]
  end.
End Schemas.

(* ===================================================================== *)
(** ** server/routes.ts: the other routes *)
(* ===================================================================== *)

Module Endpoints.

Inductive payload :=
| PatientsJson (patients : list Patient.t)
| PatientJson (patient : Patient.t)
| DiagnosesJson (diagnoses : list Diagnosis.t)
| DiagnosisJson (diagnosis : Diagnosis.t)
| KnowledgeJson (results : list KnowledgeBase.t)
| Received (message : string) (receivedPayload : DrugInteraction.t)
| Message (message : string) (errors : option (list Zod.ZodIssue))
| InvalidPatient (message : string) (errors : list Schemas.Issue).

(** [res.json(x)] alone answers with status 200. *)
Record Response := mkResponse {
  status : nat;
  body : payload }.

(** GET /api/patients.  Reading the patients has no failing case in
    [Storage], so the [catch] of this handler and of the next is not
    entered. *)
Definition get_patients (db : Db.t) : Response :=
  mkResponse 200 (PatientsJson (Storage.getAllPatients db)).

(** GET /api/patients/:id. *)
Definition get_patient (id : string) (db : Db.t) : Response :=
  match Storage.getPatient id db with
  | None => mkResponse 404 (Message "Patient not found" None)
  | Some patient => mkResponse 200 (PatientJson patient)
  end.

(** POST /api/patients; [id] and [createdAtIso] are what [newId()] and
    [nowIso()] return to [createPatient]. *)
Definition post_patients (id : string) (createdAtIso : Z) (req_body : json)
    (db : Db.t) : Response * Db.t :=
  match Schemas.insertPatientSchema req_body with
  | inl errors =>
      (mkResponse 400 (InvalidPatient "Invalid patient data" errors), db)
  | inr validatedData =>
      match Storage.createPatient id createdAtIso validatedData db with
      | Ok (patient, db') => (mkResponse 201 (PatientJson patient), db')
      | Throw _ =>
          (mkResponse 500 (Message "Failed to create patient" None), db)
      end
  end.

(** GET /api/diagnoses. *)
Definition get_diagnoses (db : Db.t) : Response :=
  match Storage.getAllDiagnoses db with
  | Ok diagnoses => mkResponse 200 (DiagnosesJson diagnoses)
  | Throw _ => mkResponse 500 (Message "Failed to fetch diagnoses" None)
  end.

(** GET /api/diagnoses/:id. *)
Definition get_diagnosis (id : string) (db : Db.t) : Response :=
  match Storage.getDiagnosis id db with
  | Ok None => mkResponse 404 (Message "Diagnosis not found" None)
  | Ok (Some diagnosis) => mkResponse 200 (DiagnosisJson diagnosis)
  | Throw _ => mkResponse 500 (Message "Failed to fetch diagnosis" None)
  end.

(** GET /api/patients/:id/diagnoses. *)
Definition get_patient_diagnoses (id : string) (db : Db.t) : Response :=
  match Storage.getDiagnosesByPatient id db with
  | Ok diagnoses => mkResponse 200 (DiagnosesJson diagnoses)
  | Throw _ =>
      mkResponse 500 (Message "Failed to fetch patient diagnoses" None)
  end.

(** POST /api/drug-interactions. *)
Definition drug_interactions (req_body : json) : Response :=
  match Schemas.drugInteractionSchema req_body with
  | inr validatedData =>
      mkResponse 200
        (Received
           "Drug interaction API hit successfully. NLP not connected yet."
           validatedData)
  | inl errors => mkResponse 400 (Message "Invalid request data" (Some errors))
  end.

(** [req.body[k]] in [const { symptoms, ageGroup, gender } = req.body]:
    [None] is [undefined]. *)
Definition destructured (k : string) (req_body : json) : option json :=
  match req_body with
  | JObj m => prop k m
  | _ => None
  end.

(** POST /api/knowledge/search.  The values of the body reach
    [storage.searchKnowledge] as they are, whatever their types, so the
    storage call is an argument here: [searchKnowledge symptoms ageGroup
    gender db].  Destructuring [null] throws a TypeError; the guard lets
    only a non-empty array through. *)
Definition knowledge_search
    (searchKnowledge : list json -> option json -> option json -> Db.t
                       -> result exn (list KnowledgeBase.t))
    (req_body : json) (db : Db.t) : Response :=
  match req_body with
  | JNull => mkResponse 500 (Message "Failed to search knowledge base" None)
  | _ =>
      match destructured "symptoms" req_body with
      | Some (JArr symptoms) =>
          if (length symptoms =? 0)%nat
          then mkResponse 400 (Message "Symptoms are required" None)
          else
            match searchKnowledge symptoms (destructured "ageGroup" req_body)
                    (destructured "gender" req_body) db with
            | Ok results => mkResponse 200 (KnowledgeJson results)
            | Throw _ =>
                mkResponse 500
                  (Message "Failed to search knowledge base" None)
            end
      | _ => mkResponse 400 (Message "Symptoms are required" None)
      end
  end.

End Endpoints.

(* ===================================================================== *)
(** ** client/src/pages: the diagnosis page and the history page *)
(* ===================================================================== *)

(** [!v] on a JSON value. *)
Definition falsy (v : json) : bool :=
  match v with
  | JNull => true
  | JBool b => negb b
  | JNum n => match n with Number.Zero => true | Number.Dec _ _ _ _ => false end
  | JStr s => negb (Offline.truthy s)
  | JArr _ => false
  | JObj _ => false
  end.

Module Pages.
Import Offline.

(** *** DiagnosisPage.tsx *)

(** The state update of [handleSymptomToggle]. *)
Definition handleSymptomToggle (symptom : string) (prev : list string)
    : list string :=
  if existsb (String.eqb symptom) prev
  then List.filter (fun s => negb (String.eqb s symptom)) prev
  else prev ++ [symptom].

Record Toast := mkToast {
  title : string;
  description : string;
  variant : option string }.

(** What the callbacks of [analyzeMutation] act on: the result the page
    shows, the query keys invalidated so far, the storage area and the
    toasts raised so far. *)
Record Page := mkPage {
  diagnosisResult : option value;
  invalidated : list string;
  localStorage : Storage;
  toasts : list Toast }.

(** [!!v] on what the resolver returns. *)
Definition truthy_value (v : value) : bool :=
  match v with
  | Plain j => negb (falsy j)
  | ArrayWith _ _ => true
  end.

(** What [JSON.stringify] sees of a value: the properties an array was
    given are not serialised. *)
Definition value_json (v : value) : json :=
  match v with
  | Plain j => j
  | ArrayWith elems _ => JArr elems
  end.

(** [data && data.mode === "offline" ? ... : ...]. *)
Definition description_of (data : value) : string :=
  if truthy_value data
     && match mode data with
        | Some (JStr m) => String.eqb m "offline"
        | _ => false
        end
  then "Diagnosis completed in offline mode"
  else "Diagnosis completed successfully".

Section Callbacks.
(** [t.success] and [t.error] of the translation in use; the code
    points of a string, as iterating over it yields them; and the time
    of the clock, as [new Date().toISOString()]. *)
Variables t_success t_error : string.
Variable chars : string -> list string.
Variable now : string.

(** [[...v]]. *)
Definition spread (v : json) : result exn (list json) :=
  match v with
  | JArr l => Ok l
  | JStr s => Ok (map JStr (chars s))
  | _ => Throw TypeError
  end.

(** [analyzeMutation.onSuccess]. *)
Definition onSuccess (data : value) (page : Page) : result exn unit * Page :=
  let casted := data in
  let page1 :=
    mkPage (Some casted)
      (invalidated page ++ ["/api/patients"; "/api/diagnoses"])
      (localStorage page) (toasts page) in
  let cached := getDiagnoses (localStorage page1) in
  match spread (if falsy cached then JArr [] else cached) with
  | Throw e => (Throw e, page1)
  | Ok cachedDiagnoses =>
      (Ok tt,
       mkPage (diagnosisResult page1) (invalidated page1)
         (saveDiagnoses now (cachedDiagnoses ++ [value_json casted])
            (localStorage page1))
         (toasts page1
          ++ [mkToast t_success (description_of data) None]))
  end.

(** [analyzeMutation.onError]. *)
Definition onError (page : Page) : Page :=
  mkPage (diagnosisResult page) (invalidated page) (localStorage page)
    (toasts page
     ++ [mkToast t_error "Failed to analyze symptoms" (Some "destructive")]).
End Callbacks.

(** *** HistoryPage.tsx *)

Section History.
(** [new Date(value).getTime()]; [None] is NaN, the time of an invalid
    date. *)
Variable Date_getTime : json -> option Z.

(** [value] is [None] when the property is missing. *)
Definition parseCreatedAt (value : option json) : option Z :=
  match value with
  | None => None
  | Some v => if falsy v then None else Date_getTime v
  end.

(** The comparator of [sortedDiagnoses], on the members of two
    diagnoses. *)
Definition compare_createdAt (a b : list (string * json)) : Z :=
  match parseCreatedAt (prop "createdAt" a),
        parseCreatedAt (prop "createdAt" b) with
  | None, None => 0
  | None, Some _ => 1
  | Some _, None => -1
  | Some da, Some db => db - da
  end.

Definition sortedDiagnoses (diagnoses : list (list (string * json)))
    : list (list (string * json)) :=
  sort compare_createdAt diagnoses.
End History.

End Pages.

(* ===================================================================== *)
(** ** The states of the record gateway, and the words of the
       specification *)
(* ===================================================================== *)

(** The databases the gateway's own write operations produce, starting
    from the empty tables of db.ts. *)
Inductive reachable : Db.t -> Prop :=
| reach_empty : reachable Db.empty
| reach_createPatient id createdAtIso insertPatient db p db' :
    reachable db ->
    Storage.createPatient id createdAtIso insertPatient db = Ok (p, db') ->
    reachable db'
| reach_createDiagnosis id createdAtIso insertDiagnosis db d db' :
    reachable db ->
    Storage.createDiagnosis id createdAtIso insertDiagnosis db = Ok (d, db') ->
    reachable db'
| reach_addKnowledgeEntry id createdAtIso entry db e db' :
    reachable db ->
    Storage.addKnowledgeEntry id createdAtIso entry db = Ok (e, db') ->
    reachable db'.

(** The same databases, each with the entries of its knowledge base: the
    records [addKnowledgeEntry] returned to its callers, in the order of the
    calls. *)
Inductive stores : Db.t -> list KnowledgeBase.t -> Prop :=
| stores_empty : stores Db.empty []
| stores_createPatient id createdAtIso insertPatient db p db' entries :
    stores db entries ->
    Storage.createPatient id createdAtIso insertPatient db = Ok (p, db') ->
    stores db' entries
| stores_createDiagnosis id createdAtIso insertDiagnosis db d db' entries :
    stores db entries ->
    Storage.createDiagnosis id createdAtIso insertDiagnosis db = Ok (d, db') ->
    stores db' entries
| stores_addKnowledgeEntry id createdAtIso entry db e db' entries :
    stores db entries ->
    Storage.addKnowledgeEntry id createdAtIso entry db = Ok (e, db') ->
    stores db' (entries ++ [e]).

(** A value that is a JavaScript array. *)
Definition is_list (v : json) : Prop := exists l, v = JArr l.

(** The symptom strings of a stored entry. *)
Definition stored_symptoms (e : KnowledgeBase.t) : list string :=
  match KnowledgeBase.symptoms e with
  | JArr l =>
      flat_map (fun x => match x with JStr s => [s] | _ => [] end) l
  | _ => []
  end.

(** The match of section 4.3, in the specification's words: the age group
    is equal, the gender is equal or the stored gender is "other", and the
    stored symptoms share an element with the query. *)
Definition spec_matches (symptoms : list string) (ageGroup gender : string)
    (e : KnowledgeBase.t) : bool :=
  String.eqb (KnowledgeBase.ageGroup e) ageGroup
  && (String.eqb (KnowledgeBase.gender e) gender
      || String.eqb (KnowledgeBase.gender e) "other")
  && existsb (fun s => existsb (String.eqb s) (stored_symptoms e)) symptoms.

(** Descending confidence. *)
Definition confidence_ge (a b : KnowledgeBase.t) : Prop :=
  Number.le (KnowledgeBase.confidence b) (KnowledgeBase.confidence a).

(** The fallback backend cannot be reached: the request fails in
    transport, or it is answered with a status outside 2xx. *)
Definition unreachable (r : Offline.fetched) : Prop :=
  match r with
  | Offline.Rejected => True
  | Offline.Resolved res => Offline.ok res = false
  end.

(** The [mode] member an answer of the fallback backend carries by
    itself, if it is a 2xx answer whose body is an object with one. *)
Definition own_mode (r : Offline.fetched) : option json :=
  match r with
  | Offline.Resolved res =>
      if Offline.ok res then
        match Offline.json_body res with
        | Some (JObj m) => if has_key "mode" m then prop "mode" m else None
        | _ => None
        end
      else None
  | Offline.Rejected => None
  end.

(** What the caller receives of an answer of the fallback backend: the
    body of a 2xx answer as it was received, with a [mode] "offline" added
    where the body carries no [mode] of its own, and the degraded object
    where the request failed, was answered outside 2xx, or has a body that
    is no JSON object and no JSON array. *)
Definition fallback_result (r : Offline.fetched)
    (input : Offline.OfflineDiagnosisInput.t) : Offline.value :=
  match r with
  | Offline.Rejected => Offline.unavailable input
  | Offline.Resolved res =>
      if Offline.ok res then
        match Offline.json_body res with
        | Some (JObj m) =>
            if has_key "mode" m then Offline.Plain (JObj m)
            else Offline.Plain (JObj (m ++ [("mode", JStr "offline")]))
        | Some (JArr l) => Offline.ArrayWith l [("mode", JStr "offline")]
        | _ => Offline.unavailable input
        end
      else Offline.unavailable input
  end.

(** The members of the body of a 2xx answer that is a JSON object. *)
Definition body_members (r : Offline.fetched) : option (list (string * json)) :=
  match r with
  | Offline.Resolved res =>
      if Offline.ok res then
        match Offline.json_body res with
        | Some (JObj m) => Some m
        | _ => None
        end
      else None
  | Offline.Rejected => None
  end.

(** The identifiers in use in two of the tables. *)
Definition diagnosis_ids (db : Db.t) : list string :=
  map Db.DiagnosisRow.id (Db.diagnoses db).

Definition knowledge_ids (db : Db.t) : list string :=
  map Db.KnowledgeRow.id (Db.knowledge_base db).

(** The rows the gateway writes. *)
Definition written_diagnosis (row : Db.DiagnosisRow.t) : Prop :=
  exists id createdAtIso insertDiagnosis,
    row = Storage.diagnosis_row id createdAtIso insertDiagnosis.

Definition written_knowledge (row : Db.KnowledgeRow.t) : Prop :=
  exists id createdAtIso entry,
    row = Storage.knowledge_row id createdAtIso entry.

(** What a reader of a [Diagnosis] relies on: the two list fields are
    arrays. *)
Definition normalized (d : Diagnosis.t) : Prop :=
  is_list (Diagnosis.symptoms d) /\ is_list (Diagnosis.differentialDiagnoses d).

(** The two addresses the code posts to. *)
Definition fallback_url : string := "http://localhost:8000/analyze".
Definition primary_url : string := "http://127.0.0.1:8000/analyze".

(** The state of the handler once its request to the diagnosis backend
    was sent. *)
Definition sent (st : Routes.State) (v : SymptomAnalysis.t) : Routes.State :=
Routes.mkState (Routes.db st)
  (Routes.calls st ++ [Routes.AxiosPost primary_url v 28000]).

(** The issue the schema raises on an empty symptom list. *)
Definition no_symptom_issue : Zod.ZodIssue :=
Zod.mkIssue Zod.too_small [Zod.Key "symptoms"]
  (Some "At least one symptom is required").

(** The comparator [(a, b) => key(b) - key(a)], and the order it sorts
    into. *)
Definition by_key_desc {A : Type} (key : A -> Z) (a b : A) : Z := key b - key a.

Definition key_ge {A : Type} (key : A -> Z) (a b : A) : Prop := key b <= key a.

(** The instant a diagnosis was created, at the resolution of the
    ORDER BY of the listings. *)
Definition created_second (d : Diagnosis.t) : Z :=
Db.datetime (Diagnosis.createdAt d).

(** The identifiers in use among the patients. *)
Definition patient_ids (db : Db.t) : list string :=
map Db.PatientRow.id (Db.patients db).

(* ===================================================================== *)
(** ** Runs used as examples *)
(* ===================================================================== *)

(** A request of the page, a browser that is online while the server
    answers 500 and the local service answers with a [mode] of its own, and
    a browser that is offline while the local service is down. *)
Definition input_fever : Offline.OfflineDiagnosisInput.t :=
Offline.OfflineDiagnosisInput.mk (Some "p1") ["fever"] None 30 "male" None "en".

Definition world_fallback_tagged_online : Offline.World :=
Offline.mkWorld (Some true)
  (fun _ _ _ => Throw (Offline.RequestFailed 500))
  (fun _ _ =>
     Offline.Resolved
       (Offline.mkResponse 200
          (Some (JObj [("mode", JStr "online"); ("primaryDiagnosis", JStr "Flu")])))).

Definition world_offline_unreachable : Offline.World :=
Offline.mkWorld (Some false)
  (fun _ _ _ => Throw Offline.NetworkError)
  (fun _ _ => Offline.Rejected).

(** A storage area with room for ten characters, one with room for a
    thousand, a list of one patient and a time stamp. *)
Definition storage_small : Offline.Storage := Offline.mkStorage ∅ 10.
Definition storage_roomy : Offline.Storage := Offline.mkStorage ∅ 1000.
Definition items_one : list json := [JObj [("id", JStr "p1"); ("age", JNum 30)]].
Definition stamp : string := "2024-01-01T00:00:00.000Z".

(** A database with one patient, an analyze request for that patient, the
    same request without symptoms, and an answer of the diagnosis backend. *)
Definition db_one_patient : Db.t :=
Db.mk [Db.PatientRow.mk "p1" "A" 30 "male" None None None 5] [] [].

Definition members_fever : list (string * json) :=
[("patientId", JStr "p1"); ("symptoms", JArr [JStr "fever"; JStr "cough"]);
 ("patientAge", JNum 17); ("patientGender", JStr "male")].

Definition members_no_symptoms : list (string * json) :=
[("patientId", JStr "p1"); ("symptoms", JArr []);
 ("patientAge", JNum 17); ("patientGender", JStr "male")].

Definition request_fever : SymptomAnalysis.t :=
SymptomAnalysis.mk "p1" ["fever"; "cough"] None 17 "male" None "en".

Definition ai_flu : AiDiagnosis.t :=
AiDiagnosis.mk "Flu" (Some [DifferentialDiagnosis.mk "Flu" 80 "seasonal"])
  None None None.

(** Two environments of the handler: in the second, [newId()] returns for
    the knowledge entry an id the table already holds. *)
Definition env_flu : Routes.Env :=
Routes.mkEnv (fun _ _ _ => Ok ai_flu) "d1" 1000 "k1" 2000.

Definition env_flu_again : Routes.Env :=
Routes.mkEnv (fun _ _ _ => Ok ai_flu) "d2" 3000 "k1" 4000.

(** The database after one successful analyze request. *)
Definition db_after_flu : Db.t :=
Routes.db (snd (Routes.diagnose env_flu (JObj members_fever)
                  (Routes.mkState db_one_patient []))).

(** Numbers with a fraction: a temperature of 98.6, an age of 41.5 and a
    confidence of 87.5. *)
Definition n98_6 : Number.t := Number.Dec false 98 Number.d6 (-1).
Definition n41_5 : Number.t := Number.Dec false 41 Number.d5 (-1).
Definition n87_5 : Number.t := Number.Dec false 87 Number.d5 (-1).

(** A request with vital signs as the page sends them, an answer of the
    diagnosis backend to it, the environment of the handler, and the
    database after this second request. *)
Definition members_vitals : list (string * json) :=
[("patientId", JStr "p1"); ("symptoms", JArr [JStr "rash"; JStr "fever"]);
 ("vitalSigns", JObj [("temperature", JNum n98_6); ("heartRate", JNum 72)]);
 ("patientAge", JNum n41_5); ("patientGender", JStr "other");
 ("patientWeight", JNum 70)].

Definition request_vitals : SymptomAnalysis.t :=
SymptomAnalysis.mk "p1" ["rash"; "fever"]
  (Some (VitalSigns.mk (Some n98_6) None (Some (Number.of_Z 72)) None None))
  n41_5 "other" (Some (Number.of_Z 70)) "en".

Definition ai_measles : AiDiagnosis.t :=
AiDiagnosis.mk "Measles" (Some [DifferentialDiagnosis.mk "Measles" n87_5 "rash"])
  None (Some true) (Some "isolation").

Definition env_measles : Routes.Env :=
Routes.mkEnv (fun _ _ _ => Ok ai_measles) "d2" 3000 "k2" 4000.

Definition db_after_measles : Db.t :=
Routes.db (snd (Routes.diagnose env_measles (JObj members_vitals)
                  (Routes.mkState db_after_flu []))).

(** The entries of the knowledge base after the two requests, and two
    entries added to it by hand; the database that holds the four. *)
Definition entry_flu : KnowledgeBase.t :=
Storage.knowledge_of "k1" 2000 (Routes.entry_of request_fever ai_flu).

Definition entry_measles : KnowledgeBase.t :=
Storage.knowledge_of "k2" 4000 (Routes.entry_of request_vitals ai_measles).

Definition added_rubella : KnowledgeEntry.t :=
KnowledgeEntry.mk (Some ["fever"; "rash"]) "adult" "other" "Rubella" 90 None.

Definition added_migraine : KnowledgeEntry.t :=
KnowledgeEntry.mk (Some ["headache"]) "adult" "male" "Migraine" 95 None.

Definition entry_rubella : KnowledgeBase.t :=
Storage.knowledge_of "k3" 5000 added_rubella.

Definition entry_migraine : KnowledgeBase.t :=
Storage.knowledge_of "k4" 6000 added_migraine.

Definition db_four_entries : Db.t :=
Db.mk (Db.patients db_after_measles) (Db.diagnoses db_after_measles)
  (Db.knowledge_base db_after_measles
   ++ [Storage.knowledge_row "k3" 5000 added_rubella;
       Storage.knowledge_row "k4" 6000 added_migraine]).

(** An environment in which the diagnosis backend cannot be reached. *)
Definition env_backend_down : Routes.Env :=
Routes.mkEnv (fun _ _ _ => Throw AxiosError) "d1" 1000 "k1" 2000.

(* ===================================================================== *)
(** ** Further notions *)
(* ===================================================================== *)

(** What the constraints of db.ts keep true of the tables: an id occurs
    once in its table, and the patient of a diagnosis is in the patients. *)
Definition consistent (db : Db.t) : Prop :=
  List.NoDup (patient_ids db)
  /\ List.NoDup (diagnosis_ids db)
  /\ List.NoDup (knowledge_ids db)
  /\ Forall (fun r => In (Db.DiagnosisRow.patientId r) (patient_ids db))
       (Db.diagnoses db).

(** The instant a patient was created, at the resolution of the ORDER BY
    of the listing. *)
Definition patient_second (p : Patient.t) : Z :=
  Db.datetime (Patient.createdAt p).

(** The record a row is read as, if it can be read. *)
Definition read_diagnosis (row : Db.DiagnosisRow.t) : list Diagnosis.t :=
  match Storage.rowToDiagnosis row with
  | Ok d => [d]
  | Throw _ => []
  end.

(** A body of an analyze request with the values of [v]: an object with a
    member for each value [v] has, in the order of the schema; the vital
    signs and the weight are left out where [v] has none. *)
Definition request_json (v : SymptomAnalysis.t) : json :=
  JObj ([("patientId", JStr (SymptomAnalysis.patientId v));
         ("symptoms", Storage.strings_json (SymptomAnalysis.symptoms v))]
        ++ VitalSigns.field "vitalSigns" VitalSigns.to_json
             (SymptomAnalysis.vitalSigns v)
        ++ [("patientAge", JNum (SymptomAnalysis.patientAge v));
            ("patientGender", JStr (SymptomAnalysis.patientGender v))]
        ++ VitalSigns.field "patientWeight" JNum (SymptomAnalysis.patientWeight v)
        ++ [("language", JStr (SymptomAnalysis.language v))]).

(** The keys [symptomAnalysisSchema] declares. *)
Definition request_keys : list string :=
  ["patientId"; "symptoms"; "vitalSigns"; "patientAge"; "patientGender";
   "patientWeight"; "language"].

(** A ZodError carries at least one issue. *)
Definition raises {A : Type} (r : Zod.parsed A) : Prop :=
  match r with
  | inl issues => issues <> []
  | inr _ => True
  end.

(** A rejection by [insertPatientSchema] carries at least one issue. *)
Definition refuses {A : Type} (r : Schemas.checked A) : Prop :=
  match r with
  | inl issues => issues <> []
  | inr _ => True
  end.

(** What [insertPatientSchema] asks of the name, the age, the gender and
    the weight of a patient. *)
Definition acceptable (name : string) (age : Number.t) (gender : string)
    (weight : option Number.t) : Prop :=
  name <> ""
  /\ (Number.le 0 age /\ Number.le age 150)
  /\ In gender Schemas.genders
  /\ match weight with
     | Some w => Number.le 1 w /\ Number.le w 300
     | None => True
     end.

(** The message of POST /api/drug-interactions. *)
Definition drug_message : string :=
  "Drug interaction API hit successfully. NLP not connected yet.".

(** The strings of an array of strings. *)
Fixpoint strings_of (l : list json) : option (list string) :=
  match l with
  | [] => Some []
  | JStr s :: t => option_map (cons s) (strings_of t)
  | _ :: _ => None
  end.


(** The toast a result is announced with, by the [mode] the answer of the
    fallback backend carried by itself. *)
Definition announced (own : option json) : string :=
  match own with
  | None => "Diagnosis completed in offline mode"
  | Some (JStr m) =>
      if String.eqb m "offline" then "Diagnosis completed in offline mode"
      else "Diagnosis completed successfully"
  | Some _ => "Diagnosis completed successfully"
  end.

(** The order of the history page: a diagnosis whose date can be read
    comes before one whose date cannot, and among those with a date the
    later comes first. *)
Definition history_order (Date_getTime : json -> option Z)
    (a b : list (string * json)) : Prop :=
  match Pages.parseCreatedAt Date_getTime (prop "createdAt" a),
        Pages.parseCreatedAt Date_getTime (prop "createdAt" b) with
  | Some ta, Some tb => tb <= ta
  | Some _, None => True
  | None, None => True
  | None, Some _ => False
  end.

(** A diagnosis without a date that can be read. *)
Definition undated (Date_getTime : json -> option Z)
    (a : list (string * json)) : bool :=
  match Pages.parseCreatedAt Date_getTime (prop "createdAt" a) with
  | Some _ => false
  | None => true
  end.

(* ===================================================================== *)
(** ** Further runs used as examples *)
(* ===================================================================== *)

(** An entry to add to the knowledge base, stored with gender "other". *)
Definition entry_other : KnowledgeEntry.t :=
  KnowledgeEntry.mk (Some ["fever"; "rash"]) "adult" "other" "Measles" 90 None.

(** A database with a diagnosis whose symptoms column does not hold
    JSON. *)
Definition db_unreadable : Db.t :=
  Db.mk (Db.patients db_one_patient)
    [Db.DiagnosisRow.mk "d9" "p1" (Some "fever") None "Flu" None None 0 None
       (Some "en") 7000]
    [].

(** A request for a patient the database does not hold, and a request
    that gives the weight as [null]. *)
Definition members_unknown_patient : list (string * json) :=
  [("patientId", JStr "p7"); ("symptoms", JArr [JStr "fever"; JStr "cough"]);
   ("patientAge", JNum 17); ("patientGender", JStr "male")].

Definition request_unknown_patient : SymptomAnalysis.t :=
  SymptomAnalysis.mk "p7" ["fever"; "cough"] None 17 "male" None "en".

Definition members_null_weight : list (string * json) :=
  members_fever ++ [("patientWeight", JNull)].

(** Two search requests: one for a symptom of the knowledge base of the
    examples, one without symptoms. *)
Definition search_fever : json :=
  JObj [("symptoms", JArr [JStr "fever"]); ("ageGroup", JStr "child");
        ("gender", JStr "male")].

Definition search_nothing : json :=
  JObj [("symptoms", JArr []); ("ageGroup", JStr "child"); ("gender", JStr "male")].

(** A page that has shown nothing yet, over the roomy storage area. *)
Definition page_fresh : Pages.Page := Pages.mkPage None [] storage_roomy [].

(** A diagnosis as the history page caches it, with a temperature of 98.6,
    and a page whose cache holds it. *)
Definition cached_diagnosis : json :=
  JObj [("id", JStr "d0"); ("vitalSigns", JObj [("temperature", JNum n98_6)])].

Definition page_cached : Pages.Page :=
  Pages.mkPage None []
    (Offline.mkStorage
       (<[Offline.CACHE_KEYS.DIAGNOSES := stringify (JArr [cached_diagnosis])]> ∅)
       1000)
    [].

(** A storage call to run the knowledge search of the examples with.  It
    is an input of the example, as the worlds and the environments above
    are: on an array of strings and two strings, the types
    [SqliteStorage.searchKnowledge] declares, it is that method; what it
    answers to other values is a choice of the example, which no theorem
    relies on. *)
Definition search_declared (symptoms : list json) (ageGroup gender : option json)
    (db : Db.t) : result exn (list KnowledgeBase.t) :=
  match strings_of symptoms, ageGroup, gender with
  | Some ss, Some (JStr a), Some (JStr g) => Storage.searchKnowledge ss a g db
  | _, _, _ => Ok []
  end.

(* ===================================================================== *)
(** ** [JSON.parse] reads back what [JSON.stringify] writes *)
(* ===================================================================== *)

Lemma str_app_cons c s t : String c s +:+ t = String c (s +:+ t).
Proof. reflexivity. Qed.

Lemma str_app_empty_l t : "" +:+ t = t.
Proof. reflexivity. Qed.

Lemma str_app_assoc s t u : (s +:+ t) +:+ u = s +:+ (t +:+ u).
Proof. induction s as [|c s IH]; [reflexivity|]. rewrite !str_app_cons, IH. reflexivity. Qed.

Lemma str_app_empty_r s : s +:+ "" = s.
Proof. induction s as [|c s IH]; [reflexivity|]. rewrite str_app_cons, IH. reflexivity. Qed.

Lemma str_length_app s t : String.length (s +:+ t) = (String.length s + String.length t)%nat.
Proof. induction s as [|c s IH]; [reflexivity|]. rewrite str_app_cons. simpl. rewrite IH. reflexivity. Qed.

(** Strings *)
Lemma parse_chars_escape_char c t :
  parse_chars (escape_char c +:+ t) =
  match parse_chars t with
  | Some (r, rest) => Some (String c r, rest)
  | None => None
  end.
Proof.
  destruct c as [[] [] [] [] [] [] [] []]; reflexivity.
Qed.

Lemma parse_chars_escape s rest :
  parse_chars (escape s +:+ String DQ rest) = Some (s, rest).
Proof.
  induction s as [|c s IH].
  - reflexivity.
  - cbn [escape]. rewrite str_app_assoc, parse_chars_escape_char, IH. reflexivity.
Qed.

(** Numbers *)

(** *** Digits *)

Lemma span_digits_all ds rest :
  all_digits ds = true -> stops rest = true ->
  span_digits (ds +:+ rest) = (ds, rest).
Proof.
  intros Hds Hrest. induction ds as [|c ds IH].
  - rewrite str_app_empty_l. destruct rest as [|c r]; [reflexivity|].
    cbn [span_digits]. cbn in Hrest. apply negb_true_iff in Hrest.
    rewrite Hrest. reflexivity.
  - cbn [all_digits] in Hds. apply andb_true_iff in Hds as [Hc Hds].
    rewrite str_app_cons. cbn [span_digits]. rewrite Hc, IH by assumption.
    reflexivity.
Qed.

Lemma all_digits_app s t :
  all_digits (s +:+ t) = all_digits s && all_digits t.
Proof.
  induction s as [|c s IH]; [reflexivity|].
  rewrite str_app_cons. cbn [all_digits]. rewrite IH, andb_assoc. reflexivity.
Qed.

Lemma all_digits_uint d : all_digits (NilEmpty.string_of_uint d) = true.
Proof. induction d; cbn [NilEmpty.string_of_uint all_digits]; auto. Qed.

Lemma all_digits_print_nat n : all_digits (Number.print_nat n) = true.
Proof. apply all_digits_uint. Qed.

Lemma all_digits_zeros j : all_digits (Number.zeros j) = true.
Proof. induction j; cbn [Number.zeros all_digits]; auto. Qed.

Lemma take_drop n s : Number.take n s +:+ Number.drop n s = s.
Proof.
  revert s. induction n as [|n IH]; intros [|c s]; try reflexivity.
  cbn [Number.take Number.drop]. rewrite str_app_cons, IH. reflexivity.
Qed.

Lemma length_drop n s :
  String.length (Number.drop n s) = (String.length s - n)%nat.
Proof.
  revert s. induction n as [|n IH]; intros [|c s]; try reflexivity.
  cbn [Number.drop String.length]. rewrite IH. reflexivity.
Qed.

Lemma length_zeros j : String.length (Number.zeros j) = j.
Proof. induction j; cbn [Number.zeros String.length]; auto. Qed.

Lemma all_digits_take n s : all_digits s = true -> all_digits (Number.take n s) = true.
Proof.
  intros H. rewrite <- (take_drop n s), all_digits_app in H.
  apply andb_true_iff in H. tauto.
Qed.

Lemma all_digits_drop n s : all_digits s = true -> all_digits (Number.drop n s) = true.
Proof.
  intros H. rewrite <- (take_drop n s), all_digits_app in H.
  apply andb_true_iff in H. tauto.
Qed.

(** *** The value of a string of digits *)

Lemma value_from_app acc s t :
  Number.value_from acc (s +:+ t)
  = Number.value_from (Number.value_from acc s) t.
Proof.
  revert acc. induction s as [|c s IH]; intros acc; [reflexivity|].
  rewrite str_app_cons. cbn [Number.value_from]. apply IH.
Qed.

Lemma value_from_uint_acc d acc :
  Number.value_from (N.pos acc) (NilEmpty.string_of_uint d)
  = N.pos (Pos.of_uint_acc d acc).
Proof.
  revert acc.
  induction d; intros acc;
    cbn [NilEmpty.string_of_uint Number.value_from Pos.of_uint_acc];
    try reflexivity;
    match goal with
    | |- context [nat_of_ascii ?c] =>
        let v := eval vm_compute in (N.of_nat (nat_of_ascii c - 48)) in
        change (N.of_nat (nat_of_ascii c - 48)) with v
    end;
    rewrite <- IHd; f_equal; lia.
Qed.

Lemma value_from_uint d :
  Number.value_from 0 (NilEmpty.string_of_uint d) = N.of_uint d.
Proof.
  unfold N.of_uint.
  induction d; cbn [NilEmpty.string_of_uint Number.value_from Pos.of_uint];
    try reflexivity;
    match goal with
    | |- context [nat_of_ascii ?c] =>
        let v := eval vm_compute in (N.of_nat (nat_of_ascii c - 48)) in
        change (N.of_nat (nat_of_ascii c - 48)) with v
    end;
    cbn [N.mul N.add]; try apply value_from_uint_acc.
  exact IHd.
Qed.

Lemma value_print_nat n : Number.value (Number.print_nat n) = n.
Proof.
  unfold Number.value, Number.print_nat.
  rewrite value_from_uint. apply DecimalN.Unsigned.of_to.
Qed.

Lemma value_from_zeros acc j :
  Number.value_from acc (Number.zeros j) = (acc * 10 ^ N.of_nat j)%N.
Proof.
  revert acc. induction j as [|j IH]; intros acc.
  - cbn. lia.
  - cbn [Number.zeros Number.value_from]. rewrite IH.
    change (N.of_nat (nat_of_ascii "0" - 48)) with 0%N.
    rewrite Nat2N.inj_succ, N.pow_succ_r'. lia.
Qed.

(** *** The first digit of a printed number *)

Lemma unorm_to_uint n : unorm (N.to_uint n) = N.to_uint n.
Proof. rewrite <- DecimalN.Unsigned.to_of, DecimalN.Unsigned.of_to. reflexivity. Qed.

Lemma print_nat_head n :
  n <> 0%N ->
  exists c s, Number.print_nat n = String c s
              /\ is_digit c = true /\ Ascii.eqb c "0" = false.
Proof.
  intros Hn. unfold Number.print_nat.
  pose proof (unorm_to_uint n) as Hu.
  pose proof (DecimalN.Unsigned.of_to n) as Ho.
  destruct (N.to_uint n) as [|d|d|d|d|d|d|d|d|d|d] eqn:E;
    cbn [NilEmpty.string_of_uint];
    try (eexists _, _; repeat split; reflexivity).
  - discriminate Hu.
  - exfalso. unfold unorm in Hu. cbn [nzhead] in Hu.
    destruct (nzhead d) eqn:Ed;
      try (rewrite <- Ed in Hu; exact (nzhead_nonzero _ _ Hu)).
    inversion Hu; subst d. apply Hn. rewrite <- Ho. reflexivity.
Qed.

(** *** Numbers are written one way *)

Lemma digits_div hi lo : (Number.digits hi lo / 10 = hi)%N.
Proof.
  unfold Number.digits. rewrite N.add_comm, (N.mul_comm 10 hi), N.div_add by lia.
  destruct lo; cbn [Number.digit_value]; reflexivity.
Qed.

Lemma digits_mod hi lo : (Number.digits hi lo mod 10 = Number.digit_value lo)%N.
Proof.
  unfold Number.digits. rewrite N.add_comm, (N.mul_comm 10 hi), N.Div0.mod_add.
  destruct lo; cbn [Number.digit_value]; reflexivity.
Qed.

Lemma digit_of_value lo : Number.digit_of (Number.digit_value lo) = lo.
Proof. destruct lo; reflexivity. Qed.

Lemma digits_nonzero hi lo : Number.digits hi lo <> 0%N.
Proof. unfold Number.digits. destruct lo; cbn [Number.digit_value]; lia. Qed.

Lemma strip_pow f m e j :
  (m mod 10 <> 0)%N -> (j <= f)%nat ->
  Number.strip f (m * 10 ^ N.of_nat j) e = (m, e + Z.of_nat j).
Proof.
  intros Hm. revert f e. induction j as [|j IH]; intros f e Hf.
  - change (10 ^ N.of_nat 0)%N with 1%N. rewrite N.mul_1_r, Z.add_0_r.
    destruct f as [|f]; [reflexivity|]. cbn [Number.strip].
    apply N.eqb_neq in Hm. rewrite Hm. reflexivity.
  - destruct f as [|f]; [lia|]. cbn [Number.strip].
    rewrite Nat2N.inj_succ, N.pow_succ_r'.
    replace (m * (10 * 10 ^ N.of_nat j))%N with ((m * 10 ^ N.of_nat j) * 10)%N by lia.
    rewrite N.Div0.mod_mul, N.eqb_refl, N.div_mul by lia.
    rewrite IH by lia. f_equal. lia.
Qed.

Lemma make_digits negative hi lo e j :
  Number.make negative (Number.digits hi lo * 10 ^ N.of_nat j) e
  = Number.Dec negative hi lo (e + Z.of_nat j).
Proof.
  unfold Number.make.
  pose proof (digits_nonzero hi lo) as Hnz.
  assert (Hp : (10 ^ N.of_nat j <> 0)%N) by (apply N.pow_nonzero; lia).
  assert (Hprod : (Number.digits hi lo * 10 ^ N.of_nat j <> 0)%N) by lia.
  apply N.eqb_neq in Hprod. rewrite Hprod.
  rewrite strip_pow.
  - rewrite digits_div, digits_mod, digit_of_value. reflexivity.
  - rewrite digits_mod. destruct lo; cbn; lia.
  - assert (N.of_nat j <= N.log2 (Number.digits hi lo * 10 ^ N.of_nat j))%N; [|lia].
    rewrite <- (N.log2_pow2 (N.of_nat j)) at 1 by lia.
    apply N.log2_le_mono.
    assert (2 ^ N.of_nat j <= 10 ^ N.of_nat j)%N by (apply N.pow_le_mono_l; lia).
    nia.
Qed.

Lemma make_digits_0 negative hi lo e :
  Number.make negative (Number.digits hi lo) e = Number.Dec negative hi lo e.
Proof.
  pose proof (make_digits negative hi lo e 0) as H.
  change (10 ^ N.of_nat 0)%N with 1%N in H.
  rewrite N.mul_1_r, Z.add_0_r in H. exact H.
Qed.

(** *** The parts of a number literal *)

Lemma ends_number_stops rest : ends_number rest = true -> stops rest = true.
Proof.
  destruct rest as [|c r]; [reflexivity|]. cbn.
  rewrite !negb_true_iff, !orb_false_iff. tauto.
Qed.

Lemma parse_int_digits c ds rest :
  all_digits (String c ds) = true ->
  (ds = "" \/ Ascii.eqb c "0" = false) ->
  stops rest = true ->
  parse_int (String c ds +:+ rest) = Some (String c ds, rest).
Proof.
  intros Hall Hc Hrest. unfold parse_int.
  rewrite span_digits_all by assumption.
  destruct ds as [|d ds]; [reflexivity|].
  destruct Hc as [Hc|Hc]; [discriminate|]. rewrite Hc. reflexivity.
Qed.

Lemma parse_frac_none rest :
  ends_number rest = true -> parse_frac rest = Some ("", rest).
Proof.
  destruct rest as [|c r]; [reflexivity|]. cbn.
  rewrite !negb_true_iff, !orb_false_iff. intros (((_ & H) & _) & _).
  rewrite H. reflexivity.
Qed.

Lemma parse_frac_digits ds rest :
  ds <> "" -> all_digits ds = true -> stops rest = true ->
  parse_frac (String "." (ds +:+ rest)) = Some (ds, rest).
Proof.
  intros Hne Hall Hrest. unfold parse_frac.
  change (Ascii.eqb "." ".") with true. cbn iota.
  rewrite span_digits_all by assumption.
  destruct ds; [congruence|reflexivity].
Qed.

Lemma parse_exp_none rest :
  ends_number rest = true -> parse_exp rest = Some (0, rest).
Proof.
  destruct rest as [|c r]; [reflexivity|]. cbn.
  rewrite !negb_true_iff, !orb_false_iff. intros (((_ & _) & H1) & H2).
  rewrite H1, H2. reflexivity.
Qed.

Lemma print_nat_cons n : exists c s, Number.print_nat n = String c s.
Proof.
  destruct (N.eq_dec n 0%N) as [->|Hn]; [eexists _, _; reflexivity|].
  destruct (print_nat_head n Hn) as (c & s & E & _). eauto.
Qed.

Lemma parse_exp_text z rest :
  stops rest = true ->
  parse_exp (String "e" (Number.exponent_text z +:+ rest)) = Some (z, rest).
Proof.
  intros Hrest. unfold parse_exp, Number.exponent_text.
  change (Ascii.eqb "e" "e" || Ascii.eqb "e" "E") with true. cbn iota.
  destruct (print_nat_cons (Z.abs_N z)) as (c & s & E).
  pose proof (all_digits_print_nat (Z.abs_N z)) as Hall.
  pose proof (value_print_nat (Z.abs_N z)) as Hval.
  rewrite E in *.
  destruct (z <? 0) eqn:Hz.
  - rewrite str_app_assoc, str_app_cons, str_app_empty_l.
    change (Ascii.eqb "-" "-") with true. cbn iota.
    rewrite span_digits_all by assumption. rewrite Hval.
    f_equal. f_equal. apply Z.ltb_lt in Hz. lia.
  - rewrite str_app_assoc, str_app_cons, str_app_empty_l.
    change (Ascii.eqb "+" "-") with false. change (Ascii.eqb "+" "+") with true.
    cbn iota.
    rewrite span_digits_all by assumption. rewrite Hval.
    f_equal. f_equal. apply Z.ltb_ge in Hz. lia.
Qed.

(** *** A number is read back from its text *)

Lemma parse_number_unsigned_string negative hi lo e rest :
  ends_number rest = true ->
  parse_number negative (Number.unsigned_string hi lo e +:+ rest)
  = Some (Number.Dec negative hi lo e, rest).
Proof.
  intros Hends. pose proof (ends_number_stops rest Hends) as Hstops.
  unfold Number.unsigned_string.
  destruct (print_nat_head _ (digits_nonzero hi lo)) as (c & s & E & Hc & Hc0).
  pose proof (all_digits_print_nat (Number.digits hi lo)) as Hall.
  pose proof (value_print_nat (Number.digits hi lo)) as Hval.
  rewrite E in *. cbn zeta.
  set (k := Z.of_nat (String.length (String c s))).
  assert (Hk : k = Z.of_nat (String.length (String c s))) by reflexivity.
  cbn [String.length] in Hk. clearbody k.
  unfold parse_number, Number.value in *.
  destruct ((k <=? k + e) && (k + e <=? 21)) eqn:C1.
  { (* the digits, then zeros *)
    apply andb_true_iff in C1 as [C1 _]. apply Z.leb_le in C1.
    rewrite str_app_cons, (parse_int_digits c (s +:+ Number.zeros _) rest); cycle 1.
    { rewrite <- str_app_cons, all_digits_app, Hall, all_digits_zeros. reflexivity. }
    { right. exact Hc0. }
    { assumption. }
    rewrite parse_frac_none, parse_exp_none by assumption.
    rewrite str_app_empty_r, <- str_app_cons, value_from_app, Hval, value_from_zeros.
    rewrite make_digits. do 3 f_equal. change (String.length "") with 0%nat. lia. }
  destruct ((0 <? k + e) && (k + e <=? 21)) eqn:C2.
  { (* a point among the digits *)
    apply andb_true_iff in C2 as [C2 C2']. apply Z.ltb_lt in C2.
    rewrite C2', andb_true_r in C1. apply Z.leb_gt in C1.
    destruct (Z.to_nat (k + e)) as [|n'] eqn:En; [lia|].
    pose proof (take_drop (S n') (String c s)) as Htd.
    pose proof (length_drop (S n') (String c s)) as Hlen.
    pose proof (all_digits_take (S n') _ Hall) as Hat.
    pose proof (all_digits_drop (S n') _ Hall) as Had.
    cbn [String.length] in Hlen.
    replace ((Number.take (S n') (String c s) +:+ "."
              +:+ Number.drop (S n') (String c s)) +:+ rest)
      with (Number.take (S n') (String c s)
            +:+ String "." (Number.drop (S n') (String c s) +:+ rest))
      by (rewrite str_app_assoc; reflexivity).
    cbn [Number.take] in *.
    rewrite parse_int_digits; [|assumption|right; exact Hc0|reflexivity].
    rewrite parse_frac_digits; [|intros Hd; rewrite Hd in Hlen; cbn in Hlen; lia
                                |assumption|assumption].
    rewrite parse_exp_none by assumption.
    rewrite Htd, Hval, make_digits_0. do 3 f_equal. lia. }
  destruct ((-6 <? k + e) && (k + e <=? 0)) eqn:C3.
  { (* zeros between the point and the digits *)
    apply andb_true_iff in C3 as [_ C3]. apply Z.leb_le in C3.
    replace (("0." +:+ Number.zeros (Z.to_nat (- (k + e))) +:+ String c s) +:+ rest)
      with ("0" +:+ String "."
              ((Number.zeros (Z.to_nat (- (k + e))) +:+ String c s) +:+ rest))
      by (rewrite !str_app_assoc; reflexivity).
    rewrite parse_int_digits; [|reflexivity|left; reflexivity|reflexivity].
    rewrite parse_frac_digits; cycle 1.
    { intros Hf. apply (f_equal String.length) in Hf.
      rewrite str_length_app in Hf. cbn in Hf. lia. }
    { rewrite all_digits_app, all_digits_zeros, Hall. reflexivity. }
    { assumption. }
    rewrite parse_exp_none by assumption.
    rewrite str_app_cons, str_app_empty_l.
    change (Number.value_from 0 (String "0" ?x)) with (Number.value_from 0 x).
    rewrite value_from_app, value_from_zeros, N.mul_0_l, Hval, make_digits_0.
    do 3 f_equal. rewrite str_length_app, length_zeros. cbn [String.length]. lia. }
  (* exponent notation *)
  assert (Hexp : parse_exp (String "e" (Number.exponent_text (k + e - 1) +:+ rest))
                 = Some (k + e - 1, rest)) by (apply parse_exp_text; assumption).
  destruct s as [|d r].
  - replace (String c ("e" +:+ Number.exponent_text (k + e - 1)) +:+ rest)
      with (String c "" +:+ String "e" (Number.exponent_text (k + e - 1) +:+ rest))
      by (repeat (rewrite str_app_assoc || rewrite str_app_cons
                  || rewrite str_app_empty_l); reflexivity).
    rewrite parse_int_digits; [|assumption|left; reflexivity|reflexivity].
    change (parse_frac (String "e" ?x)) with (Some ("", String "e" x)).
    cbn iota. rewrite Hexp.
    rewrite str_app_empty_r, Hval, make_digits_0.
    do 3 f_equal. cbn [String.length] in *. lia.
  - replace (String c ("." +:+ String d r +:+ "e"
                       +:+ Number.exponent_text (k + e - 1)) +:+ rest)
      with (String c ""
            +:+ String "." (String d r
                            +:+ String "e" (Number.exponent_text (k + e - 1) +:+ rest)))
      by (repeat (rewrite str_app_assoc || rewrite str_app_cons
                  || rewrite str_app_empty_l); reflexivity).
    pose proof Hall as Hall'. cbn [all_digits] in Hall'.
    apply andb_true_iff in Hall' as [_ Hs].
    rewrite parse_int_digits;
      [|cbn [all_digits]; rewrite Hc; reflexivity|left; reflexivity|reflexivity].
    rewrite parse_frac_digits; [|discriminate|assumption|reflexivity].
    rewrite Hexp.
    rewrite str_app_cons, str_app_empty_l, Hval, make_digits_0.
    do 3 f_equal. cbn [String.length] in *. lia.
Qed.

Lemma unsigned_string_head hi lo e :
  exists c s, Number.unsigned_string hi lo e = String c s /\ is_digit c = true.
Proof.
  unfold Number.unsigned_string.
  destruct (print_nat_head _ (digits_nonzero hi lo)) as (c & s & E & Hc & _).
  rewrite E. cbn zeta.
  set (k := Z.of_nat (String.length (String c s))).
  destruct ((k <=? k + e) && (k + e <=? 21)); [rewrite str_app_cons; eauto|].
  destruct ((0 <? k + e) && (k + e <=? 21)) eqn:C2.
  { apply andb_true_iff in C2 as [C2 _]. apply Z.ltb_lt in C2.
    destruct (Z.to_nat (k + e)) eqn:En; [lia|].
    cbn [Number.take]. rewrite str_app_cons. eauto. }
  destruct ((-6 <? k + e) && (k + e <=? 0)); [eexists _, _; split; reflexivity|].
  destruct s; eauto.
Qed.

Lemma is_digit_not_ws c : is_digit c = true -> is_ws c = false.
Proof. destruct c as [[] [] [] [] [] [] [] []]; vm_compute; congruence. Qed.

Lemma skip_ws_head c s : is_ws c = false -> skip_ws (String c s) = String c s.
Proof. intros H. cbn [skip_ws]. rewrite H. reflexivity. Qed.

(** Fuel and length *)
Lemma length_join_le ss :
  (list_sum (map (fun s => S (String.length s)) ss) <= S (String.length (join ss)))%nat.
Proof.
  induction ss as [|x t IH]; [cbn; lia|].
  destruct t as [|y t'].
  - cbn. lia.
  - change (join (x :: y :: t')) with (x +:+ "," +:+ join (y :: t')).
    rewrite !str_length_app. unfold list_sum in *. cbn [map fold_right] in *.
    change (String.length ",") with 1%nat. lia.
Qed.

(** Heads of serialised values *)
Lemma stringify_head v :
  exists c s, stringify v = String c s /\ value_head c = true.
Proof.
  destruct v as [| [] | n | s | l | l]; cbn [stringify];
    try (eexists _, _; split; reflexivity).
  destruct n as [|[] hi lo e]; cbn [Number.to_string].
  - eexists _, _; split; reflexivity.
  - eexists _, _; split; reflexivity.
  - destruct (unsigned_string_head hi lo e) as (c & s & -> & Hc).
    exists c, s. split; [reflexivity|]. unfold value_head. rewrite Hc. reflexivity.
Qed.

Lemma value_head_facts c :
  value_head c = true ->
  is_ws c = false /\ Ascii.eqb c "]" = false /\ Ascii.eqb c "}" = false.
Proof. destruct c as [[] [] [] [] [] [] [] []]; vm_compute; intuition congruence. Qed.

Lemma size_le_length v : (size v <= String.length (stringify v))%nat.
Proof.
  induction v as [| b | n | s | l IH | l IH] using json_ind.
  - cbn. lia.
  - destruct b; cbn; lia.
  - destruct (stringify_head (JNum n)) as (c & s & -> & _). cbn. lia.
  - cbn. lia.
  - cbn [stringify size]. rewrite !str_length_app.
    change (String.length "[") with 1%nat. change (String.length "]") with 1%nat.
    pose proof (length_join_le (map stringify l)) as Hj.
    assert (list_sum (map (fun x => S (size x)) l)
            <= list_sum (map (fun s => S (String.length s)) (map stringify l)))%nat.
    { clear Hj. induction IH as [|x t Hx Ht IHt]; [cbn; lia|].
      unfold list_sum in *. cbn [map fold_right]. lia. }
    lia.
  - cbn [stringify size]. rewrite !str_length_app.
    change (String.length "{") with 1%nat. change (String.length "}") with 1%nat.
    pose proof (length_join_le
                  (map (fun kv => quote (fst kv) +:+ ":" +:+ stringify (snd kv)) l)) as Hj.
    assert (list_sum (map (fun kv => S (size (snd kv))) l)
            <= list_sum (map (fun s => S (String.length s))
                 (map (fun kv => quote (fst kv) +:+ ":" +:+ stringify (snd kv)) l)))%nat.
    { clear Hj. induction IH as [|x t Hx Ht IHt]; [cbn; lia|].
      unfold list_sum in *. cbn [map fold_right]. rewrite !str_length_app. lia. }
    lia.
Qed.

Lemma parse_value_number f n rest :
  ends_number rest = true ->
  parse_value (S f) (Number.to_string n +:+ rest) = Some (JNum n, rest).
Proof.
  intros H. destruct n as [|negative hi lo e]; cbn [Number.to_string].
  - rewrite str_app_cons, str_app_empty_l. cbn [parse_value skip_ws].
    change (is_ws "0") with false. change (is_digit "0") with true. cbn iota.
    unfold parse_number.
    change (parse_int (String "0" rest)) with (parse_int ("0" +:+ rest)).
    rewrite (parse_int_digits "0" "" rest eq_refl (or_introl eq_refl)
               (ends_number_stops rest H)).
    rewrite parse_frac_none, parse_exp_none by assumption. reflexivity.
  - pose proof (parse_number_unsigned_string negative hi lo e rest H) as Hp.
    destruct negative.
    + rewrite str_app_cons. cbn [parse_value skip_ws].
      change (is_ws "-") with false. cbn iota.
      change (is_digit "-") with false. cbn iota.
      change (Ascii.eqb "-" "-") with true. cbn iota.
      rewrite Hp. reflexivity.
    + destruct (unsigned_string_head hi lo e) as (c & s & E & Hc).
      rewrite E in *. rewrite str_app_cons in *. cbn [parse_value].
      rewrite skip_ws_head by (apply is_digit_not_ws; assumption).
      rewrite Hc, Hp. reflexivity.
Qed.

Lemma parse_elems_join l :
  Forall roundtrips l -> l <> [] ->
  forall fuel rest,
    (list_sum (map (fun x => S (size x)) l) <= fuel)%nat ->
    parse_elems fuel (join (map stringify l) +:+ String "]" rest) = Some (l, rest).
Proof.
  induction 1 as [|v vs Hv Hvs IH]; [congruence|]. intros _ fuel rest Hfuel.
  unfold list_sum in Hfuel. cbn [map fold_right] in Hfuel.
  destruct fuel as [|f]; [lia|].
  destruct vs as [|w vs'].
  - cbn [map join parse_elems].
    rewrite (Hv f (String "]" rest)) by (cbn in *; lia || reflexivity).
    reflexivity.
  - change (join (map stringify (v :: w :: vs')))
      with (stringify v +:+ "," +:+ join (map stringify (w :: vs'))).
    rewrite !str_app_assoc, str_app_cons, str_app_empty_l. cbn [parse_elems].
    rewrite (Hv f) by (cbn in *; lia || reflexivity).
    cbn [skip_ws]. change (is_ws ",") with false. cbn iota.
    change (Ascii.eqb "," ",") with true. cbn iota.
    rewrite IH; [reflexivity|congruence|].
    unfold list_sum. cbn [map fold_right] in *. lia.
Qed.

Lemma member_text_app k v t :
  member_text (k, v) +:+ t
  = String DQ (escape k +:+ String DQ (String ":" (stringify v +:+ t))).
Proof.
  unfold member_text, quote. cbn [fst snd].
  rewrite !str_app_cons, !str_app_assoc, !str_app_cons, !str_app_empty_l. reflexivity.
Qed.

Lemma parse_members_join l :
  Forall (fun kv => roundtrips (snd kv)) l -> l <> [] ->
  forall fuel rest,
    (list_sum (map (fun kv => S (size (snd kv))) l) <= fuel)%nat ->
    parse_members fuel (join (map member_text l) +:+ String "}" rest)
    = Some (l, rest).
Proof.
  induction 1 as [|[k v] vs Hv Hvs IH]; [congruence|]. intros _ fuel rest Hfuel.
  unfold list_sum in Hfuel. cbn [map fold_right snd] in Hfuel. cbn [snd] in Hv.
  destruct fuel as [|f]; [lia|].
  destruct vs as [|w vs'].
  - cbn [map join]. rewrite member_text_app. cbn [parse_members].
    cbn [skip_ws]. change (is_ws DQ) with false. cbn iota.
    change (Ascii.eqb DQ DQ) with true. cbn iota.
    rewrite parse_chars_escape.
    cbn [skip_ws]. change (is_ws ":") with false. cbn iota.
    change (Ascii.eqb ":" ":") with true. cbn iota.
    rewrite (Hv f (String "}" rest)) by (cbn in *; lia || reflexivity).
    reflexivity.
  - change (join (map member_text ((k, v) :: w :: vs')))
      with (member_text (k, v) +:+ "," +:+ join (map member_text (w :: vs'))).
    rewrite !str_app_assoc, member_text_app, str_app_cons, str_app_empty_l. cbn [parse_members].
    cbn [skip_ws]. change (is_ws DQ) with false. cbn iota.
    change (Ascii.eqb DQ DQ) with true. cbn iota.
    rewrite parse_chars_escape.
    cbn [skip_ws]. change (is_ws ":") with false. cbn iota.
    change (Ascii.eqb ":" ":") with true. cbn iota.
    rewrite (Hv f) by (cbn in *; lia || reflexivity).
    cbn [skip_ws]. change (is_ws ",") with false. cbn iota.
    change (Ascii.eqb "," ",") with true. cbn iota.
    rewrite IH; [reflexivity|congruence|].
    unfold list_sum. cbn [map fold_right] in *. lia.
Qed.

Lemma parse_value_stringify v : roundtrips v.
Proof.
  induction v as [| b | n | s | l IH | l IH] using json_ind;
    intros fuel rest Hfuel Hrest;
    (destruct fuel as [|f]; [cbn in Hfuel; lia|]).
  - reflexivity.
  - destruct b; reflexivity.
  - cbn [stringify]. apply parse_value_number. assumption.
  - cbn [stringify]. unfold quote. rewrite str_app_cons, str_app_assoc, str_app_cons, str_app_empty_l.
    cbn [parse_value skip_ws]. change (is_ws DQ) with false. cbn iota.
    change (is_digit DQ) with false. cbn iota.
    change (Ascii.eqb DQ "-") with false. cbn iota.
    change (Ascii.eqb DQ DQ) with true. cbn iota.
    rewrite parse_chars_escape. reflexivity.
  - cbn [stringify size] in *.
    rewrite !str_app_assoc, str_app_cons, !str_app_empty_l, str_app_cons, str_app_empty_l.
    cbn [parse_value skip_ws]. change (is_ws "[") with false. cbn iota.
    change (is_digit "[") with false. cbn iota.
    change (Ascii.eqb "[" "-") with false. change (Ascii.eqb "[" DQ) with false.
    change (Ascii.eqb "[" "[") with true. cbn iota.
    destruct l as [|v vs].
    + reflexivity.
    + pose proof (parse_elems_join (v :: vs) IH ltac:(congruence) f rest
                    ltac:(lia)) as Hp.
      destruct (stringify_head v) as (c & s' & E & Hc).
      destruct (value_head_facts c Hc) as (Hws & Hb & _).
      assert (Hj : exists s2, join (map stringify (v :: vs)) = String c s2).
      { cbn [map join]. destruct (map stringify vs).
        - eauto.
        - rewrite E, str_app_cons. eauto. }
      destruct Hj as [s2 Hj]. rewrite Hj in *. rewrite str_app_cons in *.
      rewrite skip_ws_head by assumption. rewrite Hb, Hp. reflexivity.
  - cbn [stringify size] in *.
    change (map (fun kv => quote (fst kv) +:+ ":" +:+ stringify (snd kv)) l)
      with (map member_text l).
    rewrite !str_app_assoc, str_app_cons, !str_app_empty_l, str_app_cons, str_app_empty_l.
    cbn [parse_value skip_ws]. change (is_ws "{") with false. cbn iota.
    change (is_digit "{") with false. cbn iota.
    change (Ascii.eqb "{" "-") with false. change (Ascii.eqb "{" DQ) with false.
    change (Ascii.eqb "{" "[") with false.
    change (Ascii.eqb "{" "{") with true. cbn iota.
    destruct l as [|[k v] vs].
    + reflexivity.
    + pose proof (parse_members_join ((k, v) :: vs) IH ltac:(congruence) f rest
                    ltac:(lia)) as Hp.
      assert (Hj : exists s2, join (map member_text ((k, v) :: vs)) = String DQ s2).
      { cbn [map join]. destruct (map member_text vs).
        - unfold member_text, quote. cbn [fst]. rewrite str_app_cons. eauto.
        - unfold member_text, quote. cbn [fst]. rewrite !str_app_cons. eauto. }
      destruct Hj as [s2 Hj]. rewrite Hj in *. rewrite str_app_cons in *.
      cbn [skip_ws]. change (is_ws DQ) with false. cbn iota.
      change (Ascii.eqb DQ "}") with false. cbn iota.
      rewrite Hp. reflexivity.
Qed.

(** [JSON.parse(JSON.stringify(v))] is [v]. *)
Theorem parse_stringify v : parse (stringify v) = Some v.
Proof.
  unfold parse.
  pose proof (parse_value_stringify v (S (String.length (stringify v))) ""
                ltac:(pose proof (size_le_length v); lia) eq_refl) as H.
  rewrite str_app_empty_r in H. rewrite H. reflexivity.
Qed.

(** The text [JSON.stringify] produces is never empty. *)
Lemma stringify_nonempty v : exists c s, stringify v = String c s.
Proof. destruct (stringify_head v) as (c & s & E & _). eauto. Qed.

(* ===================================================================== *)
(** ** The order of numbers *)
(* ===================================================================== *)


Lemma scaled_shift E E' x :
  E' <= E -> E <= Number.exponent x ->
  Number.scaled E' x = Number.scaled E x * 10 ^ (E - E').
Proof.
  intros H1 H2. unfold Number.scaled.
  rewrite <- Z.mul_assoc, <- Z.pow_add_r by lia. do 2 f_equal. lia.
Qed.

Lemma compare_scaled E a b :
  E <= Number.exponent a -> E <= Number.exponent b ->
  Number.compare a b = (Number.scaled E a ?= Number.scaled E b).
Proof.
  intros Ha Hb. unfold Number.compare.
  set (E0 := Z.min (Number.exponent a) (Number.exponent b)).
  rewrite (scaled_shift E0 E a), (scaled_shift E0 E b) by lia.
  apply Zmult_compare_compat_r.
  assert (0 < 10 ^ (E0 - E)) by (apply Z.pow_pos_nonneg; lia). lia.
Qed.

Lemma number_compare_antisym a b :
  Number.compare b a = CompOpp (Number.compare a b).
Proof.
  unfold Number.compare. rewrite (Z.min_comm (Number.exponent b)).
  apply Z.compare_antisym.
Qed.

Lemma number_le_trans a b c : Number.le a b -> Number.le b c -> Number.le a c.
Proof.
  unfold Number.le.
  set (E := Z.min (Number.exponent a) (Z.min (Number.exponent b) (Number.exponent c))).
  rewrite (compare_scaled E a b), (compare_scaled E b c), (compare_scaled E a c) by lia.
  apply Z.le_trans.
Qed.

Lemma number_lt_trans a b c : Number.lt a b -> Number.lt b c -> Number.lt a c.
Proof.
  unfold Number.lt.
  set (E := Z.min (Number.exponent a) (Z.min (Number.exponent b) (Number.exponent c))).
  rewrite (compare_scaled E a b), (compare_scaled E b c), (compare_scaled E a c) by lia.
  apply Z.lt_trans.
Qed.

Lemma number_ltb_lt a b : Number.ltb a b = true <-> Number.lt a b.
Proof.
  unfold Number.ltb, Number.lt. destruct (Number.compare a b); split; congruence.
Qed.

Lemma number_ltb_ge a b : Number.ltb a b = false <-> Number.le b a.
Proof.
  unfold Number.ltb, Number.le. rewrite (number_compare_antisym a b).
  destruct (Number.compare a b); cbn; split; congruence.
Qed.

Lemma number_lt_le a b : Number.lt a b -> Number.le a b.
Proof. unfold Number.lt, Number.le. congruence. Qed.

Lemma number_lt_not_le a b : Number.lt a b -> ~ Number.le b a.
Proof.
  unfold Number.lt, Number.le. rewrite (number_compare_antisym a b).
  intros ->. cbn. congruence.
Qed.

Lemma make_sign negative m e :
  Number.sign (Number.make negative m e)
  = if (m =? 0)%N then 0 else if negative then -1 else 1.
Proof.
  unfold Number.make. destruct (m =? 0)%N; [reflexivity|].
  destruct (Number.strip _ m e). destruct negative; reflexivity.
Qed.

(** The sign of a difference, which is what a comparator is read for. *)
Lemma sign_sub a b :
  (Number.sign (Number.sub a b) <=? 0) = Number.leb a b.
Proof.
  unfold Number.sub, Number.leb, Number.compare.
  set (x := Number.scaled _ a). set (y := Number.scaled _ b).
  rewrite make_sign.
  destruct (Z.compare_spec x y) as [H|H|H].
  - replace (x - y) with 0 by lia. reflexivity.
  - destruct (Z.abs_N (x - y) =? 0)%N eqn:E1; [reflexivity|].
    destruct (x - y <? 0) eqn:E2; [reflexivity|]. apply Z.ltb_ge in E2. lia.
  - destruct (Z.abs_N (x - y) =? 0)%N eqn:E1; [apply N.eqb_eq in E1; lia|].
    destruct (x - y <? 0) eqn:E2; [apply Z.ltb_lt in E2; lia|reflexivity].
Qed.

Lemma number_leb_le a b : Number.leb a b = true <-> Number.le a b.
Proof.
  unfold Number.leb, Number.le. destruct (Number.compare a b); split; congruence.
Qed.

Lemma number_leb_gt a b : Number.leb a b = false <-> Number.lt b a.
Proof.
  unfold Number.leb, Number.lt. rewrite (number_compare_antisym a b).
  destruct (Number.compare a b); cbn; split; congruence.
Qed.

(* ===================================================================== *)
(** ** Lists: [sort], [find] and the maps that may throw *)
(* ===================================================================== *)

Section Sort.
Context {A : Type}.

Lemma sort_insert_perm (cmp : A -> A -> Z) x l :
  Permutation (sort_insert cmp x l) (x :: l).
Proof.
  induction l as [|y t IH]; cbn [sort_insert]; [reflexivity|].
  destruct (cmp x y <=? 0); [reflexivity|].
  rewrite IH. apply perm_swap.
Qed.

Lemma sort_perm (cmp : A -> A -> Z) l : Permutation (sort cmp l) l.
Proof.
  induction l as [|x t IH]; cbn [sort fold_right]; [reflexivity|].
  fold (sort cmp t). rewrite sort_insert_perm, IH. reflexivity.
Qed.

Lemma sort_insert_sorted (key : A -> Z) x l :
  StronglySorted (key_ge key) l ->
  StronglySorted (key_ge key) (sort_insert (by_key_desc key) x l).
Proof.
  induction 1 as [|y t Ht IH Hy]; cbn [sort_insert].
  - repeat constructor.
  - unfold by_key_desc at 1. destruct (key y - key x <=? 0) eqn:E.
    + apply Z.leb_le in E. constructor; [constructor; assumption|].
      constructor; [unfold key_ge; lia|].
      eapply List.Forall_impl; [|exact Hy]. unfold key_ge. intros; lia.
    + apply Z.leb_gt in E. constructor; [assumption|].
      apply List.Forall_forall. intros z Hz.
      apply (Permutation_in _ (sort_insert_perm (by_key_desc key) x t)) in Hz.
      destruct Hz as [<- | Hz]; [unfold key_ge; lia|].
      apply (proj1 (List.Forall_forall _ _) Hy z Hz).
Qed.

Lemma sort_sorted (key : A -> Z) l :
  StronglySorted (key_ge key) (sort (by_key_desc key) l).
Proof.
  induction l as [|x t IH]; cbn [sort fold_right]; [constructor|].
  apply sort_insert_sorted. exact IH.
Qed.

(** A comparator that decides a transitive order sorts into it. *)
Lemma sort_insert_sorted_by (cmp : A -> A -> Z) (R : A -> A -> Prop) x l :
  (forall a b, cmp a b <= 0 -> R a b) ->
  (forall a b, 0 < cmp a b -> R b a) ->
  (forall a b c, R a b -> R b c -> R a c) ->
  StronglySorted R l ->
  StronglySorted R (sort_insert cmp x l).
Proof.
  intros Hle Hgt Htrans.
  induction 1 as [|y t Ht IH Hy]; cbn [sort_insert].
  - repeat constructor.
  - destruct (cmp x y <=? 0) eqn:E.
    + apply Z.leb_le in E. constructor; [constructor; assumption|].
      constructor; [apply Hle; exact E|].
      eapply List.Forall_impl; [|exact Hy]. intros z Hz.
      exact (Htrans _ _ _ (Hle _ _ E) Hz).
    + apply Z.leb_gt in E. constructor; [assumption|].
      apply List.Forall_forall. intros z Hz.
      apply (Permutation_in _ (sort_insert_perm cmp x t)) in Hz.
      destruct Hz as [<- | Hz]; [apply Hgt; exact E|].
      apply (proj1 (List.Forall_forall _ _) Hy z Hz).
Qed.

Lemma sort_sorted_by (cmp : A -> A -> Z) (R : A -> A -> Prop) l :
  (forall a b, cmp a b <= 0 -> R a b) ->
  (forall a b, 0 < cmp a b -> R b a) ->
  (forall a b c, R a b -> R b c -> R a c) ->
  StronglySorted R (sort cmp l).
Proof.
  intros Hle Hgt Htrans.
  induction l as [|x t IH]; cbn [sort fold_right]; [constructor|].
  apply sort_insert_sorted_by; assumption.
Qed.

Lemma Forall_sort (P : A -> Prop) (cmp : A -> A -> Z) l :
  Forall P l -> Forall P (sort cmp l).
Proof.
  intros H. apply List.Forall_forall. intros x Hx.
  apply (Permutation_in _ (sort_perm cmp l)) in Hx.
  apply (proj1 (List.Forall_forall _ _) H x Hx).
Qed.

Lemma Forall_filter (P : A -> Prop) (f : A -> bool) l :
  Forall P l -> Forall P (List.filter f l).
Proof.
  intros H. apply List.Forall_forall. intros x Hx.
  apply List.filter_In in Hx as [Hx _].
  apply (proj1 (List.Forall_forall _ _) H x Hx).
Qed.

Lemma find_none_existsb (f : A -> bool) l :
  find f l = None <-> existsb f l = false.
Proof.
  induction l as [|x t IH]; cbn [find existsb]; [tauto|].
  destruct (f x); cbn [orb]; [split; discriminate|exact IH].
Qed.

Lemma existsb_id_false (id_of : A -> string) id l :
  ~ In id (map id_of l) ->
  existsb (fun r => String.eqb (id_of r) id) l = false.
Proof.
  induction l as [|x t IH]; cbn [map In existsb]; [reflexivity|].
  intros H. destruct (String.eqb_spec (id_of x) id) as [E|E]; [tauto|].
  cbn [orb]. apply IH. tauto.
Qed.

Lemma find_app_last (f : A -> bool) l x :
  existsb f l = false -> f x = true -> find f (l ++ [x]) = Some x.
Proof.
  induction l as [|y t IH]; cbn [existsb app find]; intros H Hx.
  - rewrite Hx. reflexivity.
  - apply orb_false_iff in H as [Hy Ht]. rewrite Hy. apply IH; assumption.
Qed.
End Sort.

Lemma map_throwing_forall {E A B : Type} (f : A -> result E B) (Q : B -> Prop) l :
  Forall (fun x => exists y, f x = Ok y /\ Q y) l ->
  exists ys, map_throwing f l = Ok ys /\ Forall Q ys.
Proof.
  induction 1 as [|x t (y & Hy & Qy) Ht (ys & IH & Qys)]; cbn [map_throwing].
  - exists []. split; [reflexivity|constructor].
  - rewrite Hy, IH. exists (y :: ys). split; [reflexivity|constructor; assumption].
Qed.

(* ===================================================================== *)
(** ** The resolver: [analyze] and [diagnoseOffline] *)
(* ===================================================================== *)

Section Resolver.
Import Offline.

Lemma prop_app_last k v m : prop k (m ++ [(k, v)]) = Some v.
Proof.
  induction m as [|[k' v'] m IH]; cbn [app prop].
  - rewrite String.eqb_refl. reflexivity.
  - rewrite IH. reflexivity.
Qed.

Lemma prop_app_other k k' v m : k <> k' -> prop k (m ++ [(k', v)]) = prop k m.
Proof.
  intros Hk. induction m as [|[k0 v0] m IH]; cbn [app prop].
  - destruct (String.eqb_spec k k'); [contradiction|reflexivity].
  - rewrite IH. reflexivity.
Qed.

Lemma has_key_prop k m : has_key k m = true -> exists v, prop k m = Some v.
Proof.
  induction m as [|[k' v'] m IH]; cbn [has_key existsb prop fst]; [discriminate|].
  intros H. apply orb_true_iff in H as [H|H].
  - destruct (prop k m); [eauto|]. rewrite H. eauto.
  - destruct (IH H) as [w ->]. eauto.
Qed.

(** The run of [diagnoseOffline]: one request, and a value. *)
Lemma diagnoseOffline_run w input :
  diagnoseOffline w input
  = ([Fallback fallback_url input],
     try_catch (tag_response (fetch w fallback_url input))
       (fun _ => Ok (unavailable input))).
Proof. reflexivity. Qed.

(** [diagnoseOffline] never throws, and the [mode] of what it returns is
    the one the answer carried, or "offline". *)
Lemma diagnoseOffline_mode w input :
  exists v,
    snd (diagnoseOffline w input) = Ok v
    /\ mode v = match own_mode (fetch w fallback_url input) with
                | Some m => Some m
                | None => Some (JStr "offline")
                end.
Proof.
  rewrite diagnoseOffline_run. cbn [snd]. unfold own_mode, tag_response.
  destruct (fetch w fallback_url input) as [|res]; cbn [try_catch].
  - eauto.
  - destruct (ok res); cbn [negb]; [|cbn; eauto].
    destruct (json_body res) as [[| b | n | s | l | m]|]; cbn [try_catch]; eauto.
    destruct (has_key "mode" m) eqn:Hk; cbn [negb].
    + destruct (has_key_prop _ _ Hk) as [x Hx]. eexists; split; [reflexivity|].
      cbn [mode]. rewrite Hx. reflexivity.
    + eexists; split; [reflexivity|]. cbn [mode]. apply prop_app_last.
Qed.

(** [diagnoseOffline] returns the body of the answer, tagged where it
    has no [mode], or the degraded object. *)
Lemma diagnoseOffline_result w input :
  snd (diagnoseOffline w input)
  = Ok (fallback_result (fetch w fallback_url input) input).
Proof.
  rewrite diagnoseOffline_run. cbn [snd]. unfold fallback_result, tag_response.
  destruct (fetch w fallback_url input) as [|res]; cbn [try_catch]; [reflexivity|].
  destruct (ok res); cbn [negb try_catch]; [|reflexivity].
  destruct (json_body res) as [[| b | n | s | l | m]|]; cbn [try_catch];
    try reflexivity.
  destruct (has_key "mode" m); reflexivity.
Qed.

Lemma fallback_result_mode r input :
  mode (fallback_result r input)
  = match own_mode r with
    | Some m => Some m
    | None => Some (JStr "offline")
    end.
Proof.
  unfold fallback_result, own_mode.
  destruct r as [|res]; [reflexivity|].
  destruct (ok res); [|reflexivity].
  destruct (json_body res) as [[| b | n | s | l | m]|]; try reflexivity.
  destruct (has_key "mode" m) eqn:Hk.
  - destruct (has_key_prop _ _ Hk) as [x Hx]. cbn [mode]. rewrite Hx. reflexivity.
  - cbn [mode]. apply prop_app_last.
Qed.

Lemma fallback_result_members r input m :
  body_members r = Some m ->
  (forall k, k <> "mode" -> get_prop k (fallback_result r input) = prop k m)
  /\ (has_key "mode" m = true -> fallback_result r input = Plain (JObj m))
  /\ (has_key "mode" m = false ->
      fallback_result r input = Plain (JObj (m ++ [("mode", JStr "offline")]))).
Proof.
  unfold body_members, fallback_result.
  destruct r as [|res]; [discriminate|].
  destruct (ok res); [|discriminate].
  destruct (json_body res) as [[| b | n | s | l | m']|]; try discriminate.
  intros [= ->]. destruct (has_key "mode" m) eqn:Hk.
  - split; [reflexivity|]. split; [reflexivity|discriminate].
  - split; [|split; [discriminate|reflexivity]].
    intros k Hne. cbn [get_prop]. apply prop_app_other. exact Hne.
Qed.

Lemma diagnoseOffline_unreachable w input :
  unreachable (fetch w fallback_url input) ->
  diagnoseOffline w input
  = ([Fallback fallback_url input], Ok (unavailable input)).
Proof.
  intros H. rewrite diagnoseOffline_run. unfold tag_response.
  destruct (fetch w fallback_url input) as [|res]; [reflexivity|].
  cbn in H. rewrite H. reflexivity.
Qed.

Lemma analyze_offline w data :
  isOnline (navigator w) = false -> analyze w data = diagnoseOffline w data.
Proof. intros H. unfold analyze. rewrite H. reflexivity. Qed.

Lemma analyze_primary_throws w data e :
  isOnline (navigator w) = true ->
  apiRequest w "POST" "/api/diagnose" data = Throw e ->
  analyze w data
  = (Primary "POST" "/api/diagnose" data :: fst (diagnoseOffline w data),
     snd (diagnoseOffline w data)).
Proof.
  intros Hon He. unfold analyze. rewrite Hon. cbn [negb].
  unfold mbind, Eff_bind, await_apiRequest. rewrite He.
  destruct (diagnoseOffline w data). reflexivity.
Qed.

Lemma analyze_primary_returns w data r :
  isOnline (navigator w) = true ->
  apiRequest w "POST" "/api/diagnose" data = Ok r ->
  analyze w data = ([Primary "POST" "/api/diagnose" data], Ok r).
Proof.
  intros Hon He. unfold analyze. rewrite Hon. cbn [negb].
  unfold mbind, Eff_bind, await_apiRequest. rewrite He. reflexivity.
Qed.

(** X1.  Failures of the backends do not propagate: whatever the primary
  call and the fallback request do, [analyze] returns a value and never
  throws. *)
Theorem analyze_always_returns w data : exists v, snd (analyze w data) = Ok v.
Proof.
  destruct (isOnline (navigator w)) eqn:Hon.
  - destruct (apiRequest w "POST" "/api/diagnose" data) as [r|e] eqn:He.
    + rewrite (analyze_primary_returns w data r Hon He). eauto.
    + rewrite (analyze_primary_throws w data e Hon He). cbn [snd].
      destruct (diagnoseOffline_mode w data) as (v & Hv & _). eauto.
  - rewrite (analyze_offline w data Hon).
    destruct (diagnoseOffline_mode w data) as (v & Hv & _). eauto.
Qed.

(** C1, as the code has it.  While the browser is online and the primary
  call throws, for whatever reason, [analyze] makes the primary call and
  then exactly one call to the local fallback backend, and returns what
  [diagnoseOffline] returns.  That is the body of the fallback's answer as
  it was received, every member of it kept: unchanged when the body has a
  [mode] of its own, and with the member [mode] "offline" added at its end
  when it has none; an array is returned with its elements and the
  property [mode] "offline".  It is the degraded object, whose [mode] is
  "offline", when the request failed, was answered outside 2xx, or has a
  body that is no JSON object and no JSON array.  So the [mode] of the
  result is the one the answer carried by itself, and "offline" when it
  carried none.  When the primary call returns, its result is returned as
  it is after that single call: no "online" tag is added. *)
Theorem primary_failure_falls_back_once w data :
  isOnline (navigator w) = true ->
  match apiRequest w "POST" "/api/diagnose" data with
  | Throw _ =>
      fst (analyze w data)
      = [Primary "POST" "/api/diagnose" data; Fallback fallback_url data]
      /\ fallback_calls (fst (analyze w data)) = 1%nat
      /\ snd (analyze w data) = snd (diagnoseOffline w data)
      /\ snd (analyze w data)
         = Ok (fallback_result (fetch w fallback_url data) data)
      /\ mode (fallback_result (fetch w fallback_url data) data)
         = match own_mode (fetch w fallback_url data) with
           | Some m => Some m
           | None => Some (JStr "offline")
           end
      /\ (forall m,
            body_members (fetch w fallback_url data) = Some m ->
            (forall k, k <> "mode" ->
               get_prop k (fallback_result (fetch w fallback_url data) data)
               = prop k m)
            /\ (has_key "mode" m = true ->
                fallback_result (fetch w fallback_url data) data = Plain (JObj m))
            /\ (has_key "mode" m = false ->
                fallback_result (fetch w fallback_url data) data
                = Plain (JObj (m ++ [("mode", JStr "offline")]))))
      /\ (unreachable (fetch w fallback_url data) ->
          fallback_result (fetch w fallback_url data) data = unavailable data)
  | Ok r => analyze w data = ([Primary "POST" "/api/diagnose" data], Ok r)
  end.
Proof.
  intros Hon.
  destruct (apiRequest w "POST" "/api/diagnose" data) as [r|e] eqn:He.
  - apply analyze_primary_returns; assumption.
  - rewrite (analyze_primary_throws w data e Hon He). cbn [fst snd].
    split; [reflexivity|]. split; [reflexivity|]. split; [reflexivity|].
    split; [apply diagnoseOffline_result|].
    split; [apply fallback_result_mode|].
    split; [intros m Hm; apply fallback_result_members; exact Hm|].
    intros Hun. unfold fallback_result.
    destruct (fetch w fallback_url data) as [|res]; [reflexivity|].
    cbn in Hun. rewrite Hun. reflexivity.
Qed.

(** The theorem above on the run in which the server answers 500 and the
    fallback answers with a body of two members. *)
Lemma primary_failure_falls_back_once_witness :
  fst (analyze world_fallback_tagged_online input_fever)
  = [Primary "POST" "/api/diagnose" input_fever; Fallback fallback_url input_fever]
  /\ fallback_calls (fst (analyze world_fallback_tagged_online input_fever)) = 1%nat
  /\ snd (analyze world_fallback_tagged_online input_fever)
     = Ok (Plain (JObj [("mode", JStr "online"); ("primaryDiagnosis", JStr "Flu")])).
Proof.
  destruct (primary_failure_falls_back_once world_fallback_tagged_online
              input_fever eq_refl) as (Ht & Hn & _ & Hv & _).
  split; [exact Ht|]. split; [exact Hn|exact Hv].
Defined.

(** A run on which the result of the fallback is not tagged "offline":
    the browser is online, the primary call throws, the fallback is called
    once and answers with a body whose [mode] is "online"; that body is
    returned with its [mode] unchanged. *)
Lemma fallback_answer_keeps_its_own_mode :
  isOnline (navigator world_fallback_tagged_online) = true
  /\ apiRequest world_fallback_tagged_online "POST" "/api/diagnose" input_fever
     = Throw (RequestFailed 500)
  /\ fallback_calls (fst (analyze world_fallback_tagged_online input_fever)) = 1%nat
  /\ snd (analyze world_fallback_tagged_online input_fever)
     = Ok (Plain (JObj [("mode", JStr "online"); ("primaryDiagnosis", JStr "Flu")]))
  /\ mode (Plain (JObj [("mode", JStr "online"); ("primaryDiagnosis", JStr "Flu")]))
     = Some (JStr "online").
Proof. repeat split. Qed.

(** C2.  While the connectivity oracle reports offline, [analyze] makes no
  call to the primary backend: its only call is the one request of
  [diagnoseOffline] to the local fallback backend, whose result it
  returns. *)
Theorem offline_request_skips_primary w data :
  isOnline (navigator w) = false ->
  primary_calls (fst (analyze w data)) = 0%nat
  /\ fst (analyze w data) = [Fallback fallback_url data]
  /\ analyze w data = diagnoseOffline w data.
Proof.
  intros H. rewrite (analyze_offline w data H). repeat split.
Qed.

Lemma offline_request_skips_primary_witness :
  primary_calls (fst (analyze world_offline_unreachable input_fever)) = 0%nat
  /\ fst (analyze world_offline_unreachable input_fever)
     = [Fallback fallback_url input_fever]
  /\ analyze world_offline_unreachable input_fever
     = diagnoseOffline world_offline_unreachable input_fever.
Proof.
  apply (offline_request_skips_primary world_offline_unreachable input_fever).
  reflexivity.
Defined.

(** C3.  When a request reaches the local fallback backend (the browser is
  offline, or the primary call threw) and that backend is itself
  unreachable, [analyze] still returns, and what it returns is the degraded
  object: its primaryDiagnosis is the non-empty text "Offline diagnosis
  service unavailable", its differentialDiagnoses is the empty list, its
  requiresReferral is false and its referralReason is the fixed text
  "Error in local NLP service".  This holds for every request, those with
  a non-empty symptom list among them. *)
Theorem unreachable_fallback_degrades w data :
  (isOnline (navigator w) = false
   \/ exists e, apiRequest w "POST" "/api/diagnose" data = Throw e) ->
  unreachable (fetch w fallback_url data) ->
  snd (analyze w data) = Ok (unavailable data)
  /\ get_prop "primaryDiagnosis" (unavailable data)
     = Some (JStr "Offline diagnosis service unavailable")
  /\ "Offline diagnosis service unavailable" <> ""
  /\ get_prop "differentialDiagnoses" (unavailable data) = Some (JArr [])
  /\ get_prop "requiresReferral" (unavailable data) = Some (JBool false)
  /\ get_prop "referralReason" (unavailable data)
     = Some (JStr "Error in local NLP service").
Proof.
  intros Hroute Hun. split; [|repeat split; discriminate].
  destruct (isOnline (navigator w)) eqn:Hon.
  - destruct Hroute as [Hoff | [e He]]; [discriminate|].
    rewrite (analyze_primary_throws w data e Hon He). cbn [snd].
    rewrite (diagnoseOffline_unreachable w data Hun). reflexivity.
  - rewrite (analyze_offline w data Hon).
    rewrite (diagnoseOffline_unreachable w data Hun). reflexivity.
Qed.

Lemma unreachable_fallback_degrades_witness :
  snd (analyze world_offline_unreachable input_fever)
  = Ok (unavailable input_fever)
  /\ get_prop "primaryDiagnosis" (unavailable input_fever)
     = Some (JStr "Offline diagnosis service unavailable")
  /\ "Offline diagnosis service unavailable" <> ""
  /\ get_prop "differentialDiagnoses" (unavailable input_fever) = Some (JArr [])
  /\ get_prop "requiresReferral" (unavailable input_fever) = Some (JBool false)
  /\ get_prop "referralReason" (unavailable input_fever)
     = Some (JStr "Error in local NLP service").
Proof.
  apply (unreachable_fallback_degrades world_offline_unreachable input_fever).
  - left. reflexivity.
  - exact I.
Defined.

End Resolver.

(* ===================================================================== *)
(** ** The snapshot store: [offlineCache] *)
(* ===================================================================== *)

Section SnapshotStore.
Import Offline.

Lemma setItem_items k v ls ls' :
  setItem k v ls = Ok ls' -> items ls' = <[k := v]> (items ls).
Proof.
  unfold setItem. destruct (used _ <=? quota ls)%nat; [|discriminate].
  intros [= <-]. reflexivity.
Qed.

Lemma getItem_setItem k v ls ls' :
  setItem k v ls = Ok ls' -> getItem k ls' = Some v.
Proof.
  intros H. unfold getItem. rewrite (setItem_items _ _ _ _ H).
  apply lookup_insert_eq.
Qed.

Lemma getItem_setItem_ne k k' v ls ls' :
  k <> k' -> setItem k v ls = Ok ls' -> getItem k' ls' = getItem k' ls.
Proof.
  intros Hne H. unfold getItem. rewrite (setItem_items _ _ _ _ H).
  apply lookup_insert_ne. assumption.
Qed.

Lemma truthy_stringify v : truthy (stringify v) = true.
Proof. destruct (stringify_nonempty v) as (c & s & ->). reflexivity. Qed.

(** Reading a collection parses the text under its key. *)
Lemma get_key c ls :
  get c ls
  = match getItem (key_of c) ls with
    | Some cached =>
        if truthy cached then
          match parse cached with Some v => v | None => JNull end
        else JNull
    | None => JNull
    end.
Proof. destruct c; reflexivity. Qed.

Lemma get_stored c ls v :
  getItem (key_of c) ls = Some (stringify v) -> get c ls = v.
Proof.
  intros H. rewrite get_key, H, truthy_stringify, parse_stringify. reflexivity.
Qed.

Lemma key_of_not_last_sync c : CACHE_KEYS.LAST_SYNC <> key_of c.
Proof. destruct c; discriminate. Qed.

(** Saving runs the two writes of the [try] block in order. *)
Lemma save_writes c now items ls :
  save c now items ls
  = match setItem (key_of c) (stringify (JArr items)) ls with
    | Throw _ => ls
    | Ok ls1 =>
        match setItem CACHE_KEYS.LAST_SYNC now ls1 with
        | Throw _ => ls1
        | Ok ls2 => ls2
        end
    end.
Proof. destruct c; reflexivity. Qed.

Lemma getItem_clearAll k ls :
  In k CACHE_KEYS.values -> getItem k (clearAll ls) = None.
Proof.
  unfold clearAll, CACHE_KEYS.values, getItem. cbn [fold_left removeItem items].
  intros [<- | [<- | [<- | []]]].
  - rewrite lookup_delete_ne by discriminate.
    rewrite lookup_delete_ne by discriminate. apply lookup_delete_eq.
  - rewrite lookup_delete_ne by discriminate. apply lookup_delete_eq.
  - apply lookup_delete_eq.
Qed.

(** C8, as the code has it.  Whenever localStorage accepts the write of a
  list under the key of its collection, reading that collection back
  after the save returns a list equal to the one saved, whatever the
  collection held before (no merge); when localStorage accepts the write of
  the time stamp as well, the last-sync entry is the moment of the save,
  and otherwise the save ends after its first write.  After [clearAll],
  reading any collection returns null. *)
Theorem snapshot_save_then_get c now items ls ls1 :
  setItem (key_of c) (stringify (JArr items)) ls = Ok ls1 ->
  get c (save c now items ls) = JArr items
  /\ match setItem CACHE_KEYS.LAST_SYNC now ls1 with
     | Ok _ => getItem CACHE_KEYS.LAST_SYNC (save c now items ls) = Some now
     | Throw _ => save c now items ls = ls1
     end
  /\ (forall c' ls', get c' (clearAll ls') = JNull).
Proof.
  intros H1. rewrite save_writes, H1. split; [|split].
  - apply get_stored.
    destruct (setItem CACHE_KEYS.LAST_SYNC now ls1) as [ls2|e] eqn:H2.
    + rewrite (getItem_setItem_ne _ _ _ _ _ (key_of_not_last_sync c) H2).
      apply (getItem_setItem _ _ _ _ H1).
    + apply (getItem_setItem _ _ _ _ H1).
  - destruct (setItem CACHE_KEYS.LAST_SYNC now ls1) as [ls2|e] eqn:H2.
    + apply (getItem_setItem _ _ _ _ H2).
    + reflexivity.
  - intros c' ls'. rewrite get_key, getItem_clearAll; [reflexivity|].
    destruct c'; cbn; auto.
Qed.

Lemma snapshot_save_then_get_witness :
  get Patients (save Patients stamp items_one storage_roomy) = JArr items_one.
Proof.
  refine (proj1 (snapshot_save_then_get Patients stamp items_one storage_roomy
                   (mkStorage
                      (<[CACHE_KEYS.PATIENTS := stringify (JArr items_one)]> ∅)
                      1000) _)).
  vm_compute. reflexivity.
Defined.

(** A save that is lost: the storage area has room for ten characters,
    the write of the list throws, the [catch] logs it, and the collection
    reads as null afterwards. *)
Lemma save_beyond_quota_is_dropped :
  setItem CACHE_KEYS.PATIENTS (stringify (JArr items_one)) storage_small
  = Throw QuotaExceededError
  /\ save Patients stamp items_one storage_small = storage_small
  /\ get Patients (save Patients stamp items_one storage_small) = JNull.
Proof. vm_compute. repeat split. Qed.
End SnapshotStore.

(* ===================================================================== *)
(** ** The record gateway *)
(* ===================================================================== *)

Lemma parse_column_stringify v dflt :
  Storage.parse_column (Some (stringify v)) dflt = Ok v.
Proof.
  unfold Storage.parse_column.
  destruct (stringify_nonempty v) as (c & s & E). rewrite E, <- E.
  rewrite parse_stringify. reflexivity.
Qed.

(** Reading a row the gateway wrote gives back the record it returned. *)
Lemma rowToDiagnosis_written id createdAtIso ins :
  Storage.rowToDiagnosis (Storage.diagnosis_row id createdAtIso ins)
  = Ok (Storage.diagnosis_of id createdAtIso ins).
Proof.
  destruct ins as [pid sy vs pd dd tp rr reason lang].
  unfold Storage.rowToDiagnosis, Storage.diagnosis_row, Storage.diagnosis_of.
  cbn -[stringify Storage.parse_column].
  rewrite parse_column_stringify.
  destruct vs as [v|], dd as [l|], tp as [p|];
    rewrite ?parse_column_stringify; cbn [Storage.parse_column];
    destruct rr as [[]|]; reflexivity.
Qed.

Lemma rowToKnowledge_written id createdAtIso entry :
  Storage.rowToKnowledge (Storage.knowledge_row id createdAtIso entry)
  = Ok (Storage.knowledge_of id createdAtIso entry).
Proof.
  unfold Storage.rowToKnowledge, Storage.knowledge_row, Storage.knowledge_of.
  cbn -[stringify Storage.parse_column]. rewrite parse_column_stringify. reflexivity.
Qed.

(** What [rowToDiagnosis] puts in place of a NULL column. *)
Lemma rowToDiagnosis_defaults row d :
  Storage.rowToDiagnosis row = Ok d ->
  (Db.DiagnosisRow.symptoms row = None -> Diagnosis.symptoms d = JArr [])
  /\ (Db.DiagnosisRow.differentialDiagnoses row = None ->
      Diagnosis.differentialDiagnoses d = JArr [])
  /\ (Db.DiagnosisRow.language row = None -> Diagnosis.language d = "en")
  /\ Diagnosis.requiresReferral d
     = negb (Db.DiagnosisRow.requiresReferral row =? 0).
Proof.
  intros H. unfold Storage.rowToDiagnosis in H.
  destruct (Storage.parse_column (Db.DiagnosisRow.vitalSigns row) JNull)
    as [vs|] eqn:Evs; [|discriminate].
  destruct (Storage.parse_column (Db.DiagnosisRow.differentialDiagnoses row) (JArr []))
    as [dd|] eqn:Edd; [|discriminate].
  destruct (Storage.parse_column (Db.DiagnosisRow.treatmentProtocol row) JNull)
    as [tp|] eqn:Etp; [|discriminate].
  destruct (Storage.parse_column (Db.DiagnosisRow.symptoms row) (JArr []))
    as [sy|] eqn:Esy; [|discriminate].
  injection H as <-. cbn. repeat split.
  - intros Hn. rewrite Hn in Esy. cbn in Esy. congruence.
  - intros Hn. rewrite Hn in Edd. cbn in Edd. congruence.
  - intros Hn. rewrite Hn. reflexivity.
Qed.

Lemma insert_diagnosis_ok row db db' :
  Db.insert_diagnosis row db = Ok db' ->
  db' = Db.mk (Db.patients db) (Db.diagnoses db ++ [row]) (Db.knowledge_base db).
Proof.
  unfold Db.insert_diagnosis.
  repeat match goal with |- context [if ?b then _ else _] => destruct b end;
    congruence.
Qed.

Lemma insert_knowledge_ok row db db' :
  Db.insert_knowledge row db = Ok db' ->
  db' = Db.mk (Db.patients db) (Db.diagnoses db) (Db.knowledge_base db ++ [row]).
Proof.
  unfold Db.insert_knowledge.
  repeat match goal with |- context [if ?b then _ else _] => destruct b end;
    congruence.
Qed.

Lemma insert_patient_ok row db db' :
  Db.insert_patient row db = Ok db' ->
  db' = Db.mk (Db.patients db ++ [row]) (Db.diagnoses db) (Db.knowledge_base db).
Proof.
  unfold Db.insert_patient.
  repeat match goal with |- context [if ?b then _ else _] => destruct b end;
    congruence.
Qed.

Lemma createDiagnosis_ok id createdAtIso ins db d db' :
  Storage.createDiagnosis id createdAtIso ins db = Ok (d, db') ->
  d = Storage.diagnosis_of id createdAtIso ins
  /\ db' = Db.mk (Db.patients db)
             (Db.diagnoses db ++ [Storage.diagnosis_row id createdAtIso ins])
             (Db.knowledge_base db).
Proof.
  unfold Storage.createDiagnosis.
  destruct (Db.insert_diagnosis _ db) as [db1|e] eqn:E; [|discriminate].
  intros [= <- <-]. split; [reflexivity|]. apply insert_diagnosis_ok. exact E.
Qed.

Lemma addKnowledgeEntry_ok id createdAtIso entry db e db' :
  Storage.addKnowledgeEntry id createdAtIso entry db = Ok (e, db') ->
  e = Storage.knowledge_of id createdAtIso entry
  /\ db' = Db.mk (Db.patients db) (Db.diagnoses db)
             (Db.knowledge_base db ++ [Storage.knowledge_row id createdAtIso entry]).
Proof.
  unfold Storage.addKnowledgeEntry.
  destruct (Db.insert_knowledge _ db) as [db1|x] eqn:E; [|discriminate].
  intros [= <- <-]. split; [reflexivity|]. apply insert_knowledge_ok. exact E.
Qed.

Lemma createPatient_ok id createdAtIso ins db p db' :
  Storage.createPatient id createdAtIso ins db = Ok (p, db') ->
  Db.diagnoses db' = Db.diagnoses db /\ Db.knowledge_base db' = Db.knowledge_base db.
Proof.
  unfold Storage.createPatient.
  destruct (Db.insert_patient _ db) as [db1|x] eqn:E; [|discriminate].
  intros [= _ <-]. rewrite (insert_patient_ok _ _ _ E). split; reflexivity.
Qed.

(** Every row of a reachable database was written by the gateway. *)
Lemma reachable_written db :
  reachable db ->
  Forall written_diagnosis (Db.diagnoses db)
  /\ Forall written_knowledge (Db.knowledge_base db).
Proof.
  induction 1 as [| id t ins db p db' _ [IHd IHk] H
                  | id t ins db d db' _ [IHd IHk] H
                  | id t entry db e db' _ [IHd IHk] H].
  - split; constructor.
  - destruct (createPatient_ok _ _ _ _ _ _ H) as [-> ->]. split; assumption.
  - destruct (createDiagnosis_ok _ _ _ _ _ _ H) as [_ ->]. cbn. split; [|assumption].
    apply List.Forall_app. split; [assumption|]. constructor; [|constructor].
    exists id, t, ins. reflexivity.
  - destruct (addKnowledgeEntry_ok _ _ _ _ _ _ H) as [_ ->]. cbn. split; [assumption|].
    apply List.Forall_app. split; [assumption|]. constructor; [|constructor].
    exists id, t, entry. reflexivity.
Qed.

(** The database of the examples is one the gateway produces. *)
Lemma reachable_db_after_flu : reachable db_after_flu.
Proof.
  eapply (reach_addKnowledgeEntry "k1" 2000 (Routes.entry_of request_fever ai_flu)).
  - eapply (reach_createDiagnosis "d1" 1000 (Routes.insert_of request_fever ai_flu)).
    + eapply (reach_createPatient "p1" 5 (InsertPatient.mk "A" 30 "male" None None None)).
      * apply reach_empty.
      * reflexivity.
    + reflexivity.
  - reflexivity.
Qed.

Lemma normalized_written id createdAtIso ins :
  normalized (Storage.diagnosis_of id createdAtIso ins).
Proof. split; eexists; reflexivity. Qed.

Lemma written_reads_normalized row :
  written_diagnosis row ->
  exists d, Storage.rowToDiagnosis row = Ok d /\ normalized d.
Proof.
  intros (id & t & ins & ->). eexists. split.
  - apply rowToDiagnosis_written.
  - apply normalized_written.
Qed.

(** C10.  In every database the gateway's writes produce, [getDiagnosis],
    [getAllDiagnoses] and [getDiagnosesByPatient] return without throwing,
    and in every [Diagnosis] they return the symptoms and the
    differentialDiagnoses are lists, never null.  [rowToDiagnosis] reads a
    NULL symptoms or differentialDiagnoses column as the empty list and a
    NULL language as "en", its requiresReferral is the boolean [!!] of the
    stored integer, and [createDiagnosis] does store NULL for an absent
    differential list. *)
Theorem reads_return_normalized_diagnoses db :
  reachable db ->
  (forall id, exists r,
      Storage.getDiagnosis id db = Ok r /\ forall d, r = Some d -> normalized d)
  /\ (exists ds, Storage.getAllDiagnoses db = Ok ds /\ Forall normalized ds)
  /\ (forall patientId, exists ds,
        Storage.getDiagnosesByPatient patientId db = Ok ds /\ Forall normalized ds)
  /\ (forall row d,
        Storage.rowToDiagnosis row = Ok d ->
        (Db.DiagnosisRow.symptoms row = None -> Diagnosis.symptoms d = JArr [])
        /\ (Db.DiagnosisRow.differentialDiagnoses row = None ->
            Diagnosis.differentialDiagnoses d = JArr [])
        /\ (Db.DiagnosisRow.language row = None -> Diagnosis.language d = "en")
        /\ Diagnosis.requiresReferral d
           = negb (Db.DiagnosisRow.requiresReferral row =? 0))
  /\ (forall id createdAtIso ins,
        InsertDiagnosis.differentialDiagnoses ins = None ->
        Db.DiagnosisRow.differentialDiagnoses
          (Storage.diagnosis_row id createdAtIso ins) = None).
Proof.
  intros Hreach. destruct (reachable_written db Hreach) as [Hrows _].
  assert (Hread : Forall (fun row => exists d, Storage.rowToDiagnosis row = Ok d
                                               /\ normalized d) (Db.diagnoses db)).
  { eapply List.Forall_impl; [|exact Hrows]. apply written_reads_normalized. }
  split; [|split; [|split; [|split]]].
  - intros id. unfold Storage.getDiagnosis.
    destruct (find _ (Db.diagnoses db)) as [row|] eqn:E.
    + apply List.find_some in E as [Hin _].
      destruct (proj1 (List.Forall_forall _ _) Hread row Hin) as (d & -> & Hd).
      eexists. split; [reflexivity|]. intros d' [= <-]. exact Hd.
    + eexists. split; [reflexivity|]. discriminate.
  - apply map_throwing_forall. apply Forall_sort. exact Hread.
  - intros pid. apply map_throwing_forall. apply Forall_sort, Forall_filter. exact Hread.
  - apply rowToDiagnosis_defaults.
  - intros id t ins Hn. unfold Storage.diagnosis_row. cbn. rewrite Hn. reflexivity.
Qed.

(** The database of the second example, whose rows hold numbers with a
    fraction, is one the gateway produces as well. *)
Lemma reachable_db_after_measles : reachable db_after_measles.
Proof.
  eapply (reach_addKnowledgeEntry "k2" 4000 (Routes.entry_of request_vitals ai_measles)).
  - eapply (reach_createDiagnosis "d2" 3000
              (Routes.insert_of request_vitals ai_measles)).
    + exact reachable_db_after_flu.
    + reflexivity.
  - reflexivity.
Qed.

Lemma reads_return_normalized_diagnoses_witness :
  (exists ds, Storage.getAllDiagnoses db_after_measles = Ok ds /\ Forall normalized ds)
  /\ map Db.DiagnosisRow.vitalSigns (Db.diagnoses db_after_measles)
     = [None;
        Some (stringify (JObj [("temperature", JNum n98_6); ("heartRate", JNum 72)]))]
  /\ Number.to_string n98_6 = "98.6".
Proof.
  split; [|split; reflexivity].
  exact (proj1 (proj2 (reads_return_normalized_diagnoses db_after_measles
                         reachable_db_after_measles))).
Defined.

Lemma getPatient_none pid db :
  Storage.getPatient pid db = None <->
  existsb (fun r => String.eqb (Db.PatientRow.id r) pid) (Db.patients db) = false.
Proof.
  unfold Storage.getPatient. rewrite <- find_none_existsb.
  destruct (find _ (Db.patients db)); cbn; split; congruence.
Qed.

Lemma not_null_written id createdAtIso ins :
  Db.not_null (Db.DiagnosisRow.symptoms (Storage.diagnosis_row id createdAtIso ins))
  && Db.not_null (Db.DiagnosisRow.language (Storage.diagnosis_row id createdAtIso ins))
  = true.
Proof. reflexivity. Qed.

(** A diagnosis whose patient is missing is refused, whatever its id. *)
Lemma createDiagnosis_missing_patient id createdAtIso ins db :
  Storage.getPatient (InsertDiagnosis.patientId ins) db = None ->
  exists code,
    Storage.createDiagnosis id createdAtIso ins db = Throw (SqliteError code).
Proof.
  intros Hp. apply getPatient_none in Hp.
  unfold Storage.createDiagnosis, Db.insert_diagnosis.
  rewrite not_null_written. cbn [negb].
  destruct (existsb _ (Db.diagnoses db)); [eauto|].
  change (Db.DiagnosisRow.patientId (Storage.diagnosis_row id createdAtIso ins))
    with (InsertDiagnosis.patientId ins).
  rewrite Hp. cbn [negb]. eauto.
Qed.







Lemma stored_symptoms_written id createdAtIso entry :
  stored_symptoms (Storage.knowledge_of id createdAtIso entry)
  = Storage.coalesce (KnowledgeEntry.symptoms entry) [].
Proof.
  unfold stored_symptoms, Storage.knowledge_of, Storage.strings_json.
  cbn [KnowledgeBase.symptoms].
  induction (Storage.coalesce (KnowledgeEntry.symptoms entry) []) as [|s t IH];
    cbn [map flat_map app]; [reflexivity|]. rewrite IH. reflexivity.
Qed.

Lemma includes_strings l s :
  Storage.includes (Storage.strings_json l) s = Ok (existsb (String.eqb s) l).
Proof.
  unfold Storage.includes, Storage.strings_json. f_equal.
  induction l as [|t l IH]; cbn [map existsb]; [reflexivity|].
  rewrite IH, (String.eqb_sym t s). reflexivity.
Qed.

Lemma some_included_strings l symptoms :
  Storage.some_included (Storage.strings_json l) symptoms
  = Ok (existsb (fun s => existsb (String.eqb s) l) symptoms).
Proof.
  induction symptoms as [|s t IH]; cbn [Storage.some_included existsb]; [reflexivity|].
  rewrite includes_strings. destruct (existsb (String.eqb s) l); [reflexivity|].
  exact IH.
Qed.

(** The three passes of [searchKnowledge] over rows the gateway wrote. *)
Lemma searchKnowledge_passes symptoms ageGroup gender rows :
  Forall written_knowledge rows ->
  exists entries,
    map_throwing Storage.rowToKnowledge rows = Ok entries
    /\ exists filtered,
         filter_throwing
           (fun row =>
              match Storage.parse_column (Db.KnowledgeRow.symptoms row) (JArr []) with
              | Throw e => Throw e
              | Ok rowSymptoms => Storage.some_included rowSymptoms symptoms
              end)
           (List.filter
              (fun r =>
                 String.eqb (Db.KnowledgeRow.ageGroup r) ageGroup
                 && (String.eqb (Db.KnowledgeRow.gender r) gender
                     || String.eqb (Db.KnowledgeRow.gender r) "other"))
              rows)
         = Ok filtered
         /\ map_throwing Storage.rowToKnowledge filtered
            = Ok (List.filter (spec_matches symptoms ageGroup gender) entries).
Proof.
  induction 1 as [|row rows (id & t & entry & ->) Hrows (entries & He & filtered & Hf & Hm)].
  - exists []. split; [reflexivity|]. exists []. split; reflexivity.
  - exists (Storage.knowledge_of id t entry :: entries). split.
    { cbn [map_throwing]. rewrite rowToKnowledge_written, He. reflexivity. }
    cbn [List.filter].
    unfold spec_matches at 1. rewrite stored_symptoms_written.
    change (KnowledgeBase.ageGroup (Storage.knowledge_of id t entry))
      with (KnowledgeEntry.ageGroup entry).
    change (KnowledgeBase.gender (Storage.knowledge_of id t entry))
      with (KnowledgeEntry.gender entry).
    change (Db.KnowledgeRow.ageGroup (Storage.knowledge_row id t entry))
      with (KnowledgeEntry.ageGroup entry).
    change (Db.KnowledgeRow.gender (Storage.knowledge_row id t entry))
      with (KnowledgeEntry.gender entry).
    destruct (String.eqb (KnowledgeEntry.ageGroup entry) ageGroup
              && (String.eqb (KnowledgeEntry.gender entry) gender
                  || String.eqb (KnowledgeEntry.gender entry) "other")).
    + cbn [andb filter_throwing].
      change (Db.KnowledgeRow.symptoms (Storage.knowledge_row id t entry))
        with (Some (stringify (Storage.strings_json
                                 (Storage.coalesce (KnowledgeEntry.symptoms entry) [])))).
      rewrite parse_column_stringify, some_included_strings, Hf.
      destruct (existsb _ symptoms).
      * eexists. split; [reflexivity|]. cbn [map_throwing].
        rewrite rowToKnowledge_written, Hm. reflexivity.
      * eexists. split; [reflexivity|]. exact Hm.
    + cbn [andb]. exists filtered. split; assumption.
Qed.

Lemma map_throwing_snoc {E A B : Type} (f : A -> result E B) l x ys y :
  map_throwing f l = Ok ys -> f x = Ok y ->
  map_throwing f (l ++ [x]) = Ok (ys ++ [y]).
Proof.
  revert ys. induction l as [|a l IH]; cbn [map_throwing app]; intros ys Hl Hx.
  - injection Hl as <-. rewrite Hx. reflexivity.
  - destruct (f a) as [b|e]; [|discriminate].
    destruct (map_throwing f l) as [bs|e]; [|discriminate].
    injection Hl as <-. rewrite (IH bs eq_refl Hx). reflexivity.
Qed.

(** The rows of the knowledge base are those of the stored entries, in
    their order. *)
Lemma stores_rows db entries :
  stores db entries ->
  Forall written_knowledge (Db.knowledge_base db)
  /\ map_throwing Storage.rowToKnowledge (Db.knowledge_base db) = Ok entries.
Proof.
  induction 1 as [| id t ins db p db' es _ [IHw IHm] H
                  | id t ins db d db' es _ [IHw IHm] H
                  | id t entry db e db' es _ [IHw IHm] H].
  - split; [constructor|reflexivity].
  - destruct (createPatient_ok _ _ _ _ _ _ H) as [_ ->]. split; assumption.
  - destruct (createDiagnosis_ok _ _ _ _ _ _ H) as [_ ->]. split; assumption.
  - destruct (addKnowledgeEntry_ok _ _ _ _ _ _ H) as [-> ->]. cbn [Db.knowledge_base].
    split.
    + apply List.Forall_app. split; [assumption|]. constructor; [|constructor].
      exists id, t, entry. reflexivity.
    + apply map_throwing_snoc; [assumption|]. apply rowToKnowledge_written.
Qed.

(** Every database the gateway produces has its stored entries. *)
Lemma reachable_stores db : reachable db <-> exists entries, stores db entries.
Proof.
  split.
  - induction 1 as [| id t ins db p db' _ [es IH] H
                    | id t ins db d db' _ [es IH] H
                    | id t entry db e db' _ [es IH] H].
    + exists []. constructor.
    + exists es. eapply stores_createPatient; eassumption.
    + exists es. eapply stores_createDiagnosis; eassumption.
    + exists (es ++ [e]). eapply stores_addKnowledgeEntry; eassumption.
  - intros [es H].
    induction H as [| id t ins db p db' es _ IH H
                    | id t ins db d db' es _ IH H
                    | id t entry db e db' es _ IH H].
    + constructor.
    + eapply reach_createPatient; eassumption.
    + eapply reach_createDiagnosis; eassumption.
    + eapply reach_addKnowledgeEntry; eassumption.
Qed.

(** The comparator of [searchKnowledge] sorts by descending confidence. *)
Lemma sort_by_confidence l :
  StronglySorted confidence_ge
    (sort (fun a b => Number.sign (Number.sub (KnowledgeBase.confidence b)
                                              (KnowledgeBase.confidence a))) l).
Proof.
  apply sort_sorted_by; unfold confidence_ge.
  - intros a b H. apply Z.leb_le in H. rewrite sign_sub in H.
    apply number_leb_le. exact H.
  - intros a b H. apply Z.leb_gt in H. rewrite sign_sub in H.
    apply number_lt_le, number_leb_gt. exact H.
  - intros a b c Hab Hbc. exact (number_le_trans _ _ _ Hbc Hab).
Qed.

(** C6.  Take any database the gateway's writes produce, with the entries
    [addKnowledgeEntry] stored in it, and any query (symptoms, ageGroup,
    gender).  [searchKnowledge] returns, and what it returns is, up to
    order, exactly the stored entries whose ageGroup is the query's, whose
    gender is the query's or "other", and whose symptoms share an element
    with the query's; the list is sorted by confidence, descending. *)
Theorem searchKnowledge_returns_matches_sorted db entries symptoms ageGroup gender :
  stores db entries ->
  match Storage.searchKnowledge symptoms ageGroup gender db with
  | Ok res =>
      Permutation res (List.filter (spec_matches symptoms ageGroup gender) entries)
      /\ StronglySorted confidence_ge res
  | Throw _ => False
  end.
Proof.
  intros Hstores. destruct (stores_rows db entries Hstores) as [Hrows He].
  destruct (searchKnowledge_passes symptoms ageGroup gender _ Hrows)
    as (entries' & He' & filtered & Hf & Hm).
  rewrite He in He'. injection He' as <-.
  unfold Storage.searchKnowledge. rewrite Hf, Hm. split.
  - apply sort_perm.
  - apply sort_by_confidence.
Qed.

(** The database of the examples with its four entries. *)
Lemma stores_db_four_entries :
  stores db_four_entries [entry_flu; entry_measles; entry_rubella; entry_migraine].
Proof.
  apply (stores_addKnowledgeEntry "k4" 6000 added_migraine
           (Db.mk (Db.patients db_after_measles) (Db.diagnoses db_after_measles)
              (Db.knowledge_base db_after_measles
               ++ [Storage.knowledge_row "k3" 5000 added_rubella]))
           entry_migraine db_four_entries [entry_flu; entry_measles; entry_rubella]);
    [|reflexivity].
  apply (stores_addKnowledgeEntry "k3" 5000 added_rubella db_after_measles
           entry_rubella _ [entry_flu; entry_measles]); [|reflexivity].
  apply (stores_addKnowledgeEntry "k2" 4000 (Routes.entry_of request_vitals ai_measles)
           (Db.mk (Db.patients db_after_flu)
              (Db.diagnoses db_after_flu
               ++ [Storage.diagnosis_row "d2" 3000
                     (Routes.insert_of request_vitals ai_measles)])
              (Db.knowledge_base db_after_flu))
           entry_measles db_after_measles [entry_flu]); [|reflexivity].
  apply (stores_createDiagnosis "d2" 3000 (Routes.insert_of request_vitals ai_measles)
           db_after_flu
           (Storage.diagnosis_of "d2" 3000 (Routes.insert_of request_vitals ai_measles))
           _ [entry_flu]); [|reflexivity].
  apply (stores_addKnowledgeEntry "k1" 2000 (Routes.entry_of request_fever ai_flu)
           (Db.mk (Db.patients db_one_patient)
              [Storage.diagnosis_row "d1" 1000 (Routes.insert_of request_fever ai_flu)]
              [])
           entry_flu db_after_flu []); [|reflexivity].
  apply (stores_createDiagnosis "d1" 1000 (Routes.insert_of request_fever ai_flu)
           db_one_patient
           (Storage.diagnosis_of "d1" 1000 (Routes.insert_of request_fever ai_flu))
           _ []); [|reflexivity].
  apply (stores_createPatient "p1" 5 (InsertPatient.mk "A" 30 "male" None None None)
           Db.empty (Patient.mk "p1" "A" 30 "male" None None None 5)
           db_one_patient []); [|reflexivity].
  apply stores_empty.
Qed.

(** The theorem on that database: of the four entries, the search for
    "fever" among adult men returns the two that match, the entry of
    confidence 90 before the one of confidence 87.5. *)
Lemma searchKnowledge_returns_matches_sorted_witness :
  Storage.searchKnowledge ["fever"] "adult" "male" db_four_entries
  = Ok [entry_rubella; entry_measles]
  /\ Permutation [entry_rubella; entry_measles]
       (List.filter (spec_matches ["fever"] "adult" "male")
          [entry_flu; entry_measles; entry_rubella; entry_migraine])
  /\ StronglySorted confidence_ge [entry_rubella; entry_measles].
Proof.
  split; [reflexivity|].
  exact (searchKnowledge_returns_matches_sorted db_four_entries
           [entry_flu; entry_measles; entry_rubella; entry_migraine]
           ["fever"] "adult" "male" stores_db_four_entries).
Defined.

(* ===================================================================== *)
(** ** POST /api/diagnose *)
(* ===================================================================== *)

(** The [try] block, step by step. *)
Lemma diagnose_try_run env body st :
  Routes.diagnose_try env body st =
  match Zod.symptomAnalysisSchema body with
  | inl issues => (Throw (ZodError issues), st)
  | inr v =>
      match Routes.post env primary_url v 28000 with
      | Throw e => (Throw e, sent st v)
      | Ok ai =>
          match Storage.createDiagnosis (Routes.diagnosisId env)
                  (Routes.diagnosisCreatedAt env) (Routes.insert_of v ai)
                  (Routes.db st) with
          | Throw e => (Throw e, sent st v)
          | Ok (d, db1) =>
              match Storage.addKnowledgeEntry (Routes.knowledgeId env)
                      (Routes.knowledgeCreatedAt env) (Routes.entry_of v ai) db1 with
              | Throw e => (Throw e, Routes.mkState db1 (Routes.calls (sent st v)))
              | Ok (_, db2) => (Ok d, Routes.mkState db2 (Routes.calls (sent st v)))
              end
          end
      end
  end.
Proof.
  unfold Routes.diagnose_try, mbind, Routes.M_bind, Routes.zod_parse.
  destruct (Zod.symptomAnalysisSchema body) as [issues|v]; [reflexivity|].
  unfold Routes.axios_post. fold primary_url. fold (sent st v).
  destruct (Routes.post env primary_url v 28000) as [ai|e]; [|reflexivity].
  unfold Routes.storage at 1. cbn [Routes.db sent].
  destruct (Storage.createDiagnosis _ _ _ (Routes.db st)) as [[d db1]|e]; [|reflexivity].
  unfold Routes.storage. cbn [Routes.db Routes.calls].
  destruct (Storage.addKnowledgeEntry _ _ _ db1) as [[k db2]|e]; reflexivity.
Qed.

(** Issues of an argument or of the function survive [Zod.ap]. *)
Lemma ap_issue_arg {A B : Type} (f : Zod.parsed (A -> B)) (a : Zod.parsed A) i x :
  a = inl i -> In x i -> exists j, Zod.ap f a = inl j /\ In x j.
Proof.
  intros -> Hx. destruct f as [k|g]; cbn [Zod.ap].
  - exists (k ++ i). split; [reflexivity|]. apply in_or_app. right. exact Hx.
  - exists i. split; [reflexivity|exact Hx].
Qed.

Lemma ap_issue_fun {A B : Type} (f : Zod.parsed (A -> B)) (a : Zod.parsed A) i x :
  f = inl i -> In x i -> exists j, Zod.ap f a = inl j /\ In x j.
Proof.
  intros -> Hx. destruct a as [k|y]; cbn [Zod.ap].
  - exists (i ++ k). split; [reflexivity|]. apply in_or_app. left. exact Hx.
  - exists i. split; [reflexivity|exact Hx].
Qed.

Lemma schema_rejects_empty_symptoms m :
  prop "symptoms" m = Some (JArr []) ->
  exists issues,
    Zod.symptomAnalysisSchema (JObj m) = inl issues /\ In no_symptom_issue issues.
Proof.
  intros Hs. unfold Zod.symptomAnalysisSchema. rewrite Hs.
  assert (H0 : Zod.array_string_min1 "At least one symptom is required"
                 [Zod.Key "symptoms"] (Some (JArr [])) = inl [no_symptom_issue])
    by reflexivity.
  rewrite H0.
  match goal with
  | |- context [Zod.ap ?f (inl ?i)] =>
      destruct (ap_issue_arg f (inl i) i no_symptom_issue eq_refl
                  (or_introl eq_refl)) as (j1 & E1 & H1);
      rewrite E1; clear E1
  end.
  repeat match goal with
         | Hj : In no_symptom_issue ?j |- context [@Zod.ap ?A ?B (inl ?j) ?a] =>
             let E := fresh "E" in
             destruct (@ap_issue_fun A B (inl j) a j no_symptom_issue eq_refl Hj)
               as (? & E & ?);
             rewrite E; clear E Hj
         end.
  eauto.
Qed.

(** C7.  A request whose symptoms list is empty is answered with status
    400 and the issues of the ZodError, the issue on the field "symptoms"
    among them, and the state of the server is what it was before: no
    request was sent to a backend, and no diagnosis row and no knowledge-base
    entry were created. *)
Theorem empty_symptoms_are_rejected env m st :
  prop "symptoms" m = Some (JArr []) ->
  exists errors,
    Routes.diagnose env (JObj m) st
    = (Routes.mkResponse 400
         (Routes.Message "Invalid diagnosis data" (Some errors)), st)
    /\ In no_symptom_issue errors.
Proof.
  intros Hs. destruct (schema_rejects_empty_symptoms m Hs) as (issues & E & Hin).
  exists issues. split; [|exact Hin].
  unfold Routes.diagnose. rewrite diagnose_try_run, E. reflexivity.
Qed.

Lemma empty_symptoms_are_rejected_witness :
  exists errors,
    Routes.diagnose env_flu (JObj members_no_symptoms)
      (Routes.mkState db_one_patient [])
    = (Routes.mkResponse 400
         (Routes.Message "Invalid diagnosis data" (Some errors)),
       Routes.mkState db_one_patient [])
    /\ In no_symptom_issue errors.
Proof.
  apply (empty_symptoms_are_rejected env_flu members_no_symptoms
           (Routes.mkState db_one_patient [])).
  reflexivity.
Defined.

(** [addKnowledgeEntry] throws nothing but the error of its INSERT. *)
Lemma addKnowledgeEntry_throws id createdAtIso entry db e :
  Storage.addKnowledgeEntry id createdAtIso entry db = Throw e ->
  exists code, e = SqliteError code.
Proof.
  unfold Storage.addKnowledgeEntry, Db.insert_knowledge.
  repeat match goal with |- context [if ?b then _ else _] => destruct b end;
    intros [= <-]; eauto.
Qed.

(** C4, as the code has it.  When [createDiagnosis] succeeds and the
    [addKnowledgeEntry] that follows throws, the handler answers with status
    500 and the message "NLP service unavailable", not with the stored
    diagnosis; the diagnosis row stays in the database (nothing is rolled
    back) and the knowledge base is as it was. *)
Theorem knowledge_failure_fails_the_request env body st v ai d db1 e :
  Zod.symptomAnalysisSchema body = inr v ->
  Routes.post env primary_url v 28000 = Ok ai ->
  Storage.createDiagnosis (Routes.diagnosisId env) (Routes.diagnosisCreatedAt env)
    (Routes.insert_of v ai) (Routes.db st) = Ok (d, db1) ->
  Storage.addKnowledgeEntry (Routes.knowledgeId env) (Routes.knowledgeCreatedAt env)
    (Routes.entry_of v ai) db1 = Throw e ->
  Routes.diagnose env body st
  = (Routes.mkResponse 500 (Routes.Message "NLP service unavailable" None),
     Routes.mkState db1 (Routes.calls (sent st v)))
  /\ Db.diagnoses db1
     = Db.diagnoses (Routes.db st)
       ++ [Storage.diagnosis_row (Routes.diagnosisId env)
             (Routes.diagnosisCreatedAt env) (Routes.insert_of v ai)]
  /\ Db.knowledge_base db1 = Db.knowledge_base (Routes.db st).
Proof.
  intros Hv Hai Hd Hk.
  destruct (addKnowledgeEntry_throws _ _ _ _ _ Hk) as [code ->].
  destruct (createDiagnosis_ok _ _ _ _ _ _ Hd) as [_ Hdb].
  split; [|rewrite Hdb; split; reflexivity].
  unfold Routes.diagnose. rewrite diagnose_try_run, Hv, Hai, Hd, Hk. reflexivity.
Qed.

Lemma knowledge_failure_fails_the_request_witness :
  Routes.status
    (fst (Routes.diagnose env_flu_again (JObj members_fever)
            (Routes.mkState db_after_flu []))) = 500%nat.
Proof.
  refine (f_equal (fun r => Routes.status (fst r))
            (proj1 (knowledge_failure_fails_the_request env_flu_again
                      (JObj members_fever) (Routes.mkState db_after_flu [])
                      request_fever ai_flu
                      (Storage.diagnosis_of "d2" 3000
                         (Routes.insert_of request_fever ai_flu))
                      (Db.mk (Db.patients db_after_flu)
                         (Db.diagnoses db_after_flu
                          ++ [Storage.diagnosis_row "d2" 3000
                                (Routes.insert_of request_fever ai_flu)])
                         (Db.knowledge_base db_after_flu))
                      (SqliteError SQLITE_CONSTRAINT_PRIMARYKEY) _ _ _ _)));
    reflexivity.
Defined.

(** A run on which the stored diagnosis is not returned: [createDiagnosis]
    stores the row "d2", [addKnowledgeEntry] is refused because its id is
    taken, and the handler answers 500 while the row "d2" is in the
    database. *)
Lemma stored_diagnosis_is_not_returned :
  Zod.symptomAnalysisSchema (JObj members_fever) = inr request_fever
  /\ (exists d db1,
        Storage.createDiagnosis "d2" 3000 (Routes.insert_of request_fever ai_flu)
          db_after_flu = Ok (d, db1)
        /\ Storage.addKnowledgeEntry "k1" 4000 (Routes.entry_of request_fever ai_flu)
             db1 = Throw (SqliteError SQLITE_CONSTRAINT_PRIMARYKEY))
  /\ fst (Routes.diagnose env_flu_again (JObj members_fever)
            (Routes.mkState db_after_flu []))
     = Routes.mkResponse 500 (Routes.Message "NLP service unavailable" None)
  /\ map Db.DiagnosisRow.id
       (Db.diagnoses
          (Routes.db (snd (Routes.diagnose env_flu_again (JObj members_fever)
                             (Routes.mkState db_after_flu [])))))
     = ["d1"; "d2"].
Proof.
  split; [reflexivity|]. split; [|split; reflexivity].
  eexists _, _. split; reflexivity.
Qed.

(** What [addKnowledgeEntry] does, by the id it is given. *)
Lemma addKnowledgeEntry_run id createdAtIso entry db :
  Storage.addKnowledgeEntry id createdAtIso entry db
  = if existsb (fun r => String.eqb (Db.KnowledgeRow.id r) id) (Db.knowledge_base db)
    then Throw (SqliteError SQLITE_CONSTRAINT_PRIMARYKEY)
    else Ok (Storage.knowledge_of id createdAtIso entry,
             Db.mk (Db.patients db) (Db.diagnoses db)
               (Db.knowledge_base db ++ [Storage.knowledge_row id createdAtIso entry])).
Proof.
  unfold Storage.addKnowledgeEntry, Db.insert_knowledge.
  change (Db.not_null (Db.KnowledgeRow.symptoms (Storage.knowledge_row _ _ _)))
    with true. cbn [negb].
  change (Db.KnowledgeRow.id (Storage.knowledge_row id createdAtIso entry)) with id.
  destruct (existsb _ (Db.knowledge_base db)); reflexivity.
Qed.

Lemma existsb_id_true {A : Type} (id_of : A -> string) id l :
  In id (map id_of l) ->
  existsb (fun r => String.eqb (id_of r) id) l = true.
Proof.
  intros Hin. apply in_map_iff in Hin as (r & Hr & Hin).
  apply existsb_exists. exists r. split; [exact Hin|].
  rewrite Hr. apply String.eqb_refl.
Qed.

(** The buckets of [ageGroup]. *)
Lemma ageGroup_buckets age :
  (Number.lt age 18 -> Routes.ageGroup age = "child")
  /\ (Number.le 18 age /\ Number.lt age 60 -> Routes.ageGroup age = "adult")
  /\ (Number.le 60 age -> Routes.ageGroup age = "senior").
Proof.
  unfold Routes.ageGroup. repeat split.
  - intros H. apply number_ltb_lt in H. rewrite H. reflexivity.
  - intros [H1 H2]. apply number_ltb_ge in H1. apply number_ltb_lt in H2.
    rewrite H1, H2. reflexivity.
  - intros H.
    assert (H18 : Number.le 18 60) by (vm_compute; discriminate).
    pose proof (number_le_trans _ _ _ H18 H) as H1.
    apply number_ltb_ge in H1. apply number_ltb_ge in H. rewrite H1, H.
    reflexivity.
Qed.

(** C5, as the code has it.  When the handler has created a Diagnosis, the
    knowledge-base entry is added under the id [newId()] draws for it.  If
    that id is not in use, the request is answered 201 with the diagnosis
    and exactly one row is appended to the knowledge base; read back, its
    ageGroup is "child" for an age below 18, "adult" from 18 up to 60
    excluded and "senior" from 60 on, and its confidence is the one of the
    first differential diagnosis, or 100 when the differential list is empty
    or absent; symptoms, gender and diagnosis are those of the request and
    of the answer.  If that id is in use, no entry is added: the request is
    answered 500, the knowledge base is as it was, and the row of the
    created Diagnosis stays. *)
Theorem created_diagnosis_adds_one_entry env body st v ai d db1 :
  Zod.symptomAnalysisSchema body = inr v ->
  Routes.post env primary_url v 28000 = Ok ai ->
  Storage.createDiagnosis (Routes.diagnosisId env) (Routes.diagnosisCreatedAt env)
    (Routes.insert_of v ai) (Routes.db st) = Ok (d, db1) ->
  (~ In (Routes.knowledgeId env) (knowledge_ids (Routes.db st)) ->
   exists row e st',
     Routes.diagnose env body st
     = (Routes.mkResponse 201 (Routes.DiagnosisJson d), st')
     /\ Db.knowledge_base (Routes.db st')
        = Db.knowledge_base (Routes.db st) ++ [row]
     /\ Storage.rowToKnowledge row = Ok e
     /\ (Number.lt (SymptomAnalysis.patientAge v) 18 ->
         KnowledgeBase.ageGroup e = "child")
     /\ (Number.le 18 (SymptomAnalysis.patientAge v)
         /\ Number.lt (SymptomAnalysis.patientAge v) 60 ->
         KnowledgeBase.ageGroup e = "adult")
     /\ (Number.le 60 (SymptomAnalysis.patientAge v) ->
         KnowledgeBase.ageGroup e = "senior")
     /\ KnowledgeBase.confidence e
        = match AiDiagnosis.differentialDiagnoses ai with
          | Some (first :: _) => DifferentialDiagnosis.confidence first
          | Some [] => 100
          | None => 100
          end
     /\ KnowledgeBase.symptoms e = Storage.strings_json (SymptomAnalysis.symptoms v)
     /\ KnowledgeBase.gender e = SymptomAnalysis.patientGender v
     /\ KnowledgeBase.diagnosis e = AiDiagnosis.primaryDiagnosis ai
     /\ KnowledgeBase.outcome e = None)
  /\ (In (Routes.knowledgeId env) (knowledge_ids (Routes.db st)) ->
      exists st',
        Routes.diagnose env body st
        = (Routes.mkResponse 500 (Routes.Message "NLP service unavailable" None), st')
        /\ Db.knowledge_base (Routes.db st') = Db.knowledge_base (Routes.db st)
        /\ Db.diagnoses (Routes.db st')
           = Db.diagnoses (Routes.db st)
             ++ [Storage.diagnosis_row (Routes.diagnosisId env)
                   (Routes.diagnosisCreatedAt env) (Routes.insert_of v ai)]).
Proof.
  intros Hv Hai Hd.
  destruct (createDiagnosis_ok _ _ _ _ _ _ Hd) as [_ Hdb].
  pose proof (addKnowledgeEntry_run (Routes.knowledgeId env)
                (Routes.knowledgeCreatedAt env) (Routes.entry_of v ai) db1) as Hk.
  rewrite Hdb in Hk at 2. cbn [Db.knowledge_base] in Hk.
  split.
  - intros Hfresh.
    rewrite (existsb_id_false Db.KnowledgeRow.id _ _ Hfresh) in Hk.
    eexists _, _, _. split.
    { unfold Routes.diagnose. rewrite diagnose_try_run, Hv, Hai, Hd, Hk. reflexivity. }
    cbn [Routes.db Db.knowledge_base]. rewrite Hdb. cbn [Db.knowledge_base].
    split; [reflexivity|]. split; [apply rowToKnowledge_written|].
    cbn [Storage.knowledge_of Routes.entry_of KnowledgeBase.ageGroup
         KnowledgeBase.confidence KnowledgeBase.symptoms KnowledgeBase.gender
         KnowledgeBase.diagnosis KnowledgeBase.outcome KnowledgeEntry.ageGroup
         KnowledgeEntry.confidence KnowledgeEntry.symptoms KnowledgeEntry.gender
         KnowledgeEntry.diagnosis KnowledgeEntry.outcome Storage.coalesce].
    destruct (ageGroup_buckets (SymptomAnalysis.patientAge v)) as (H1 & H2 & H3).
    split; [exact H1|]. split; [exact H2|]. split; [exact H3|].
    unfold Routes.top_confidence.
    split; [destruct (AiDiagnosis.differentialDiagnoses ai) as [[|? ?]|]; reflexivity|].
    repeat split.
  - intros Hused.
    rewrite (existsb_id_true Db.KnowledgeRow.id _ _ Hused) in Hk.
    eexists. split.
    { unfold Routes.diagnose. rewrite diagnose_try_run, Hv, Hai, Hd, Hk. reflexivity. }
    cbn [Routes.db]. rewrite Hdb. split; reflexivity.
Qed.

Lemma created_diagnosis_adds_one_entry_witness :
  exists row e st',
    Routes.diagnose env_flu (JObj members_fever) (Routes.mkState db_one_patient [])
    = (Routes.mkResponse 201
         (Routes.DiagnosisJson
            (Storage.diagnosis_of "d1" 1000 (Routes.insert_of request_fever ai_flu))),
       st')
    /\ Db.knowledge_base (Routes.db st') = [] ++ [row]
    /\ Storage.rowToKnowledge row = Ok e
    /\ KnowledgeBase.ageGroup e = "child"
    /\ KnowledgeBase.confidence e = 80.
Proof.
  destruct (proj1 (created_diagnosis_adds_one_entry env_flu (JObj members_fever)
              (Routes.mkState db_one_patient []) request_fever ai_flu
              (Storage.diagnosis_of "d1" 1000 (Routes.insert_of request_fever ai_flu))
              (Db.mk (Db.patients db_one_patient)
                 [Storage.diagnosis_row "d1" 1000
                    (Routes.insert_of request_fever ai_flu)] [])
              eq_refl eq_refl eq_refl))
    as (row & e & st' & Hrun & Hkb & Hrow & Hchild & _ & _ & Hconf & _).
  - simpl. tauto.
  - exists row, e, st'. repeat split; try assumption.
    apply Hchild. reflexivity.
Defined.

(** A run on which a Diagnosis is created and no entry is added: the id
    drawn for the entry is the id "k1" of a stored entry; [createDiagnosis]
    stores the row "d2", and the knowledge base is after the request what
    it was before. *)
Lemma created_diagnosis_without_entry :
  (exists d db1,
     Storage.createDiagnosis "d2" 3000 (Routes.insert_of request_fever ai_flu)
       db_after_flu = Ok (d, db1))
  /\ diagnosis_ids
       (Routes.db (snd (Routes.diagnose env_flu_again (JObj members_fever)
                          (Routes.mkState db_after_flu []))))
     = ["d1"; "d2"]
  /\ Db.knowledge_base
       (Routes.db (snd (Routes.diagnose env_flu_again (JObj members_fever)
                          (Routes.mkState db_after_flu []))))
     = Db.knowledge_base db_after_flu
  /\ knowledge_ids db_after_flu = ["k1"].
Proof.
  split; [eexists _, _; reflexivity|]. repeat split.
Qed.

(** The buckets at the ages the specification names. *)
Lemma ageGroup_at_the_thresholds :
  Routes.ageGroup 17 = "child" /\ Routes.ageGroup 18 = "adult"
  /\ Routes.ageGroup 59 = "adult" /\ Routes.ageGroup 60 = "senior".
Proof. repeat split. Qed.

(* ===================================================================== *)
(** ** Further properties of the gateway and of the handler *)
(* ===================================================================== *)

Lemma map_throwing_Forall2 {E A B : Type} (f : A -> result E B) l ys :
  map_throwing f l = Ok ys -> Forall2 (fun x y => f x = Ok y) l ys.
Proof.
  revert ys. induction l as [|x t IH]; cbn [map_throwing]; intros ys H.
  - injection H as <-. constructor.
  - destruct (f x) as [y|] eqn:Hx; [|discriminate].
    destruct (map_throwing f t) as [ys'|]; [|discriminate].
    injection H as <-. constructor; [assumption|]. apply IH. reflexivity.
Qed.

Lemma rowToDiagnosis_createdAt row d :
  Storage.rowToDiagnosis row = Ok d ->
  Diagnosis.createdAt d = Db.DiagnosisRow.createdAt row.
Proof.
  unfold Storage.rowToDiagnosis.
  repeat match goal with
         | |- context [match ?x with Ok _ => _ | Throw _ => _ end] =>
             destruct x; [|discriminate]
         end.
  intros [= <-]. reflexivity.
Qed.

(** An order by a key carries over to a list related element by element
    to a sorted one, when related elements have the same key. *)
Lemma sorted_through_Forall2 {A B : Type} (R : A -> B -> Prop)
    (ka : A -> Z) (kb : B -> Z) l l' :
  (forall x y, R x y -> kb y = ka x) ->
  Forall2 R l l' ->
  StronglySorted (key_ge ka) l -> StronglySorted (key_ge kb) l'.
Proof.
  intros Hk H. induction H as [|x y t t' Hxy Ht IH]; intros Hs; [constructor|].
  apply StronglySorted_inv in Hs as [Hs Hx]. constructor; [apply IH; exact Hs|].
  clear IH Hs. induction Ht as [|x' y' t t' Hxy' Ht IH]; [constructor|].
  apply List.Forall_cons_iff in Hx as [Hx' Hx]. constructor; [|apply IH; exact Hx].
  unfold key_ge in *. rewrite (Hk _ _ Hxy), (Hk _ _ Hxy'). exact Hx'.
Qed.

(** X4.  In every database the gateway's writes produce, [getAllDiagnoses]
    returns one record per stored row, the most recently created first, at
    the one-second resolution of [datetime(createdAt)]. *)
Theorem getAllDiagnoses_newest_first db :
  reachable db ->
  exists ds,
    Storage.getAllDiagnoses db = Ok ds
    /\ StronglySorted (key_ge created_second) ds
    /\ length ds = length (Db.diagnoses db).
Proof.
  intros Hreach. destruct (reachable_written db Hreach) as [Hrows _].
  destruct (map_throwing_forall Storage.rowToDiagnosis normalized
              (Db.order_by_createdAt_desc Db.DiagnosisRow.createdAt (Db.diagnoses db)))
    as (ds & Hds & _).
  { apply Forall_sort. eapply List.Forall_impl; [|exact Hrows].
    apply written_reads_normalized. }
  exists ds. split; [exact Hds|].
  apply map_throwing_Forall2 in Hds. split.
  - eapply (sorted_through_Forall2
              (fun row d => Storage.rowToDiagnosis row = Ok d)
              (fun r => Db.datetime (Db.DiagnosisRow.createdAt r)) created_second);
      [| exact Hds | apply sort_sorted].
    intros row d H. unfold created_second. rewrite (rowToDiagnosis_createdAt _ _ H).
    reflexivity.
  - rewrite <- (List.Forall2_length Hds). unfold Db.order_by_createdAt_desc.
    apply Permutation_length, sort_perm.
Qed.

Lemma getAllDiagnoses_newest_first_witness :
  exists ds,
    Storage.getAllDiagnoses db_after_measles = Ok ds
    /\ StronglySorted (key_ge created_second) ds
    /\ length ds = length (Db.diagnoses db_after_measles).
Proof.
  exact (getAllDiagnoses_newest_first db_after_measles reachable_db_after_measles).
Defined.



(** X3.  When the request to the diagnosis backend fails, the handler
    answers with status 500 and the message "NLP service unavailable", after
    that one request, and the database is what it was. *)
Theorem backend_failure_answers_500 env body st v :
  Zod.symptomAnalysisSchema body = inr v ->
  Routes.post env primary_url v 28000 = Throw AxiosError ->
  Routes.diagnose env body st
  = (Routes.mkResponse 500 (Routes.Message "NLP service unavailable" None),
     sent st v)
  /\ Routes.db (snd (Routes.diagnose env body st)) = Routes.db st.
Proof.
  intros Hv Hp. unfold Routes.diagnose. rewrite diagnose_try_run, Hv, Hp.
  split; reflexivity.
Qed.

Lemma backend_failure_answers_500_witness :
  Routes.diagnose env_backend_down (JObj members_fever)
    (Routes.mkState db_one_patient [])
  = (Routes.mkResponse 500 (Routes.Message "NLP service unavailable" None),
     sent (Routes.mkState db_one_patient []) request_fever)
  /\ Routes.db (snd (Routes.diagnose env_backend_down (JObj members_fever)
                       (Routes.mkState db_one_patient [])))
     = db_one_patient.
Proof.
  apply (backend_failure_answers_500 env_backend_down (JObj members_fever)
           (Routes.mkState db_one_patient []) request_fever); reflexivity.
Defined.

(* ===================================================================== *)
(** ** The tables the gateway keeps *)
(* ===================================================================== *)

Lemma existsb_id_In {A : Type} (id_of : A -> string) id (l : list A) :
  existsb (fun r => String.eqb (id_of r) id) l = true <-> In id (map id_of l).
Proof.
  induction l as [|x t IH]; cbn [existsb map In]; [split; [discriminate|tauto]|].
  rewrite orb_true_iff, IH, String.eqb_eq. tauto.
Qed.

Lemma NoDup_snoc {A : Type} (l : list A) x :
  List.NoDup l -> ~ In x l -> List.NoDup (l ++ [x]).
Proof.
  intros Hl Hx. apply List.NoDup_app; [assumption|repeat constructor; tauto|].
  intros a Ha [<-|[]]. tauto.
Qed.

(** A successful INSERT used an id that was free. *)
Lemma insert_patient_fresh row db db' :
  Db.insert_patient row db = Ok db' ->
  ~ In (Db.PatientRow.id row) (patient_ids db).
Proof.
  unfold Db.insert_patient.
  destruct (existsb _ (Db.patients db)) eqn:E; [discriminate|].
  intros _ H. apply existsb_id_In in H. congruence.
Qed.

Lemma insert_diagnosis_fresh row db db' :
  Db.insert_diagnosis row db = Ok db' ->
  ~ In (Db.DiagnosisRow.id row) (diagnosis_ids db)
  /\ In (Db.DiagnosisRow.patientId row) (patient_ids db).
Proof.
  unfold Db.insert_diagnosis.
  destruct (negb _); [discriminate|].
  destruct (existsb _ (Db.diagnoses db)) eqn:E; [discriminate|].
  destruct (existsb _ (Db.patients db)) eqn:F; [|discriminate].
  intros _. split.
  - intros H. apply existsb_id_In in H. congruence.
  - apply existsb_id_In in F. exact F.
Qed.

Lemma insert_knowledge_fresh row db db' :
  Db.insert_knowledge row db = Ok db' ->
  ~ In (Db.KnowledgeRow.id row) (knowledge_ids db).
Proof.
  unfold Db.insert_knowledge.
  destruct (negb _); [discriminate|].
  destruct (existsb _ (Db.knowledge_base db)) eqn:E; [discriminate|].
  intros _ H. apply existsb_id_In in H. congruence.
Qed.

Lemma reachable_consistent db : reachable db -> consistent db.
Proof.
  unfold consistent.
  induction 1 as [| id t ins db p db' _ (IHp & IHd & IHk & IHr) H
                  | id t ins db d db' _ (IHp & IHd & IHk & IHr) H
                  | id t entry db e db' _ (IHp & IHd & IHk & IHr) H].
  - cbn. repeat split; constructor.
  - unfold Storage.createPatient in H.
    destruct (Db.insert_patient _ db) as [db1|x] eqn:E; [|discriminate].
    injection H as _ <-.
    pose proof (insert_patient_fresh _ _ _ E) as Hf.
    rewrite (insert_patient_ok _ _ _ E).
    unfold patient_ids, diagnosis_ids, knowledge_ids in *.
    cbn [Db.patients Db.diagnoses Db.knowledge_base Db.PatientRow.id] in *.
    rewrite map_app. cbn [map].
    repeat split; try assumption.
    + apply NoDup_snoc; assumption.
    + eapply List.Forall_impl; [|exact IHr]. cbn beta. intros r Hr.
      apply in_or_app. left. exact Hr.
  - unfold Storage.createDiagnosis in H.
    destruct (Db.insert_diagnosis _ db) as [db1|x] eqn:E; [|discriminate].
    injection H as _ <-.
    destruct (insert_diagnosis_fresh _ _ _ E) as [Hf Hp].
    rewrite (insert_diagnosis_ok _ _ _ E).
    unfold patient_ids, diagnosis_ids, knowledge_ids in *.
    cbn [Db.patients Db.diagnoses Db.knowledge_base] in *.
    rewrite map_app. cbn [map].
    repeat split; try assumption.
    + apply NoDup_snoc; assumption.
    + apply List.Forall_app. split; [assumption|].
      constructor; [exact Hp|constructor].
  - unfold Storage.addKnowledgeEntry in H.
    destruct (Db.insert_knowledge _ db) as [db1|x] eqn:E; [|discriminate].
    injection H as _ <-.
    pose proof (insert_knowledge_fresh _ _ _ E) as Hf.
    rewrite (insert_knowledge_ok _ _ _ E).
    unfold patient_ids, diagnosis_ids, knowledge_ids in *.
    cbn [Db.patients Db.diagnoses Db.knowledge_base] in *.
    rewrite map_app. cbn [map].
    repeat split; try assumption.
    apply NoDup_snoc; assumption.
Qed.

(** Under distinct ids, looking a row up by its id finds that row. *)
Lemma find_by_id {A : Type} (id_of : A -> string) (l : list A) x :
  List.NoDup (map id_of l) -> In x l ->
  find (fun r => String.eqb (id_of r) (id_of x)) l = Some x.
Proof.
  induction l as [|y t IH]; cbn [map In find]; [tauto|].
  intros Hn Hx. apply List.NoDup_cons_iff in Hn as [Hy Ht].
  destruct Hx as [-> | Hx].
  - rewrite String.eqb_refl. reflexivity.
  - destruct (String.eqb_spec (id_of y) (id_of x)) as [E|E].
    + exfalso. apply Hy. rewrite E. apply in_map. exact Hx.
    + apply IH; assumption.
Qed.

Lemma Forall2_In_r {A B : Type} (R : A -> B -> Prop) l l' y :
  Forall2 R l l' -> In y l' -> exists x, In x l /\ R x y.
Proof.
  induction 1 as [|x y' t t' Hxy Ht IH]; cbn [In]; [tauto|].
  intros [<- | Hy]; [eauto|]. destruct (IH Hy) as (x' & Hx' & Hr). eauto.
Qed.

Lemma rowToDiagnosis_ids row d :
  Storage.rowToDiagnosis row = Ok d ->
  Diagnosis.id d = Db.DiagnosisRow.id row
  /\ Diagnosis.patientId d = Db.DiagnosisRow.patientId row.
Proof.
  unfold Storage.rowToDiagnosis.
  repeat match goal with
         | |- context [match ?x with Ok _ => _ | Throw _ => _ end] =>
             destruct x; [|discriminate]
         end.
  intros [= <-]. split; reflexivity.
Qed.

(** The listing of a reachable database: every row is read. *)
Lemma getAllDiagnoses_reads db :
  reachable db ->
  exists ds,
    Storage.getAllDiagnoses db = Ok ds
    /\ Forall2 (fun row d => Storage.rowToDiagnosis row = Ok d)
         (Db.order_by_createdAt_desc Db.DiagnosisRow.createdAt (Db.diagnoses db))
         ds.
Proof.
  intros Hreach. destruct (reachable_written db Hreach) as [Hrows _].
  destruct (map_throwing_forall Storage.rowToDiagnosis normalized
              (Db.order_by_createdAt_desc Db.DiagnosisRow.createdAt (Db.diagnoses db)))
    as (ds & Hds & _).
  { apply Forall_sort. eapply List.Forall_impl; [|exact Hrows].
    apply written_reads_normalized. }
  exists ds. split; [exact Hds|]. apply map_throwing_Forall2. exact Hds.
Qed.

Lemma In_order_by {A : Type} (createdAt : A -> Z) (l : list A) x :
  In x (Db.order_by_createdAt_desc createdAt l) <-> In x l.
Proof.
  unfold Db.order_by_createdAt_desc. split; apply Permutation_in.
  - apply sort_perm.
  - symmetry. apply sort_perm.
Qed.

Lemma Forall2_map_eq {A B C : Type} (R : A -> B -> Prop) (f : A -> C) (g : B -> C) l l' :
  (forall x y, R x y -> g y = f x) -> Forall2 R l l' -> map g l' = map f l.
Proof.
  intros Hfg. induction 1 as [|x y t t' Hxy Ht IH]; [reflexivity|].
  cbn [map]. rewrite (Hfg _ _ Hxy), IH. reflexivity.
Qed.

(** X5.  In every database the gateway's writes produce, an id names one
    record: the patients and the diagnoses listed have pairwise distinct
    ids, and looking a listed record up by its id returns that very
    record. *)
Theorem listed_records_are_found_by_id db :
  reachable db ->
  List.NoDup (map Patient.id (Storage.getAllPatients db))
  /\ Forall (fun p => Storage.getPatient (Patient.id p) db = Some p)
       (Storage.getAllPatients db)
  /\ exists ds,
       Storage.getAllDiagnoses db = Ok ds
       /\ List.NoDup (map Diagnosis.id ds)
       /\ Forall (fun d => Storage.getDiagnosis (Diagnosis.id d) db = Ok (Some d)) ds.
Proof.
  intros Hreach.
  destruct (reachable_consistent db Hreach) as (Hp & Hd & _ & _).
  split; [|split].
  - unfold Storage.getAllPatients. rewrite map_map.
    change (fun x => Patient.id (Storage.rowToPatient x)) with Db.PatientRow.id.
    eapply Permutation_NoDup; [|exact Hp].
    apply Permutation_map. symmetry. apply sort_perm.
  - unfold Storage.getAllPatients. apply List.Forall_forall. intros p Hin.
    apply in_map_iff in Hin as (row & <- & Hrow).
    apply In_order_by in Hrow.
    unfold Storage.getPatient.
    change (Patient.id (Storage.rowToPatient row)) with (Db.PatientRow.id row).
    rewrite (find_by_id Db.PatientRow.id _ row Hp Hrow). reflexivity.
  - destruct (getAllDiagnoses_reads db Hreach) as (ds & Hds & Hrel).
    exists ds. split; [exact Hds|]. split.
    + rewrite (Forall2_map_eq _ Db.DiagnosisRow.id Diagnosis.id _ _
                 (fun row d H => proj1 (rowToDiagnosis_ids row d H)) Hrel).
      eapply Permutation_NoDup; [|exact Hd].
      apply Permutation_map. symmetry. apply sort_perm.
    + apply List.Forall_forall. intros d Hin.
      destruct (Forall2_In_r _ _ _ _ Hrel Hin) as (row & Hrow & Hread).
      apply In_order_by in Hrow.
      unfold Storage.getDiagnosis.
      rewrite (proj1 (rowToDiagnosis_ids _ _ Hread)).
      rewrite (find_by_id Db.DiagnosisRow.id _ row Hd Hrow), Hread. reflexivity.
Qed.

Lemma listed_records_are_found_by_id_witness :
  Forall (fun p => Storage.getPatient (Patient.id p) db_after_measles = Some p)
    (Storage.getAllPatients db_after_measles)
  /\ exists ds,
       Storage.getAllDiagnoses db_after_measles = Ok ds
       /\ List.NoDup (map Diagnosis.id ds)
       /\ Forall (fun d => Storage.getDiagnosis (Diagnosis.id d) db_after_measles
                            = Ok (Some d)) ds.
Proof.
  exact (proj2 (listed_records_are_found_by_id db_after_measles
                  reachable_db_after_measles)).
Defined.

(** X6.  In every database the gateway's writes produce, every diagnosis
    listed belongs to a stored patient: [getPatient] of its patientId
    returns a patient with that id. *)
Theorem stored_diagnosis_has_its_patient db :
  reachable db ->
  exists ds,
    Storage.getAllDiagnoses db = Ok ds
    /\ Forall (fun d => exists p,
                 Storage.getPatient (Diagnosis.patientId d) db = Some p
                 /\ Patient.id p = Diagnosis.patientId d) ds.
Proof.
  intros Hreach.
  destruct (reachable_consistent db Hreach) as (_ & _ & _ & Href).
  destruct (getAllDiagnoses_reads db Hreach) as (ds & Hds & Hrel).
  exists ds. split; [exact Hds|].
  apply List.Forall_forall. intros d Hin.
  destruct (Forall2_In_r _ _ _ _ Hrel Hin) as (row & Hrow & Hread).
  apply In_order_by in Hrow.
  rewrite (proj2 (rowToDiagnosis_ids _ _ Hread)).
  pose proof (proj1 (List.Forall_forall _ _) Href row Hrow) as Hp. cbn beta in Hp.
  apply existsb_id_In in Hp.
  unfold Storage.getPatient.
  destruct (find _ (Db.patients db)) as [prow|] eqn:Hfind.
  - exists (Storage.rowToPatient prow). split; [reflexivity|].
    apply List.find_some in Hfind as [_ Hid]. apply String.eqb_eq in Hid. exact Hid.
  - apply find_none_existsb in Hfind. congruence.
Qed.

Lemma stored_diagnosis_has_its_patient_witness :
  exists ds,
    Storage.getAllDiagnoses db_after_measles = Ok ds
    /\ Forall (fun d => exists p,
                 Storage.getPatient (Diagnosis.patientId d) db_after_measles = Some p
                 /\ Patient.id p = Diagnosis.patientId d) ds.
Proof.
  exact (stored_diagnosis_has_its_patient db_after_measles reachable_db_after_measles).
Defined.

Lemma find_app_other {A : Type} (f : A -> bool) l x :
  f x = false -> find f (l ++ [x]) = find f l.
Proof.
  intros Hx. induction l as [|y t IH]; cbn [app find].
  - rewrite Hx. reflexivity.
  - destruct (f y); [reflexivity|exact IH].
Qed.

(** X7.  A diagnosis that [createDiagnosis] stores took an id no stored
    diagnosis had, and nothing stored before is touched: every patient,
    every other diagnosis and every search of the knowledge base reads
    after the call as it read before. *)
Theorem createDiagnosis_keeps_stored_records id createdAtIso ins db d db' :
  Storage.createDiagnosis id createdAtIso ins db = Ok (d, db') ->
  ~ In id (diagnosis_ids db)
  /\ (forall pid, Storage.getPatient pid db' = Storage.getPatient pid db)
  /\ Storage.getAllPatients db' = Storage.getAllPatients db
  /\ (forall id', id' <> id ->
        Storage.getDiagnosis id' db' = Storage.getDiagnosis id' db)
  /\ (forall symptoms ageGroup gender,
        Storage.searchKnowledge symptoms ageGroup gender db'
        = Storage.searchKnowledge symptoms ageGroup gender db).
Proof.
  intros H. destruct (createDiagnosis_ok _ _ _ _ _ _ H) as [_ ->].
  unfold Storage.createDiagnosis in H.
  destruct (Db.insert_diagnosis _ db) as [db1|x] eqn:E; [|discriminate].
  destruct (insert_diagnosis_fresh _ _ _ E) as [Hf _].
  split; [exact Hf|]. split; [reflexivity|]. split; [reflexivity|].
  split; [|reflexivity].
  intros id' Hne. unfold Storage.getDiagnosis. cbn [Db.diagnoses].
  rewrite find_app_other; [reflexivity|].
  cbn. apply String.eqb_neq. congruence.
Qed.

Lemma createDiagnosis_keeps_stored_records_witness :
  ~ In "d2" (diagnosis_ids db_after_flu)
  /\ Storage.getDiagnosis "d1"
       (Db.mk (Db.patients db_after_flu)
          (Db.diagnoses db_after_flu
           ++ [Storage.diagnosis_row "d2" 3000 (Routes.insert_of request_fever ai_flu)])
          (Db.knowledge_base db_after_flu))
     = Storage.getDiagnosis "d1" db_after_flu.
Proof.
  destruct (createDiagnosis_keeps_stored_records "d2" 3000
              (Routes.insert_of request_fever ai_flu) db_after_flu
              (Storage.diagnosis_of "d2" 3000 (Routes.insert_of request_fever ai_flu))
              (Db.mk (Db.patients db_after_flu)
                 (Db.diagnoses db_after_flu
                  ++ [Storage.diagnosis_row "d2" 3000
                        (Routes.insert_of request_fever ai_flu)])
                 (Db.knowledge_base db_after_flu)))
    as (Hfresh & _ & _ & Hget & _).
  - reflexivity.
  - split; [exact Hfresh|]. apply Hget. discriminate.
Defined.

(** ** Listings *)

Lemma map_throwing_total {E A B : Type} (f : A -> result E B) (g : A -> B) l :
  Forall (fun x => f x = Ok (g x)) l -> map_throwing f l = Ok (map g l).
Proof.
  induction 1 as [|x t Hx Ht IH]; cbn [map_throwing map]; [reflexivity|].
  rewrite Hx, IH. reflexivity.
Qed.

Lemma sorted_map {A B : Type} (f : A -> B) (ka : A -> Z) (kb : B -> Z) l :
  (forall x, kb (f x) = ka x) ->
  StronglySorted (key_ge ka) l -> StronglySorted (key_ge kb) (map f l).
Proof.
  intros Hk. apply sorted_through_Forall2 with (R := fun x y => y = f x).
  - intros x y ->. apply Hk.
  - induction l; constructor; [reflexivity|assumption].
Qed.

(** X8.  [getAllPatients] returns one record for each stored patient,
    with the columns of its row, the most recently created first (at the
    one-second resolution of [datetime(createdAt)]); on the empty table it
    returns the empty list. *)
Theorem getAllPatients_newest_first db :
  Permutation (Storage.getAllPatients db)
    (map Storage.rowToPatient (Db.patients db))
  /\ StronglySorted (key_ge patient_second) (Storage.getAllPatients db)
  /\ Storage.getAllPatients Db.empty = [].
Proof.
  unfold Storage.getAllPatients, Db.order_by_createdAt_desc. split; [|split].
  - apply Permutation_map, sort_perm.
  - apply (sorted_map Storage.rowToPatient
             (fun r => Db.datetime (Db.PatientRow.createdAt r)) patient_second).
    + reflexivity.
    + apply sort_sorted.
  - reflexivity.
Qed.

Lemma map_throwing_flat_map {E A B : Type} (f : A -> result E B) l ys :
  map_throwing f l = Ok ys ->
  ys = flat_map (fun x => match f x with Ok y => [y] | Throw _ => [] end) l.
Proof.
  revert ys. induction l as [|x t IH]; cbn [map_throwing flat_map]; intros ys H.
  - congruence.
  - destruct (f x) as [y|]; [|discriminate].
    destruct (map_throwing f t) as [ys'|]; [|discriminate].
    injection H as <-. cbn [app]. f_equal. apply IH. reflexivity.
Qed.

Lemma flat_map_filter {A B : Type} (g : A -> list B) (P : A -> bool) (Q : B -> bool) l :
  (forall x y, In y (g x) -> Q y = P x) ->
  flat_map g (List.filter P l) = List.filter Q (flat_map g l).
Proof.
  intros HPQ. induction l as [|x t IH]; [reflexivity|].
  cbn [List.filter flat_map]. rewrite List.filter_app, <- IH.
  assert (Hx : List.filter Q (g x) = if P x then g x else []).
  { specialize (HPQ x). induction (g x) as [|y ys IHy]; [destruct (P x); reflexivity|].
    cbn [List.filter]. rewrite (HPQ y (or_introl eq_refl)).
    rewrite IHy by (intros z Hz; apply HPQ; right; exact Hz).
    destruct (P x); reflexivity. }
  rewrite Hx. destruct (P x); reflexivity.
Qed.

Lemma Permutation_filter {A : Type} (P : A -> bool) l l' :
  Permutation l l' -> Permutation (List.filter P l) (List.filter P l').
Proof.
  induction 1 as [|x l l' Hp IH|x y l|l l' l'' H1 IH1 H2 IH2]; cbn [List.filter].
  - constructor.
  - destruct (P x); [constructor|]; exact IH.
  - destruct (P x), (P y); try reflexivity. apply perm_swap.
  - etransitivity; [exact IH1|exact IH2].
Qed.

(** X9.  In every database the gateway's writes produce,
    [getDiagnosesByPatient] returns, up to the order of records created in
    the same second, exactly the diagnoses of [getAllDiagnoses] whose
    patientId is the one asked for, the most recently created first; for a
    patientId no diagnosis carries (an unknown patient included) it returns
    the empty list and does not throw. *)
Theorem getDiagnosesByPatient_selects_the_patient db patientId :
  reachable db ->
  exists ds all,
    Storage.getDiagnosesByPatient patientId db = Ok ds
    /\ Storage.getAllDiagnoses db = Ok all
    /\ Permutation ds
         (List.filter (fun d => String.eqb (Diagnosis.patientId d) patientId) all)
    /\ Forall (fun d => Diagnosis.patientId d = patientId) ds
    /\ StronglySorted (key_ge created_second) ds
    /\ (~ In patientId (map Db.DiagnosisRow.patientId (Db.diagnoses db)) -> ds = []).
Proof.
  intros Hreach. destruct (reachable_written db Hreach) as [Hrows _].
  destruct (getAllDiagnoses_reads db Hreach) as (all & Hall & _).
  set (P := fun r => String.eqb (Db.DiagnosisRow.patientId r) patientId).
  set (Q := fun d => String.eqb (Diagnosis.patientId d) patientId).
  destruct (map_throwing_forall Storage.rowToDiagnosis normalized
              (Db.order_by_createdAt_desc Db.DiagnosisRow.createdAt
                 (List.filter P (Db.diagnoses db))))
    as (ds & Hds & _).
  { apply Forall_sort, Forall_filter. eapply List.Forall_impl; [|exact Hrows].
    apply written_reads_normalized. }
  exists ds, all. split; [exact Hds|]. split; [exact Hall|].
  assert (HPQ : forall x y, In y (read_diagnosis x) -> Q y = P x).
  { intros x y. unfold read_diagnosis.
    destruct (Storage.rowToDiagnosis x) as [d|] eqn:E; [|intros []].
    intros [<-|[]]. unfold P, Q. rewrite (proj2 (rowToDiagnosis_ids _ _ E)).
    reflexivity. }
  pose proof (map_throwing_flat_map _ _ _ Hds) as Eds. fold read_diagnosis in Eds.
  pose proof (map_throwing_flat_map _ _ _ Hall) as Eall. fold read_diagnosis in Eall.
  assert (Hperm : Permutation ds (List.filter Q all)).
  { rewrite Eds, Eall, <- (flat_map_filter read_diagnosis P Q _ HPQ).
    apply Permutation_flat_map. unfold Db.order_by_createdAt_desc.
    etransitivity; [apply sort_perm|].
    apply Permutation_filter. symmetry. apply sort_perm. }
  split; [exact Hperm|]. split; [|split].
  - apply List.Forall_forall. intros d Hd.
    apply (Permutation_in _ Hperm) in Hd. apply List.filter_In in Hd as [_ Hd].
    apply String.eqb_eq in Hd. exact Hd.
  - apply map_throwing_Forall2 in Hds.
    eapply (sorted_through_Forall2
              (fun row d => Storage.rowToDiagnosis row = Ok d)
              (fun r => Db.datetime (Db.DiagnosisRow.createdAt r)) created_second);
      [| exact Hds | apply sort_sorted].
    intros row d H. unfold created_second. rewrite (rowToDiagnosis_createdAt _ _ H).
    reflexivity.
  - intros Hnone.
    assert (Hf : List.filter P (Db.diagnoses db) = []).
    { clear -Hnone. induction (Db.diagnoses db) as [|r t IH]; [reflexivity|].
      cbn [map In] in Hnone. cbn [List.filter]. unfold P at 1.
      destruct (String.eqb_spec (Db.DiagnosisRow.patientId r) patientId) as [E|E];
        [tauto|]. apply IH. tauto. }
    rewrite Hf in Eds. exact Eds.
Qed.

Lemma getDiagnosesByPatient_selects_the_patient_witness :
  exists ds all,
    Storage.getDiagnosesByPatient "p1" db_after_measles = Ok ds
    /\ Storage.getAllDiagnoses db_after_measles = Ok all
    /\ Permutation ds
         (List.filter (fun d => String.eqb (Diagnosis.patientId d) "p1") all)
    /\ Forall (fun d => Diagnosis.patientId d = "p1") ds
    /\ StronglySorted (key_ge created_second) ds
    /\ (~ In "p1" (map Db.DiagnosisRow.patientId (Db.diagnoses db_after_measles))
        -> ds = []).
Proof.
  exact (getDiagnosesByPatient_selects_the_patient db_after_measles "p1"
           reachable_db_after_measles).
Defined.

(** ** The knowledge base *)

Lemma existsb_In_eqb (s : string) (l : list string) :
  existsb (String.eqb s) l = true <-> In s l.
Proof.
  induction l as [|x t IH]; cbn [existsb In]; [split; [discriminate|tauto]|].
  rewrite orb_true_iff, IH, String.eqb_eq. split; intros [H|H]; auto.
Qed.

(** X10.  An entry [addKnowledgeEntry] has stored is found again: in a
    database the gateway's writes produce, a search that follows the call,
    for the age group of the entry, for its gender (or for any gender when
    the entry was stored with gender "other") and for a list of symptoms
    that shares a symptom with the entry, returns the record the call
    returned among its results. *)
Theorem added_entry_is_found id createdAtIso entry db e db' symptoms gender s :
  reachable db ->
  Storage.addKnowledgeEntry id createdAtIso entry db = Ok (e, db') ->
  In s (Storage.coalesce (KnowledgeEntry.symptoms entry) []) ->
  In s symptoms ->
  KnowledgeEntry.gender entry = gender \/ KnowledgeEntry.gender entry = "other" ->
  exists results,
    Storage.searchKnowledge symptoms (KnowledgeEntry.ageGroup entry) gender db'
    = Ok results
    /\ In e results.
Proof.
  intros Hreach Hadd Hs Hq Hg.
  assert (Hreach' : reachable db') by (eapply reach_addKnowledgeEntry; eassumption).
  destruct (addKnowledgeEntry_ok _ _ _ _ _ _ Hadd) as [-> Hdb].
  destruct (reachable_written db' Hreach') as [_ Hrows].
  destruct (searchKnowledge_passes symptoms (KnowledgeEntry.ageGroup entry) gender
              _ Hrows) as (entries & He & filtered & Hf & Hm).
  eexists. split.
  { unfold Storage.searchKnowledge. rewrite Hf, Hm. reflexivity. }
  apply (Permutation_in _ (Permutation_sym (sort_perm _ _))).
  apply List.filter_In. split.
  - apply map_throwing_Forall2 in He. rewrite Hdb in He. cbn [Db.knowledge_base] in He.
    clear -He. revert entries He.
    induction (Db.knowledge_base db) as [|r t IH]; cbn [app]; intros entries He.
    + inversion He as [|x y l l' Hxy Hl]; subst. rewrite rowToKnowledge_written in Hxy.
      injection Hxy as <-. left. reflexivity.
    + inversion He as [|x y l l' Hxy Hl]; subst. right. apply IH. exact Hl.
  - unfold spec_matches. rewrite stored_symptoms_written.
    change (KnowledgeBase.ageGroup (Storage.knowledge_of id createdAtIso entry))
      with (KnowledgeEntry.ageGroup entry).
    change (KnowledgeBase.gender (Storage.knowledge_of id createdAtIso entry))
      with (KnowledgeEntry.gender entry).
    rewrite String.eqb_refl. cbn [andb].
    apply andb_true_iff. split.
    + apply orb_true_iff. destruct Hg as [Hg|Hg]; [left|right];
        apply String.eqb_eq; exact Hg.
    + apply existsb_exists. exists s. split; [exact Hq|].
      apply existsb_In_eqb. exact Hs.
Qed.

Lemma added_entry_is_found_witness :
  exists results,
    Storage.searchKnowledge ["cough"; "fever"] "adult" "female"
      (Db.mk (Db.patients db_after_flu) (Db.diagnoses db_after_flu)
         (Db.knowledge_base db_after_flu
          ++ [Storage.knowledge_row "k2" 5000 entry_other]))
    = Ok results
    /\ In (Storage.knowledge_of "k2" 5000 entry_other) results.
Proof.
  apply (added_entry_is_found "k2" 5000 entry_other db_after_flu
           (Storage.knowledge_of "k2" 5000 entry_other) _
           ["cough"; "fever"] "female" "fever").
  - exact reachable_db_after_flu.
  - reflexivity.
  - simpl. tauto.
  - simpl. tauto.
  - right. reflexivity.
Defined.

(** X11.  A search for no symptom finds nothing: in every database the
    gateway's writes produce, [searchKnowledge] called with the empty list
    returns the empty list, whatever the age group and the gender. *)
Theorem searchKnowledge_without_symptoms db ageGroup gender :
  reachable db ->
  Storage.searchKnowledge [] ageGroup gender db = Ok [].
Proof.
  intros Hreach. destruct (reachable_written db Hreach) as [_ Hrows].
  destruct (searchKnowledge_passes [] ageGroup gender _ Hrows)
    as (entries & He & filtered & Hf & Hm).
  unfold Storage.searchKnowledge. rewrite Hf, Hm.
  assert (Hnone : List.filter (spec_matches [] ageGroup gender) entries = []).
  { clear. induction entries as [|e t IH]; [reflexivity|].
    cbn [List.filter]. unfold spec_matches at 1. cbn [existsb].
    rewrite andb_false_r. exact IH. }
  rewrite Hnone. reflexivity.
Qed.

Lemma searchKnowledge_without_symptoms_witness :
  Storage.searchKnowledge [] "child" "male" db_after_flu = Ok [].
Proof.
  exact (searchKnowledge_without_symptoms db_after_flu "child" "male"
           reachable_db_after_flu).
Defined.

(** ** Rows that cannot be read *)

Lemma parse_column_throws col dflt e :
  Storage.parse_column col dflt = Throw e -> e = SyntaxError.
Proof.
  unfold Storage.parse_column. destruct col as [[|c s]|]; try discriminate.
  destruct (parse (String c s)); [discriminate|]. congruence.
Qed.

Lemma rowToDiagnosis_throws row e :
  Storage.rowToDiagnosis row = Throw e -> e = SyntaxError.
Proof.
  unfold Storage.rowToDiagnosis.
  repeat match goal with
         | |- context [match ?x with Ok _ => _ | Throw _ => _ end] =>
             let E := fresh "E" in
             destruct x eqn:E;
             [|apply parse_column_throws in E; congruence]
         end.
  discriminate.
Qed.

Lemma map_throwing_throws {E A B : Type} (f : A -> result E B) (P : E -> Prop) l x e :
  (forall y e', f y = Throw e' -> P e') ->
  In x l -> f x = Throw e ->
  exists e', map_throwing f l = Throw e' /\ P e'.
Proof.
  intros HP. induction l as [|y t IH]; cbn [In map_throwing]; [tauto|].
  intros Hin Hx. destruct (f y) as [z|e'] eqn:Hy.
  - destruct Hin as [-> | Hin]; [congruence|].
    destruct (IH Hin Hx) as (e'' & -> & He). eauto.
  - eauto.
Qed.

(** X12.  One row that cannot be read fails the listings it is part of:
    when the text of a JSON column of some stored diagnosis is not JSON,
    [getAllDiagnoses] and [getDiagnosesByPatient] for its patient throw a
    SyntaxError and return no record at all, [getDiagnosis] for its id
    throws as well, and the three routes that read diagnoses answer with
    status 500. *)
Theorem unreadable_row_fails_the_listing db row e :
  In row (Db.diagnoses db) ->
  Storage.rowToDiagnosis row = Throw e ->
  Storage.getAllDiagnoses db = Throw SyntaxError
  /\ Storage.getDiagnosesByPatient (Db.DiagnosisRow.patientId row) db
     = Throw SyntaxError
  /\ Endpoints.get_diagnoses db
     = Endpoints.mkResponse 500
         (Endpoints.Message "Failed to fetch diagnoses" None)
  /\ Endpoints.get_patient_diagnoses (Db.DiagnosisRow.patientId row) db
     = Endpoints.mkResponse 500
         (Endpoints.Message "Failed to fetch patient diagnoses" None)
  /\ (List.NoDup (diagnosis_ids db) ->
      Storage.getDiagnosis (Db.DiagnosisRow.id row) db = Throw SyntaxError
      /\ Endpoints.get_diagnosis (Db.DiagnosisRow.id row) db
         = Endpoints.mkResponse 500
             (Endpoints.Message "Failed to fetch diagnosis" None)).
Proof.
  intros Hin Hrow.
  assert (Hall : Storage.getAllDiagnoses db = Throw SyntaxError).
  { destruct (map_throwing_throws Storage.rowToDiagnosis (fun e => e = SyntaxError)
                (Db.order_by_createdAt_desc Db.DiagnosisRow.createdAt (Db.diagnoses db))
                row e rowToDiagnosis_throws) as (e' & H & ->);
      [apply In_order_by; exact Hin|exact Hrow|exact H]. }
  assert (Hby : Storage.getDiagnosesByPatient (Db.DiagnosisRow.patientId row) db
                = Throw SyntaxError).
  { destruct (map_throwing_throws Storage.rowToDiagnosis (fun e => e = SyntaxError)
                (Db.order_by_createdAt_desc Db.DiagnosisRow.createdAt
                   (List.filter
                      (fun r => String.eqb (Db.DiagnosisRow.patientId r)
                                  (Db.DiagnosisRow.patientId row))
                      (Db.diagnoses db)))
                row e rowToDiagnosis_throws) as (e' & H & ->);
      [|exact Hrow|exact H].
    apply In_order_by, List.filter_In. split; [exact Hin|apply String.eqb_refl]. }
  split; [exact Hall|]. split; [exact Hby|].
  unfold Endpoints.get_diagnoses, Endpoints.get_patient_diagnoses,
    Endpoints.get_diagnosis.
  rewrite Hall, Hby. split; [reflexivity|]. split; [reflexivity|].
  intros Hnodup. unfold Storage.getDiagnosis.
  rewrite (find_by_id Db.DiagnosisRow.id _ row Hnodup Hin), Hrow.
  rewrite (rowToDiagnosis_throws _ _ Hrow). split; reflexivity.
Qed.

Lemma unreadable_row_fails_the_listing_witness :
  Storage.getAllDiagnoses db_unreadable = Throw SyntaxError
  /\ Endpoints.get_diagnoses db_unreadable
     = Endpoints.mkResponse 500
         (Endpoints.Message "Failed to fetch diagnoses" None).
Proof.
  destruct (unreadable_row_fails_the_listing db_unreadable
              (Db.DiagnosisRow.mk "d9" "p1" (Some "fever") None "Flu" None None 0
                 None (Some "en") 7000) SyntaxError)
    as (H1 & _ & H3 & _).
  - simpl. tauto.
  - vm_compute. reflexivity.
  - split; assumption.
Defined.

(* ===================================================================== *)
(** ** The schemas *)
(* ===================================================================== *)

Lemma raises_ap {A B : Type} (f : Zod.parsed (A -> B)) (a : Zod.parsed A) :
  raises f -> raises a -> raises (Zod.ap f a).
Proof.
  destruct f as [i|g], a as [j|x]; cbn; try tauto.
  intros Hi _ H. apply app_eq_nil in H as [H _]. tauto.
Qed.

Lemma raises_string p v : raises (Zod.string_ p v).
Proof. destruct v as [[]|]; cbn; unfold Zod.invalid; first [exact I | discriminate]. Qed.

Lemma raises_number p v : raises (Zod.number p v).
Proof. destruct v as [[]|]; cbn; unfold Zod.invalid; first [exact I | discriminate]. Qed.

Lemma raises_optional {A : Type} (s : Zod.schema A) p v :
  (forall p v, raises (s p v)) -> raises (Zod.optional s p v).
Proof.
  intros Hs. unfold Zod.optional. destruct v as [x|]; [|exact I].
  specialize (Hs p (Some x)). destruct (s p (Some x)); exact Hs.
Qed.

Lemma raises_string_items p i l : raises (Zod.string_items p i l).
Proof.
  revert i. induction l as [|x t IH]; intros i; cbn [Zod.string_items]; [exact I|].
  apply raises_ap; [apply raises_ap; [exact I|apply raises_string]|apply IH].
Qed.

Lemma raises_array_string_min1 msg p v : raises (Zod.array_string_min1 msg p v).
Proof.
  unfold Zod.array_string_min1. destruct v as [[| | | |l|]|]; try (cbn; unfold Zod.invalid; first [exact I | discriminate]).
  destruct (length l <? 1)%nat.
  - destruct (Zod.string_items p 0 l); cbn; unfold Zod.invalid; first [exact I | discriminate].
  - apply raises_string_items.
Qed.

Lemma raises_array_string_nonempty p v : raises (Schemas.array_string_nonempty p v).
Proof.
  unfold Schemas.array_string_nonempty. destruct v as [[| | | |l|]|]; try (cbn; unfold Zod.invalid; first [exact I | discriminate]).
  destruct (length l <? 1)%nat.
  - destruct (Zod.string_items p 0 l); cbn; unfold Zod.invalid; first [exact I | discriminate].
  - apply raises_string_items.
Qed.

Lemma raises_enum_default values d p v : raises (Zod.enum_default values d p v).
Proof.
  unfold Zod.enum_default. destruct v as [[| | |s| |]|]; try (cbn; unfold Zod.invalid; first [exact I | discriminate]).
  destruct (existsb _ values); cbn; unfold Zod.invalid; first [exact I | discriminate].
Qed.

Lemma raises_vitalSigns p v : raises (Zod.vitalSigns p v).
Proof.
  unfold Zod.vitalSigns. destruct v as [[| | | | |m]|]; try (cbn; unfold Zod.invalid; first [exact I | discriminate]).
  repeat apply raises_ap; try exact I;
    apply raises_optional; first [apply raises_number | apply raises_string].
Qed.

Lemma raises_symptomAnalysisSchema body : raises (Zod.symptomAnalysisSchema body).
Proof.
  unfold Zod.symptomAnalysisSchema. destruct body; try (cbn; unfold Zod.invalid; first [exact I | discriminate]).
  repeat apply raises_ap; try exact I;
    first [ apply raises_string | apply raises_number
          | apply raises_array_string_min1 | apply raises_enum_default
          | apply raises_optional;
            first [exact raises_number | exact raises_vitalSigns] ].
Qed.

Lemma raises_drugInteractionSchema body : raises (Schemas.drugInteractionSchema body).
Proof.
  unfold Schemas.drugInteractionSchema. destruct body; try (cbn; unfold Zod.invalid; first [exact I | discriminate]).
  repeat apply raises_ap; try exact I;
    first [ apply raises_number | apply raises_array_string_nonempty
          | apply raises_optional; exact raises_number ].
Qed.

Lemma string_items_strings p i l :
  Zod.string_items p i (map JStr l) = inr l.
Proof.
  revert i. induction l as [|s t IH]; intros i; cbn [map Zod.string_items];
    [reflexivity|]. rewrite IH. reflexivity.
Qed.

Lemma string_items_inr p i l ss :
  Zod.string_items p i l = inr ss -> l = map JStr ss.
Proof.
  revert i ss. induction l as [|x t IH]; intros i ss; cbn [Zod.string_items].
  - intros [= <-]. reflexivity.
  - destruct x as [| | |s| |]; cbn [Zod.string_ Zod.ap];
      try (destruct (Zod.string_items p (S i) t); discriminate).
    destruct (Zod.string_items p (S i) t) as [|ss'] eqn:E; [discriminate|].
    intros [= <-]. cbn [map]. f_equal. exact (IH _ _ E).
Qed.

(** X13.  A well-formed analyze request passes validation unchanged: for
    every request with at least one symptom and one of the five language
    codes, [symptomAnalysisSchema] applied to its JSON body returns the
    request itself, with its vital signs and its weight whether they are
    given or left out. *)
Theorem well_formed_request_is_accepted v :
  SymptomAnalysis.symptoms v <> [] ->
  In (SymptomAnalysis.language v) Zod.languages ->
  Zod.symptomAnalysisSchema (request_json v) = inr v.
Proof.
  destruct v as [pid sy vs age gender weight lang].
  cbn [SymptomAnalysis.symptoms SymptomAnalysis.language]. intros Hsy Hlang.
  assert (Hl : existsb (String.eqb lang) Zod.languages = true).
  { apply existsb_exists. exists lang. split; [exact Hlang|apply String.eqb_refl]. }
  assert (Hlen : (length (map JStr sy) <? 1)%nat = false).
  { destruct sy; [congruence|reflexivity]. }
  unfold request_json, Zod.symptomAnalysisSchema, Storage.strings_json.
  destruct vs as [[t bp hr rr os]|], weight as [w|];
    cbn [SymptomAnalysis.patientId SymptomAnalysis.symptoms
         SymptomAnalysis.vitalSigns SymptomAnalysis.patientAge
         SymptomAnalysis.patientGender SymptomAnalysis.patientWeight
         SymptomAnalysis.language VitalSigns.field app prop String.eqb Ascii.eqb
         Bool.eqb];
    unfold Zod.array_string_min1, Zod.enum_default; rewrite Hlen, Hl,
      string_items_strings;
    cbn [Zod.ap Zod.string_ Zod.number Zod.optional]; try reflexivity;
    destruct t, bp, hr, rr, os; reflexivity.
Qed.

Lemma well_formed_request_is_accepted_witness :
  Zod.symptomAnalysisSchema (request_json request_fever) = inr request_fever.
Proof.
  apply (well_formed_request_is_accepted request_fever).
  - discriminate.
  - simpl. tauto.
Defined.

(** *** What a validated request is *)

Lemma ap_inr {A B : Type} (f : Zod.parsed (A -> B)) (a : Zod.parsed A) y :
  Zod.ap f a = inr y -> exists g x, f = inr g /\ a = inr x /\ y = g x.
Proof.
  destruct f as [i|g], a as [j|x]; cbn [Zod.ap]; try discriminate.
  intros [= <-]. eauto.
Qed.

Lemma string_inr p v s : Zod.string_ p v = inr s -> v = Some (JStr s).
Proof. destruct v as [[]|]; cbn; congruence. Qed.

Lemma number_inr p v n : Zod.number p v = inr n -> v = Some (JNum n).
Proof. destruct v as [[]|]; cbn; congruence. Qed.

Lemma optional_number_inr p v o :
  Zod.optional Zod.number p v = inr o -> v = option_map JNum o.
Proof.
  unfold Zod.optional. destruct v as [x|]; [|intros [= <-]; reflexivity].
  destruct (Zod.number p (Some x)) as [i|n] eqn:E; [discriminate|].
  intros [= <-]. apply number_inr in E. exact E.
Qed.

Lemma array_string_min1_inr msg p v l :
  Zod.array_string_min1 msg p v = inr l ->
  v = Some (Storage.strings_json l) /\ l <> [].
Proof.
  unfold Zod.array_string_min1. destruct v as [[| | | |x|]|]; try discriminate.
  destruct (length x <? 1)%nat eqn:Hlen.
  - destruct (Zod.string_items p 0 x); discriminate.
  - intros H. apply string_items_inr in H. subst x. split; [reflexivity|].
    destruct l; [discriminate Hlen|discriminate].
Qed.

Lemma enum_default_inr values d p v s :
  Zod.enum_default values d p v = inr s ->
  (v = None /\ s = d) \/ (v = Some (JStr s) /\ In s values).
Proof.
  unfold Zod.enum_default. destruct v as [[| | |x| |]|]; try discriminate.
  - destruct (existsb (String.eqb x) values) eqn:E; [|discriminate].
    intros [= <-]. right. split; [reflexivity|].
    apply existsb_exists in E as (y & Hy & Exy). apply String.eqb_eq in Exy.
    subst y. exact Hy.
  - intros [= <-]. left. split; reflexivity.
Qed.

(** X14.  What validation guarantees: a request [symptomAnalysisSchema]
    lets through has at least one symptom and one of the five language
    codes, "en" when the body names no language, and its patientId, its
    symptoms, its age, its gender and its weight are those the body gives
    under these keys, the weight being absent from both or a number in
    both. *)
Theorem validated_request_is_well_formed body v :
  Zod.symptomAnalysisSchema body = inr v ->
  SymptomAnalysis.symptoms v <> []
  /\ In (SymptomAnalysis.language v) Zod.languages
  /\ exists m,
       body = JObj m
       /\ prop "patientId" m = Some (JStr (SymptomAnalysis.patientId v))
       /\ prop "symptoms" m
          = Some (Storage.strings_json (SymptomAnalysis.symptoms v))
       /\ prop "patientAge" m = Some (JNum (SymptomAnalysis.patientAge v))
       /\ prop "patientGender" m = Some (JStr (SymptomAnalysis.patientGender v))
       /\ prop "patientWeight" m
          = option_map JNum (SymptomAnalysis.patientWeight v)
       /\ ((prop "language" m = None /\ SymptomAnalysis.language v = "en")
           \/ prop "language" m = Some (JStr (SymptomAnalysis.language v))).
Proof.
  unfold Zod.symptomAnalysisSchema. destruct body as [| | | | |m]; try discriminate.
  intros H.
  apply ap_inr in H as (g7 & lang & H & Hlang & ->).
  apply ap_inr in H as (g6 & weight & H & Hweight & ->).
  apply ap_inr in H as (g5 & gender & H & Hgender & ->).
  apply ap_inr in H as (g4 & age & H & Hage & ->).
  apply ap_inr in H as (g3 & vs & H & Hvs & ->).
  apply ap_inr in H as (g2 & sy & H & Hsy & ->).
  apply ap_inr in H as (g1 & pid & H & Hpid & ->).
  injection H as <-.
  cbn [SymptomAnalysis.symptoms SymptomAnalysis.language SymptomAnalysis.patientId
       SymptomAnalysis.patientAge SymptomAnalysis.patientGender
       SymptomAnalysis.patientWeight].
  apply string_inr in Hpid, Hgender. apply number_inr in Hage.
  apply optional_number_inr in Hweight.
  apply array_string_min1_inr in Hsy as [Hsy Hne].
  apply enum_default_inr in Hlang.
  split; [exact Hne|]. split.
  - destruct Hlang as [[_ ->] | [_ Hin]]; [cbn; tauto|exact Hin].
  - exists m. repeat split; try assumption.
    destruct Hlang as [[Hnone ->] | [Hsome _]]; [left; split; [exact Hnone|reflexivity]|].
    right. exact Hsome.
Qed.

Lemma validated_request_is_well_formed_witness :
  SymptomAnalysis.symptoms request_fever <> []
  /\ In (SymptomAnalysis.language request_fever) Zod.languages.
Proof.
  destruct (validated_request_is_well_formed (JObj members_fever) request_fever)
    as (H1 & H2 & _).
  - reflexivity.
  - split; assumption.
Defined.

(* ===================================================================== *)
(** ** The routes *)
(* ===================================================================== *)

(** Reading back the diagnosis [createDiagnosis] has just stored. *)
Lemma getDiagnosis_created id createdAtIso ins db d db1 krow :
  Storage.createDiagnosis id createdAtIso ins db = Ok (d, db1) ->
  Storage.getDiagnosis (Diagnosis.id d)
    (Db.mk (Db.patients db1) (Db.diagnoses db1) (Db.knowledge_base db1 ++ krow))
  = Ok (Some d).
Proof.
  intros H. destruct (createDiagnosis_ok _ _ _ _ _ _ H) as [-> ->].
  unfold Storage.createDiagnosis in H.
  destruct (Db.insert_diagnosis _ db) as [db2|x] eqn:E; [|discriminate].
  destruct (insert_diagnosis_fresh _ _ _ E) as [Hf _].
  unfold Storage.getDiagnosis. cbn [Db.diagnoses].
  change (Diagnosis.id (Storage.diagnosis_of id createdAtIso ins)) with id.
  rewrite (find_app_last _ _ (Storage.diagnosis_row id createdAtIso ins)
             (existsb_id_false Db.DiagnosisRow.id id _ Hf)).
  - rewrite rowToDiagnosis_written. reflexivity.
  - cbn. apply String.eqb_refl.
Qed.

(** [createDiagnosis] throws nothing but the error of its INSERT. *)
Lemma createDiagnosis_throws id createdAtIso ins db e :
  Storage.createDiagnosis id createdAtIso ins db = Throw e ->
  exists code, e = SqliteError code.
Proof.
  unfold Storage.createDiagnosis, Db.insert_diagnosis.
  repeat match goal with |- context [if ?b then _ else _] => destruct b end;
    intros [= <-]; eauto.
Qed.

(** X15.  Let the request to the diagnosis backend fail, when it fails,
    with an error of its own and not with a ZodError.  Then every answer of
    POST /api/diagnose is one of three.  It is 400
    with the issues of the ZodError, of which there is at least one, and
    then nothing was sent and nothing was written.  Or the body passed the
    schema and exactly one request went to the diagnosis backend, carrying
    the validated data, and the patients are untouched: then the answer is
    201 with a diagnosis that [getDiagnosis] reads back under its id, one
    row having been added to the diagnoses and one to the knowledge base;
    or it is 500 with the message "NLP service unavailable", the knowledge
    base is as it was and at most one diagnosis row was added. *)
Theorem diagnose_answers env body st :
  (forall v issues,
     Routes.post env primary_url v 28000 <> Throw (ZodError issues)) ->
  exists res st',
    Routes.diagnose env body st = (res, st')
    /\ ((exists issues,
           Zod.symptomAnalysisSchema body = inl issues
           /\ issues <> []
           /\ res = Routes.mkResponse 400
                      (Routes.Message "Invalid diagnosis data" (Some issues))
           /\ st' = st)
        \/ (exists v,
              Zod.symptomAnalysisSchema body = inr v
              /\ Routes.calls st'
                 = Routes.calls st ++ [Routes.AxiosPost primary_url v 28000]
              /\ Db.patients (Routes.db st') = Db.patients (Routes.db st)
              /\ ((exists d row krow,
                     res = Routes.mkResponse 201 (Routes.DiagnosisJson d)
                     /\ Db.diagnoses (Routes.db st')
                        = Db.diagnoses (Routes.db st) ++ [row]
                     /\ Db.knowledge_base (Routes.db st')
                        = Db.knowledge_base (Routes.db st) ++ [krow]
                     /\ Storage.getDiagnosis (Diagnosis.id d) (Routes.db st')
                        = Ok (Some d))
                  \/ (res = Routes.mkResponse 500
                              (Routes.Message "NLP service unavailable" None)
                      /\ Db.knowledge_base (Routes.db st')
                         = Db.knowledge_base (Routes.db st)
                      /\ (Db.diagnoses (Routes.db st') = Db.diagnoses (Routes.db st)
                          \/ exists row,
                               Db.diagnoses (Routes.db st')
                               = Db.diagnoses (Routes.db st) ++ [row]))))).
Proof.
  intros Hpost. unfold Routes.diagnose. rewrite diagnose_try_run.
  pose proof (raises_symptomAnalysisSchema body) as Hraise.
  destruct (Zod.symptomAnalysisSchema body) as [issues|v].
  { eexists _, _. split; [reflexivity|]. left. exists issues.
    repeat split. exact Hraise. }
  assert (Hfail : forall e (st1 : Routes.State),
            (forall issues, e <> ZodError issues) ->
            match e with
            | ZodError errors =>
                (Routes.mkResponse 400
                   (Routes.Message "Invalid diagnosis data" (Some errors)), st1)
            | _ => (Routes.mkResponse 500
                      (Routes.Message "NLP service unavailable" None), st1)
            end
            = (Routes.mkResponse 500
                 (Routes.Message "NLP service unavailable" None), st1)).
  { intros e st1 He. destruct e; try reflexivity. exfalso. eapply He. reflexivity. }
  destruct (Routes.post env primary_url v 28000) as [ai|e] eqn:Hp.
  2:{ eexists _, _. split.
      { apply Hfail. intros i ->. exact (Hpost v i Hp). }
      right. exists v. repeat split. right. repeat split. left. reflexivity. }
  destruct (Storage.createDiagnosis _ _ _ (Routes.db st)) as [[d db1]|e] eqn:Hd.
  2:{ eexists _, _. split.
      { apply Hfail. intros i ->.
        destruct (createDiagnosis_throws _ _ _ _ _ Hd) as (code & Hc). discriminate. }
      right. exists v. repeat split. right. repeat split. left. reflexivity. }
  destruct (createDiagnosis_ok _ _ _ _ _ _ Hd) as [Ed Hdb1].
  destruct (Storage.addKnowledgeEntry _ _ _ db1) as [[k db2]|e] eqn:Hk.
  2:{ eexists _, _. split.
      { apply Hfail. intros i ->.
        destruct (addKnowledgeEntry_throws _ _ _ _ _ Hk) as (code & Hc). discriminate. }
      right. exists v.
      cbn [Routes.calls Routes.db sent]. rewrite Hdb1. cbn [Db.patients
        Db.diagnoses Db.knowledge_base].
      repeat split. right. repeat split. right. eexists. reflexivity. }
  destruct (addKnowledgeEntry_ok _ _ _ _ _ _ Hk) as [_ Hdb2].
  eexists _, _. split; [reflexivity|]. right. exists v.
  cbn [Routes.calls Routes.db sent]. split; [reflexivity|]. split; [reflexivity|].
  split; [rewrite Hdb2, Hdb1; reflexivity|]. left.
  exists d. eexists _, _. split; [reflexivity|].
  split; [rewrite Hdb2, Hdb1; reflexivity|].
  split; [rewrite Hdb2, Hdb1; reflexivity|].
  rewrite Hdb2. apply (getDiagnosis_created _ _ _ _ _ _ _ Hd).
Qed.

(** X16.  A diagnosis for a patient the database does not hold is not
    stored, and the failure is reported as a failure of the diagnosis
    backend: when the body passes the schema and the backend has answered,
    but no patient has the patientId of the request, the handler answers
    500 with the message "NLP service unavailable", after its one request
    to the backend, and the database is what it was. *)
Theorem unknown_patient_answers_500 env body st v ai :
  Zod.symptomAnalysisSchema body = inr v ->
  Routes.post env primary_url v 28000 = Ok ai ->
  Storage.getPatient (SymptomAnalysis.patientId v) (Routes.db st) = None ->
  Routes.diagnose env body st
  = (Routes.mkResponse 500 (Routes.Message "NLP service unavailable" None),
     sent st v)
  /\ Routes.db (sent st v) = Routes.db st.
Proof.
  intros Hv Hai Hp.
  destruct (createDiagnosis_missing_patient (Routes.diagnosisId env)
              (Routes.diagnosisCreatedAt env) (Routes.insert_of v ai) (Routes.db st) Hp)
    as (code & Hc).
  unfold Routes.diagnose. rewrite diagnose_try_run, Hv, Hai, Hc.
  split; reflexivity.
Qed.

Lemma unknown_patient_answers_500_witness :
  Routes.diagnose env_flu (JObj members_unknown_patient)
    (Routes.mkState db_one_patient [])
  = (Routes.mkResponse 500 (Routes.Message "NLP service unavailable" None),
     sent (Routes.mkState db_one_patient []) request_unknown_patient)
  /\ Routes.db (sent (Routes.mkState db_one_patient []) request_unknown_patient)
     = db_one_patient.
Proof.
  apply (unknown_patient_answers_500 env_flu (JObj members_unknown_patient)
           (Routes.mkState db_one_patient []) request_unknown_patient ai_flu);
    reflexivity.
Defined.

(** The issue of a field survives the remaining fields of the object. *)
Lemma schema_rejects_null k m :
  In k request_keys ->
  prop k m = Some JNull ->
  exists issues,
    Zod.symptomAnalysisSchema (JObj m) = inl issues
    /\ In (Zod.mkIssue Zod.invalid_type [Zod.Key k] None) issues.
Proof.
  unfold request_keys. cbn [In].
  intros [<-|[<-|[<-|[<-|[<-|[<-|[<-|[]]]]]]]] Hk;
    unfold Zod.symptomAnalysisSchema; rewrite Hk;
    cbn [Zod.string_ Zod.number Zod.optional Zod.array_string_min1
         Zod.enum_default Zod.vitalSigns]; unfold Zod.invalid;
    match goal with
    | |- context [@Zod.ap ?A ?B ?f (inl [?x])] =>
        let E := fresh "E" in
        destruct (@ap_issue_arg A B f (inl [x]) [x] x eq_refl (or_introl eq_refl))
          as (? & E & ?);
        rewrite E; clear E
    end;
    repeat match goal with
           | Hj : In ?x ?j |- context [@Zod.ap ?A ?B (inl ?j) ?a] =>
               let E := fresh "E" in
               destruct (@ap_issue_fun A B (inl j) a j x eq_refl Hj) as (? & E & ?);
               rewrite E; clear E Hj
           end; eauto.
Qed.

(** X17.  [null] is accepted for no field of an analyze request, the
    optional ones included: a body in which one of the keys of the schema
    (patientWeight, say) holds [null] is answered 400 with an issue of
    invalid type on that field, and nothing is sent to the diagnosis backend
    or written. *)
Theorem null_field_is_rejected env m st k :
  In k request_keys ->
  prop k m = Some JNull ->
  exists errors,
    Routes.diagnose env (JObj m) st
    = (Routes.mkResponse 400
         (Routes.Message "Invalid diagnosis data" (Some errors)), st)
    /\ In (Zod.mkIssue Zod.invalid_type [Zod.Key k] None) errors.
Proof.
  intros Hk Hnull. destruct (schema_rejects_null k m Hk Hnull) as (issues & E & Hin).
  exists issues. split; [|exact Hin].
  unfold Routes.diagnose. rewrite diagnose_try_run, E. reflexivity.
Qed.

Lemma null_field_is_rejected_witness :
  exists errors,
    Routes.diagnose env_flu (JObj members_null_weight)
      (Routes.mkState db_one_patient [])
    = (Routes.mkResponse 400
         (Routes.Message "Invalid diagnosis data" (Some errors)),
       Routes.mkState db_one_patient [])
    /\ In (Zod.mkIssue Zod.invalid_type [Zod.Key "patientWeight"] None) errors.
Proof.
  apply (null_field_is_rejected env_flu members_null_weight
           (Routes.mkState db_one_patient []) "patientWeight").
  - simpl. tauto.
  - reflexivity.
Defined.

Lemma diagnose_answers_witness :
  exists res st',
    Routes.diagnose env_flu (JObj members_fever) (Routes.mkState db_one_patient [])
    = (res, st')
    /\ (Routes.status res = 400%nat \/ Routes.status res = 201%nat
        \/ Routes.status res = 500%nat).
Proof.
  destruct (diagnose_answers env_flu (JObj members_fever)
              (Routes.mkState db_one_patient []))
    as (res & st' & Hrun & [(i & _ & _ & -> & _) | (v & _ & _ & _ & H)]).
  - intros v issues. discriminate.
  - eexists _, st'. split; [exact Hrun|]. left. reflexivity.
  - exists res, st'. split; [exact Hrun|]. right.
    destruct H as [(d & row & krow & -> & _) | (-> & _)]; [left|right]; reflexivity.
Defined.

Lemma Forall2_In_l {A B : Type} (R : A -> B -> Prop) l l' x :
  Forall2 R l l' -> In x l -> exists y, In y l' /\ R x y.
Proof.
  induction 1 as [|x' y t t' Hxy Ht IH]; cbn [In]; [tauto|].
  intros [<- | Hx]; [eauto|]. destruct (IH Hx) as (y' & Hy' & Hr). eauto.
Qed.

(** What a 201 of POST /api/diagnose says about the run. *)
Lemma diagnose_created env body st d st' :
  Routes.diagnose env body st
  = (Routes.mkResponse 201 (Routes.DiagnosisJson d), st') ->
  exists v ai db1 k,
    Storage.createDiagnosis (Routes.diagnosisId env) (Routes.diagnosisCreatedAt env)
      (Routes.insert_of v ai) (Routes.db st) = Ok (d, db1)
    /\ Storage.addKnowledgeEntry (Routes.knowledgeId env)
         (Routes.knowledgeCreatedAt env) (Routes.entry_of v ai) db1
       = Ok (k, Routes.db st').
Proof.
  unfold Routes.diagnose. rewrite diagnose_try_run.
  destruct (Zod.symptomAnalysisSchema body) as [issues|v]; [discriminate|].
  destruct (Routes.post env primary_url v 28000) as [ai|e];
    [|destruct e; discriminate].
  destruct (Storage.createDiagnosis _ _ _ (Routes.db st)) as [[d' db1]|e] eqn:Hd;
    [|destruct e; discriminate].
  destruct (Storage.addKnowledgeEntry _ _ _ db1) as [[k db2]|e] eqn:Hk;
    [|destruct e; discriminate].
  intros [= <- <-]. exists v, ai, db1, k. split; [exact Hd|exact Hk].
Qed.

(** X18.  What POST /api/diagnose answers with is what the read routes
    serve afterwards: when the request, made on a database the gateway's
    writes produce, is answered 201 with a diagnosis, then GET
    /api/diagnoses/:id for its id answers 200 with that same diagnosis, and
    the diagnosis is among those that GET /api/diagnoses and GET
    /api/patients/:id/diagnoses for its patient answer with. *)
Theorem answered_diagnosis_is_served env body st d st' :
  reachable (Routes.db st) ->
  Routes.diagnose env body st
  = (Routes.mkResponse 201 (Routes.DiagnosisJson d), st') ->
  Endpoints.get_diagnosis (Diagnosis.id d) (Routes.db st')
  = Endpoints.mkResponse 200 (Endpoints.DiagnosisJson d)
  /\ (exists all,
        Endpoints.get_diagnoses (Routes.db st')
        = Endpoints.mkResponse 200 (Endpoints.DiagnosesJson all)
        /\ In d all)
  /\ (exists ds,
        Endpoints.get_patient_diagnoses (Diagnosis.patientId d) (Routes.db st')
        = Endpoints.mkResponse 200 (Endpoints.DiagnosesJson ds)
        /\ In d ds).
Proof.
  intros Hreach Hrun.
  destruct (diagnose_created _ _ _ _ _ Hrun) as (v & ai & db1 & k & Hd & Hk).
  assert (Hreach1 : reachable db1) by (eapply reach_createDiagnosis; eassumption).
  assert (Hreach2 : reachable (Routes.db st'))
    by (eapply reach_addKnowledgeEntry; eassumption).
  destruct (createDiagnosis_ok _ _ _ _ _ _ Hd) as [Ed Hdb1].
  destruct (addKnowledgeEntry_ok _ _ _ _ _ _ Hk) as [_ Hdb2].
  set (row := Storage.diagnosis_row (Routes.diagnosisId env)
                (Routes.diagnosisCreatedAt env) (Routes.insert_of v ai)) in *.
  assert (Hrow : In row (Db.diagnoses (Routes.db st'))).
  { rewrite Hdb2, Hdb1. cbn [Db.diagnoses]. apply in_or_app. right. left. reflexivity. }
  assert (Hread : Storage.rowToDiagnosis row = Ok d).
  { rewrite Ed. apply rowToDiagnosis_written. }
  destruct (reachable_written _ Hreach2) as [Hrows _].
  split; [|split].
  - unfold Endpoints.get_diagnosis. rewrite Hdb2.
    rewrite (getDiagnosis_created _ _ _ _ _ _ _ Hd). reflexivity.
  - destruct (getAllDiagnoses_reads _ Hreach2) as (all & Hall & Hrel).
    exists all. unfold Endpoints.get_diagnoses. rewrite Hall. split; [reflexivity|].
    destruct (Forall2_In_l _ _ _ row Hrel) as (d' & Hin & Hd').
    { apply In_order_by. exact Hrow. }
    cbn beta in Hd'. rewrite Hread in Hd'. injection Hd' as <-. exact Hin.
  - destruct (map_throwing_forall Storage.rowToDiagnosis normalized
                (Db.order_by_createdAt_desc Db.DiagnosisRow.createdAt
                   (List.filter
                      (fun r => String.eqb (Db.DiagnosisRow.patientId r)
                                  (Diagnosis.patientId d))
                      (Db.diagnoses (Routes.db st')))))
      as (ds & Hds & _).
    { apply Forall_sort, Forall_filter. eapply List.Forall_impl; [|exact Hrows].
      apply written_reads_normalized. }
    exists ds. unfold Endpoints.get_patient_diagnoses, Storage.getDiagnosesByPatient.
    rewrite Hds. split; [reflexivity|].
    destruct (Forall2_In_l _ _ _ row (map_throwing_Forall2 _ _ _ Hds))
      as (d' & Hin & Hd').
    { apply In_order_by, List.filter_In. split; [exact Hrow|].
      rewrite (proj2 (rowToDiagnosis_ids _ _ Hread)). apply String.eqb_refl. }
    cbn beta in Hd'. rewrite Hread in Hd'. injection Hd' as <-. exact Hin.
Qed.

Lemma answered_diagnosis_is_served_witness :
  Endpoints.get_diagnosis "d2" db_after_measles
  = Endpoints.mkResponse 200
      (Endpoints.DiagnosisJson
         (Storage.diagnosis_of "d2" 3000 (Routes.insert_of request_vitals ai_measles))).
Proof.
  refine (proj1 (answered_diagnosis_is_served env_measles (JObj members_vitals)
                   (Routes.mkState db_after_flu [])
                   (Storage.diagnosis_of "d2" 3000
                      (Routes.insert_of request_vitals ai_measles))
                   (snd (Routes.diagnose env_measles (JObj members_vitals)
                           (Routes.mkState db_after_flu []))) _ _)).
  - exact reachable_db_after_flu.
  - reflexivity.
Defined.

(** X19.  On a database the gateway's writes produce the read routes do
    not fail: GET /api/diagnoses and GET /api/patients/:id/diagnoses answer
    200 with a list, GET /api/diagnoses/:id answers 200 with the diagnosis
    of that id when one is stored and 404 "Diagnosis not found" otherwise,
    and GET /api/patients/:id answers 200 with the patient of that id when
    one is stored and 404 "Patient not found" otherwise. *)
Theorem read_routes_answer db id :
  reachable db ->
  (exists ds,
     Endpoints.get_diagnoses db
     = Endpoints.mkResponse 200 (Endpoints.DiagnosesJson ds))
  /\ (exists ds,
        Endpoints.get_patient_diagnoses id db
        = Endpoints.mkResponse 200 (Endpoints.DiagnosesJson ds))
  /\ (In id (diagnosis_ids db) ->
      exists d,
        Endpoints.get_diagnosis id db
        = Endpoints.mkResponse 200 (Endpoints.DiagnosisJson d)
        /\ Diagnosis.id d = id)
  /\ (~ In id (diagnosis_ids db) ->
      Endpoints.get_diagnosis id db
      = Endpoints.mkResponse 404 (Endpoints.Message "Diagnosis not found" None))
  /\ (In id (patient_ids db) ->
      exists p,
        Endpoints.get_patient id db
        = Endpoints.mkResponse 200 (Endpoints.PatientJson p)
        /\ Patient.id p = id)
  /\ (~ In id (patient_ids db) ->
      Endpoints.get_patient id db
      = Endpoints.mkResponse 404 (Endpoints.Message "Patient not found" None)).
Proof.
  intros Hreach. destruct (reachable_written _ Hreach) as [Hrows _].
  split; [|split; [|split; [|split; [|split]]]].
  - destruct (getAllDiagnoses_reads _ Hreach) as (all & Hall & _).
    exists all. unfold Endpoints.get_diagnoses. rewrite Hall. reflexivity.
  - destruct (map_throwing_forall Storage.rowToDiagnosis normalized
                (Db.order_by_createdAt_desc Db.DiagnosisRow.createdAt
                   (List.filter
                      (fun r => String.eqb (Db.DiagnosisRow.patientId r) id)
                      (Db.diagnoses db))))
      as (ds & Hds & _).
    { apply Forall_sort, Forall_filter. eapply List.Forall_impl; [|exact Hrows].
      apply written_reads_normalized. }
    exists ds. unfold Endpoints.get_patient_diagnoses, Storage.getDiagnosesByPatient.
    rewrite Hds. reflexivity.
  - intros Hin. apply existsb_id_In in Hin.
    unfold Endpoints.get_diagnosis, Storage.getDiagnosis.
    destruct (find _ (Db.diagnoses db)) as [row|] eqn:Hfind.
    + apply List.find_some in Hfind as [Hrow Hid]. apply String.eqb_eq in Hid.
      destruct (written_reads_normalized row
                  (proj1 (List.Forall_forall _ _) Hrows row Hrow)) as (d & Hd & _).
      rewrite Hd. exists d. split; [reflexivity|].
      rewrite (proj1 (rowToDiagnosis_ids _ _ Hd)). exact Hid.
    + apply find_none_existsb in Hfind. congruence.
  - intros Hnot. unfold Endpoints.get_diagnosis, Storage.getDiagnosis.
    rewrite (proj2 (find_none_existsb _ _)
               (existsb_id_false Db.DiagnosisRow.id id _ Hnot)). reflexivity.
  - intros Hin. apply existsb_id_In in Hin.
    unfold Endpoints.get_patient, Storage.getPatient.
    destruct (find _ (Db.patients db)) as [row|] eqn:Hfind.
    + apply List.find_some in Hfind as [_ Hid]. apply String.eqb_eq in Hid.
      eexists. split; [reflexivity|exact Hid].
    + apply find_none_existsb in Hfind. congruence.
  - intros Hnot. unfold Endpoints.get_patient, Storage.getPatient.
    rewrite (proj2 (find_none_existsb _ _)
               (existsb_id_false Db.PatientRow.id id _ Hnot)). reflexivity.
Qed.

Lemma read_routes_answer_witness :
  Endpoints.get_diagnosis "d7" db_after_measles
  = Endpoints.mkResponse 404 (Endpoints.Message "Diagnosis not found" None)
  /\ Endpoints.get_diagnosis "d2" db_after_measles
     = Endpoints.mkResponse 200
         (Endpoints.DiagnosisJson
            (Storage.diagnosis_of "d2" 3000
               (Routes.insert_of request_vitals ai_measles))).
Proof.
  destruct (read_routes_answer db_after_measles "d7" reachable_db_after_measles)
    as (_ & _ & _ & H & _).
  split; [|reflexivity].
  apply H. simpl. intros [H1|[H1|[]]]; discriminate H1.
Defined.

(* ===================================================================== *)
(** ** POST /api/patients *)
(* ===================================================================== *)

Lemma refuses_and_then {A B : Type} (f : Schemas.checked (A -> B))
    (a : Schemas.checked A) :
  refuses f -> refuses a -> refuses (Schemas.and_then f a).
Proof.
  destruct f as [i|g], a as [j|x]; cbn; try tauto.
  intros Hi _ H. apply app_eq_nil in H as [H _]. tauto.
Qed.

Lemma refuses_of_zod {A : Type} (r : Zod.parsed A) :
  raises r -> refuses (Schemas.of_zod r).
Proof.
  destruct r as [i|a]; cbn; [|tauto]. intros Hi H. apply map_eq_nil in H. tauto.
Qed.

Lemma refuses_string_min1 msg p v : refuses (Schemas.string_min1 msg p v).
Proof.
  unfold Schemas.string_min1.
  pose proof (refuses_of_zod _ (raises_string p v)) as H.
  destruct (Schemas.of_zod (Zod.string_ p v)) as [i|s]; [exact H|].
  destruct (String.length s <? 1)%nat; cbn; [discriminate|exact I].
Qed.

Lemma refuses_number_min_max lo hi p v : refuses (Schemas.number_min_max lo hi p v).
Proof.
  unfold Schemas.number_min_max.
  pose proof (refuses_of_zod _ (raises_number p v)) as H.
  destruct (Schemas.of_zod (Zod.number p v)) as [i|n]; [exact H|].
  destruct (Number.ltb n lo), (Number.ltb hi n); cbn; first [exact I | discriminate].
Qed.

Lemma refuses_enum values p v : refuses (Schemas.enum values p v).
Proof.
  unfold Schemas.enum. destruct v as [[| | |s| |]|]; cbn; try discriminate.
  destruct (existsb _ values); cbn; [exact I|discriminate].
Qed.

Lemma refuses_or_undefined {A : Type}
    (s : list Zod.segment -> option json -> Schemas.checked A) p v :
  (forall p v, refuses (s p v)) -> refuses (Schemas.or_undefined s p v).
Proof.
  intros Hs. unfold Schemas.or_undefined. destruct v as [x|]; [|exact I].
  specialize (Hs p (Some x)). destruct (s p (Some x)); exact Hs.
Qed.

Lemma refuses_string_nullable_optional p v :
  refuses (Schemas.string_nullable_optional p v).
Proof. destruct v as [[]|]; cbn; first [exact I | discriminate]. Qed.

Lemma refuses_insertPatientSchema body : refuses (Schemas.insertPatientSchema body).
Proof.
  unfold Schemas.insertPatientSchema. destruct body; try (cbn; discriminate).
  repeat apply refuses_and_then; try exact I;
    first [ apply refuses_string_min1 | apply refuses_number_min_max
          | apply refuses_enum | apply refuses_string_nullable_optional
          | apply refuses_or_undefined; apply refuses_number_min_max ].
Qed.

Lemma and_then_inr {A B : Type} (f : Schemas.checked (A -> B))
    (a : Schemas.checked A) y :
  Schemas.and_then f a = inr y -> exists g x, f = inr g /\ a = inr x /\ y = g x.
Proof.
  destruct f as [i|g], a as [j|x]; cbn [Schemas.and_then]; try discriminate.
  intros [= <-]. eauto.
Qed.

Lemma string_min1_inr msg p v s :
  Schemas.string_min1 msg p v = inr s -> v = Some (JStr s) /\ s <> "".
Proof.
  unfold Schemas.string_min1. destruct v as [[| | |x| |]|]; cbn; try discriminate.
  destruct x as [|c x]; cbn; [discriminate|]. intros [= <-]. split; [reflexivity|discriminate].
Qed.

Lemma number_min_max_inr lo hi p v n :
  Schemas.number_min_max lo hi p v = inr n ->
  v = Some (JNum n) /\ (Number.le lo n /\ Number.le n hi).
Proof.
  unfold Schemas.number_min_max.
  destruct v as [[| |x| | |]|]; cbn [Zod.number Schemas.of_zod]; try discriminate.
  destruct (Number.ltb x lo) eqn:Hlo, (Number.ltb hi x) eqn:Hhi; cbn [app];
    try discriminate.
  intros [= <-]. apply number_ltb_ge in Hlo, Hhi. split; [reflexivity|tauto].
Qed.

Lemma enum_inr values p v s :
  Schemas.enum values p v = inr s -> v = Some (JStr s) /\ In s values.
Proof.
  unfold Schemas.enum. destruct v as [[| | |x| |]|]; try discriminate.
  destruct (existsb (String.eqb x) values) eqn:E; [|discriminate].
  intros [= <-]. split; [reflexivity|].
  apply existsb_exists in E as (y & Hy & Exy). apply String.eqb_eq in Exy.
  subst y. exact Hy.
Qed.

(** What the schema lets through is an acceptable patient, with the name,
    the age and the gender of the body. *)
Lemma insertPatientSchema_inr body p :
  Schemas.insertPatientSchema body = inr p ->
  acceptable (InsertPatient.name p) (InsertPatient.age p) (InsertPatient.gender p)
    (InsertPatient.weight p)
  /\ exists m,
       body = JObj m
       /\ prop "name" m = Some (JStr (InsertPatient.name p))
       /\ prop "age" m = Some (JNum (InsertPatient.age p))
       /\ prop "gender" m = Some (JStr (InsertPatient.gender p)).
Proof.
  unfold Schemas.insertPatientSchema. destruct body as [| | | | |m]; try discriminate.
  intros H.
  apply and_then_inr in H as (g6 & address & H & Haddress & ->).
  apply and_then_inr in H as (g5 & contact & H & Hcontact & ->).
  apply and_then_inr in H as (g4 & weight & H & Hweight & ->).
  apply and_then_inr in H as (g3 & gender & H & Hgender & ->).
  apply and_then_inr in H as (g2 & age & H & Hage & ->).
  apply and_then_inr in H as (g1 & name & H & Hname & ->).
  injection H as <-.
  apply string_min1_inr in Hname as [Hname Hne].
  apply number_min_max_inr in Hage as [Hage Hrange].
  apply enum_inr in Hgender as [Hgender Hin].
  unfold acceptable. cbn [InsertPatient.name InsertPatient.age InsertPatient.gender
                          InsertPatient.weight].
  split.
  - split; [exact Hne|]. split; [exact Hrange|]. split; [exact Hin|].
    unfold Schemas.or_undefined in Hweight.
    destruct (prop "weight" m) as [x|]; [|injection Hweight as <-; exact I].
    destruct (Schemas.number_min_max 1 300 [Zod.Key "weight"] (Some x)) as [i|w] eqn:E;
      [discriminate|].
    injection Hweight as <-. apply number_min_max_inr in E as [_ E]. exact E.
  - exists m. repeat split; assumption.
Qed.

(** X20.  Every answer of POST /api/patients is one of three.  It is 400
    "Invalid patient data" with at least one issue, and nothing was
    written.  Or it is 201 with a patient that carries the id and the time
    stamp drawn for it and the name, the age and the gender of the body, the
    name not empty, the age from 0 to 150, the gender one of "male",
    "female" and "other" and the weight, if any, from 1 to 300; one row was
    added to the patients, the other tables are untouched, and GET
    /api/patients/:id for the id answers 200 with that same patient, which
    GET /api/patients lists.  Or it is 500 "Failed to create patient",
    nothing was written, and the id drawn was in use. *)
Theorem post_patients_answers id createdAtIso body db :
  exists res db',
    Endpoints.post_patients id createdAtIso body db = (res, db')
    /\ ((exists errors,
           res = Endpoints.mkResponse 400
                   (Endpoints.InvalidPatient "Invalid patient data" errors)
           /\ errors <> []
           /\ db' = db)
        \/ (exists p m,
              res = Endpoints.mkResponse 201 (Endpoints.PatientJson p)
              /\ acceptable (Patient.name p) (Patient.age p) (Patient.gender p)
                   (Patient.weight p)
              /\ body = JObj m
              /\ prop "name" m = Some (JStr (Patient.name p))
              /\ prop "age" m = Some (JNum (Patient.age p))
              /\ prop "gender" m = Some (JStr (Patient.gender p))
              /\ Patient.id p = id
              /\ Patient.createdAt p = createdAtIso
              /\ patient_ids db' = patient_ids db ++ [id]
              /\ Db.diagnoses db' = Db.diagnoses db
              /\ Db.knowledge_base db' = Db.knowledge_base db
              /\ Endpoints.get_patient id db'
                 = Endpoints.mkResponse 200 (Endpoints.PatientJson p)
              /\ exists ps,
                   Endpoints.get_patients db'
                   = Endpoints.mkResponse 200 (Endpoints.PatientsJson ps)
                   /\ In p ps)
        \/ (res = Endpoints.mkResponse 500
                    (Endpoints.Message "Failed to create patient" None)
            /\ db' = db
            /\ In id (patient_ids db))).
Proof.
  unfold Endpoints.post_patients.
  pose proof (refuses_insertPatientSchema body) as Hrefuse.
  destruct (Schemas.insertPatientSchema body) as [errors|ins] eqn:Hschema.
  { eexists _, _. split; [reflexivity|]. left. exists errors. repeat split.
    exact Hrefuse. }
  destruct (insertPatientSchema_inr _ _ Hschema) as (Hacc & m & -> & Hname & Hage & Hg).
  unfold Storage.createPatient, Db.insert_patient. cbn [Db.PatientRow.id].
  destruct (existsb _ (Db.patients db)) eqn:Hid.
  { eexists _, _. split; [reflexivity|]. right. right. repeat split.
    apply existsb_id_In. exact Hid. }
  eexists _, _. split; [reflexivity|]. right. left.
  eexists _, m. split; [reflexivity|].
  split; [exact Hacc|]. split; [reflexivity|].
  split; [exact Hname|]. split; [exact Hage|]. split; [exact Hg|].
  split; [reflexivity|]. split; [reflexivity|].
  split; [unfold patient_ids; cbn [Db.patients]; rewrite map_app; reflexivity|].
  split; [reflexivity|]. split; [reflexivity|]. split.
  - unfold Endpoints.get_patient, Storage.getPatient. cbn [Db.patients].
    rewrite (find_app_last _ _ _ Hid); [reflexivity|]. cbn. apply String.eqb_refl.
  - eexists. split; [reflexivity|].
    unfold Storage.getAllPatients. apply in_map_iff.
    exists (Db.PatientRow.mk id (InsertPatient.name ins) (InsertPatient.age ins)
              (InsertPatient.gender ins) (InsertPatient.weight ins)
              (InsertPatient.contactNumber ins) (InsertPatient.address ins)
              createdAtIso).
    split; [reflexivity|]. apply In_order_by. cbn [Db.patients]. apply in_or_app. right. left. reflexivity.
Qed.

(** The issue of a field survives the fields before it and after it. *)
Lemma and_then_issue_arg {A B : Type} (f : Schemas.checked (A -> B))
    (a : Schemas.checked A) i x :
  a = inl i -> In x i -> exists j, Schemas.and_then f a = inl j /\ In x j.
Proof.
  intros -> Hx. destruct f as [k|g]; cbn [Schemas.and_then].
  - exists (k ++ i). split; [reflexivity|]. apply in_or_app. right. exact Hx.
  - exists i. split; [reflexivity|exact Hx].
Qed.

Lemma and_then_issue_fun {A B : Type} (f : Schemas.checked (A -> B))
    (a : Schemas.checked A) i x :
  f = inl i -> In x i -> exists j, Schemas.and_then f a = inl j /\ In x j.
Proof.
  intros -> Hx. destruct a as [k|y]; cbn [Schemas.and_then].
  - exists (i ++ k). split; [reflexivity|]. apply in_or_app. left. exact Hx.
  - exists i. split; [reflexivity|exact Hx].
Qed.

Lemma insertPatientSchema_issue m x :
  (exists i, Schemas.string_min1 "Name is required" [Zod.Key "name"] (prop "name" m)
             = inl i /\ In x i)
  \/ (exists i, Schemas.number_min_max 0 150 [Zod.Key "age"] (prop "age" m) = inl i
                /\ In x i)
  \/ (exists i, Schemas.enum Schemas.genders [Zod.Key "gender"] (prop "gender" m)
                = inl i /\ In x i) ->
  exists issues,
    Schemas.insertPatientSchema (JObj m) = inl issues /\ In x issues.
Proof.
  unfold Schemas.insertPatientSchema.
  intros [(i & E & Hx) | [(i & E & Hx) | (i & E & Hx)]]; rewrite E;
    match goal with
    | |- context [@Schemas.and_then ?A ?B ?f (inl i)] =>
        let E := fresh "E" in
        destruct (@and_then_issue_arg A B f (inl i) i x eq_refl Hx) as (? & E & ?);
        rewrite E; clear E
    end;
    repeat match goal with
           | Hj : In x ?j |- context [@Schemas.and_then ?A ?B (inl ?j) ?a] =>
               let E := fresh "E" in
               destruct (@and_then_issue_fun A B (inl j) a j x eq_refl Hj)
                 as (? & E & ?);
               rewrite E; clear E Hj
           end; eauto.
Qed.

(** X21.  POST /api/patients names what is wrong with a patient: a body
    whose name is the empty string is answered 400 with the issue "Name is
    required" on [name], one whose age is above 150 with an issue of a value
    too big on [age], one whose age is below 0 with an issue of a value too
    small on [age], one whose gender is a string other than "male", "female"
    and "other" with an issue of an invalid enum value on [gender]; in each
    case no patient is stored. *)
Theorem invalid_patient_is_rejected id createdAtIso m db :
  let rejected issue :=
    exists errors,
      Endpoints.post_patients id createdAtIso (JObj m) db
      = (Endpoints.mkResponse 400
           (Endpoints.InvalidPatient "Invalid patient data" errors), db)
      /\ In issue errors in
  (prop "name" m = Some (JStr "") ->
   rejected (Schemas.mkPatientIssue (Schemas.zod Zod.too_small) [Zod.Key "name"]
               (Some "Name is required")))
  /\ (forall age, prop "age" m = Some (JNum age) -> Number.lt 150 age ->
        rejected (Schemas.mkPatientIssue Schemas.too_big [Zod.Key "age"] None))
  /\ (forall age, prop "age" m = Some (JNum age) -> Number.lt age 0 ->
        rejected (Schemas.mkPatientIssue (Schemas.zod Zod.too_small)
                    [Zod.Key "age"] None))
  /\ (forall gender, prop "gender" m = Some (JStr gender) ->
        ~ In gender Schemas.genders ->
        rejected (Schemas.mkPatientIssue (Schemas.zod Zod.invalid_enum_value)
                    [Zod.Key "gender"] None)).
Proof.
  cbv zeta.
  assert (Hrej : forall x,
            (exists issues, Schemas.insertPatientSchema (JObj m) = inl issues
                            /\ In x issues) ->
            exists errors,
              Endpoints.post_patients id createdAtIso (JObj m) db
              = (Endpoints.mkResponse 400
                   (Endpoints.InvalidPatient "Invalid patient data" errors), db)
              /\ In x errors).
  { intros x (issues & E & Hin). exists issues. split; [|exact Hin].
    unfold Endpoints.post_patients. rewrite E. reflexivity. }
  split; [|split; [|split]].
  - intros Hname. apply Hrej, insertPatientSchema_issue. left.
    rewrite Hname. eexists. split; [reflexivity|]. left. reflexivity.
  - intros age Hage Hbig. apply Hrej, insertPatientSchema_issue. right. left.
    rewrite Hage. unfold Schemas.number_min_max. cbn [Zod.number Schemas.of_zod].
    assert (H0 : Number.lt 0 150) by reflexivity.
    assert (H1 : Number.ltb age 0 = false)
      by (apply number_ltb_ge, number_lt_le, (number_lt_trans _ _ _ H0 Hbig)).
    assert (H2 : Number.ltb 150 age = true) by (apply number_ltb_lt; exact Hbig).
    rewrite H1, H2. eexists. split; [reflexivity|]. left. reflexivity.
  - intros age Hage Hsmall. apply Hrej, insertPatientSchema_issue. right. left.
    rewrite Hage. unfold Schemas.number_min_max. cbn [Zod.number Schemas.of_zod].
    assert (H1 : Number.ltb age 0 = true) by (apply number_ltb_lt; exact Hsmall).
    rewrite H1. eexists. split; [reflexivity|]. left. reflexivity.
  - intros gender Hg Hnot. apply Hrej, insertPatientSchema_issue. right. right.
    rewrite Hg. unfold Schemas.enum.
    destruct (existsb (String.eqb gender) Schemas.genders) eqn:E.
    + apply existsb_In_eqb in E. tauto.
    + eexists. split; [reflexivity|]. left. reflexivity.
Qed.

Lemma drugInteractionSchema_inr body v :
  Schemas.drugInteractionSchema body = inr v ->
  exists m,
    body = JObj m
    /\ DrugInteraction.medications v <> []
    /\ prop "medications" m
       = Some (Storage.strings_json (DrugInteraction.medications v))
    /\ prop "patientAge" m = Some (JNum (DrugInteraction.patientAge v))
    /\ prop "patientWeight" m = option_map JNum (DrugInteraction.patientWeight v).
Proof.
  unfold Schemas.drugInteractionSchema.
  destruct body as [| | | | |m]; try discriminate.
  unfold Schemas.array_string_nonempty.
  destruct (prop "medications" m) as [[| | | |l|]|] eqn:Em; cbn [Zod.ap];
    try (destruct (Zod.number _ _), (Zod.optional _ _ _); discriminate).
  destruct (length l <? 1)%nat eqn:Hlen.
  { destruct (Zod.string_items _ 0 l), (Zod.number _ _), (Zod.optional _ _ _);
      discriminate. }
  destruct (Zod.string_items _ 0 l) as [i|ss] eqn:Hitems;
    [destruct (Zod.number _ _), (Zod.optional _ _ _); discriminate|].
  apply string_items_inr in Hitems. subst l.
  destruct (prop "patientAge" m) as [[| |age| | |]|] eqn:Ea;
    cbn [Zod.number Zod.ap]; try (destruct (Zod.optional _ _ _); discriminate).
  destruct (prop "patientWeight" m) as [[| |w| | |]|] eqn:Ew;
    cbn [Zod.optional Zod.number Zod.ap]; try discriminate;
    intros [= <-]; exists m; cbn [DrugInteraction.medications
      DrugInteraction.patientAge DrugInteraction.patientWeight option_map];
    (split; [reflexivity|]);
    (split; [destruct ss; [discriminate Hlen|discriminate]|]);
    repeat split; assumption.
Qed.

(** X22.  POST /api/drug-interactions answers 200 or 400 and nothing
    else.  A 200 echoes the validated payload, which has at least one
    medication and holds the values of the three keys of the schema as the
    body gave them, [medications] being an array of strings, [patientAge] a
    number and [patientWeight] a number or absent; every body of that form
    is answered 200.  A 400 carries at least one issue. *)
Theorem drug_interactions_answers body :
  ((exists v m,
      Endpoints.drug_interactions body
      = Endpoints.mkResponse 200 (Endpoints.Received drug_message v)
      /\ body = JObj m
      /\ DrugInteraction.medications v <> []
      /\ prop "medications" m
         = Some (Storage.strings_json (DrugInteraction.medications v))
      /\ prop "patientAge" m = Some (JNum (DrugInteraction.patientAge v))
      /\ prop "patientWeight" m = option_map JNum (DrugInteraction.patientWeight v))
   \/ (exists errors,
         Endpoints.drug_interactions body
         = Endpoints.mkResponse 400
             (Endpoints.Message "Invalid request data" (Some errors))
         /\ errors <> []))
  /\ (forall m v,
        body = JObj m ->
        DrugInteraction.medications v <> [] ->
        prop "medications" m
        = Some (Storage.strings_json (DrugInteraction.medications v)) ->
        prop "patientAge" m = Some (JNum (DrugInteraction.patientAge v)) ->
        prop "patientWeight" m = option_map JNum (DrugInteraction.patientWeight v) ->
        Endpoints.drug_interactions body
        = Endpoints.mkResponse 200 (Endpoints.Received drug_message v)).
Proof.
  split.
  - unfold Endpoints.drug_interactions.
    pose proof (raises_drugInteractionSchema body) as Hraise.
    destruct (Schemas.drugInteractionSchema body) as [errors|v] eqn:E.
    + right. exists errors. split; [reflexivity|exact Hraise].
    + left. destruct (drugInteractionSchema_inr _ _ E) as (m & H). exists v, m.
      split; [reflexivity|exact H].
  - intros m [meds age weight] -> Hne Hm Ha Hw.
    cbn [DrugInteraction.medications DrugInteraction.patientAge
         DrugInteraction.patientWeight] in *.
    unfold Endpoints.drug_interactions, Schemas.drugInteractionSchema,
      Schemas.array_string_nonempty, Storage.strings_json in *.
    rewrite Hm, Ha, Hw, string_items_strings.
    destruct meds as [|s t]; [congruence|]. destruct weight; reflexivity.
Qed.

Lemma strings_of_strings ss : strings_of (map JStr ss) = Some ss.
Proof.
  induction ss as [|s t IH]; [reflexivity|]. cbn [map strings_of]. rewrite IH.
  reflexivity.
Qed.

(** X23.  POST /api/knowledge/search asks for symptoms before it
    searches: a body whose [symptoms] is missing, is not an array or is the
    empty array is answered 400 "Symptoms are required", whatever the
    storage would do.  A body that gives a non-empty array of strings and
    two strings, served by [SqliteStorage] on a database the gateway's writes
    produce, is answered 200 with what [searchKnowledge] returns for these
    values. *)
Theorem knowledge_search_answers searchKnowledge body db :
  (forall ss ag g,
     searchKnowledge (map JStr ss) (Some (JStr ag)) (Some (JStr g)) db
     = Storage.searchKnowledge ss ag g db) ->
  reachable db ->
  (body <> JNull ->
   (forall x l, Endpoints.destructured "symptoms" body <> Some (JArr (x :: l))) ->
   Endpoints.knowledge_search searchKnowledge body db
   = Endpoints.mkResponse 400 (Endpoints.Message "Symptoms are required" None))
  /\ (forall s ss ag g,
        Endpoints.destructured "symptoms" body
        = Some (Storage.strings_json (s :: ss)) ->
        Endpoints.destructured "ageGroup" body = Some (JStr ag) ->
        Endpoints.destructured "gender" body = Some (JStr g) ->
        exists results,
          Endpoints.knowledge_search searchKnowledge body db
          = Endpoints.mkResponse 200 (Endpoints.KnowledgeJson results)
          /\ Storage.searchKnowledge (s :: ss) ag g db = Ok results).
Proof.
  intros Hsearch Hreach. split.
  - intros Hbody Hnone. unfold Endpoints.knowledge_search.
    destruct body as [| | | | |m]; try reflexivity; [congruence|].
    destruct (Endpoints.destructured "symptoms" (JObj m)) as [[| | | |l|]|] eqn:E;
      try reflexivity.
    destruct l as [|x l]; [reflexivity|]. exfalso. exact (Hnone x l eq_refl).
  - intros s ss ag g Hs Ha Hg.
    destruct (reachable_written _ Hreach) as [_ Hrows].
    destruct (searchKnowledge_passes (s :: ss) ag g _ Hrows)
      as (entries & He & filtered & Hf & Hm).
    eexists. split.
    + unfold Endpoints.knowledge_search.
      destruct body as [| | | | |m]; try discriminate Hs.
      rewrite Hs, Ha, Hg. unfold Storage.strings_json. cbn [map length Nat.eqb].
      change (JStr s :: map JStr ss) with (map JStr (s :: ss)).
      rewrite Hsearch. unfold Storage.searchKnowledge. rewrite Hf, Hm. reflexivity.
    + unfold Storage.searchKnowledge. rewrite Hf, Hm. reflexivity.
Qed.

Lemma knowledge_search_answers_witness :
  Endpoints.knowledge_search search_declared search_nothing db_after_flu
  = Endpoints.mkResponse 400 (Endpoints.Message "Symptoms are required" None)
  /\ exists results,
       Endpoints.knowledge_search search_declared search_fever db_after_flu
       = Endpoints.mkResponse 200 (Endpoints.KnowledgeJson results)
       /\ Storage.searchKnowledge ["fever"] "child" "male" db_after_flu = Ok results.
Proof.
  split.
  - refine (proj1 (knowledge_search_answers search_declared search_nothing
                     db_after_flu _ reachable_db_after_flu) _ _).
    + intros ss ag g. unfold search_declared. rewrite strings_of_strings. reflexivity.
    + discriminate.
    + intros x l. discriminate.
  - refine (proj2 (knowledge_search_answers search_declared search_fever
                     db_after_flu _ reachable_db_after_flu) "fever" [] "child" "male"
              _ _ _).
    + intros ss ag g. unfold search_declared. rewrite strings_of_strings. reflexivity.
    + reflexivity.
    + reflexivity.
    + reflexivity.
Defined.

(* ===================================================================== *)
(** ** The snapshot store and the pages *)
(* ===================================================================== *)

Section Cache.
Import Offline.

Lemma getItem_removeItem k k' ls :
  getItem k (removeItem k' ls)
  = if String.eqb k k' then None else getItem k ls.
Proof.
  unfold getItem, removeItem. cbn [items].
  destruct (String.eqb_spec k k') as [->|Hne].
  - apply lookup_delete_eq.
  - apply lookup_delete_ne. congruence.
Qed.

(** X24.  [clearAll] removes the three keys of the cache and nothing
    else: after it each of the three keys is absent, so that the last
    synchronisation reads as null, every other key of the storage area
    holds what it held, and the room of the area is unchanged. *)
Theorem clearAll_removes_only_the_cache ls k :
  (In k CACHE_KEYS.values -> getItem k (clearAll ls) = None)
  /\ (~ In k CACHE_KEYS.values -> getItem k (clearAll ls) = getItem k ls)
  /\ getLastSync (clearAll ls) = None
  /\ quota (clearAll ls) = quota ls.
Proof.
  assert (H : getItem k (clearAll ls)
              = if existsb (String.eqb k) CACHE_KEYS.values then None
                else getItem k ls).
  { unfold clearAll, CACHE_KEYS.values. cbn [fold_left existsb].
    rewrite !getItem_removeItem.
    destruct (String.eqb k CACHE_KEYS.LAST_SYNC),
             (String.eqb k CACHE_KEYS.DIAGNOSES),
             (String.eqb k CACHE_KEYS.PATIENTS); reflexivity. }
  split; [|split; [|split]].
  - intros Hin. rewrite H. apply existsb_In_eqb in Hin. rewrite Hin. reflexivity.
  - intros Hnot. rewrite H.
    destruct (existsb (String.eqb k) CACHE_KEYS.values) eqn:E; [|reflexivity].
    apply existsb_In_eqb in E. tauto.
  - unfold getLastSync. rewrite getItem_clearAll; [reflexivity|].
    cbn. tauto.
  - reflexivity.
Qed.

Lemma save_other_keys c now items ls k :
  k <> key_of c -> k <> CACHE_KEYS.LAST_SYNC ->
  getItem k (save c now items ls) = getItem k ls.
Proof.
  intros Hc Hs. rewrite save_writes.
  destruct (setItem (key_of c) _ ls) as [ls1|e] eqn:H1; [|reflexivity].
  destruct (setItem CACHE_KEYS.LAST_SYNC now ls1) as [ls2|e] eqn:H2.
  - rewrite (getItem_setItem_ne _ _ _ _ _ (not_eq_sym Hs) H2).
    apply (getItem_setItem_ne _ _ _ _ _ (not_eq_sym Hc) H1).
  - apply (getItem_setItem_ne _ _ _ _ _ (not_eq_sym Hc) H1).
Qed.

(** X25.  Saving one collection never changes the other: whether or not
    localStorage accepts the writes, the cached diagnoses read after
    [savePatients] as they read before, and the cached patients after
    [saveDiagnoses]; and a save changes no key of the storage area besides
    the key of its collection and the last-sync key. *)
Theorem collections_are_independent now items ls :
  getDiagnoses (savePatients now items ls) = getDiagnoses ls
  /\ getPatients (saveDiagnoses now items ls) = getPatients ls
  /\ (forall c k,
        k <> key_of c -> k <> CACHE_KEYS.LAST_SYNC ->
        getItem k (save c now items ls) = getItem k ls).
Proof.
  split; [|split].
  - change (get Diagnoses (save Patients now items ls) = get Diagnoses ls).
    rewrite !get_key, save_other_keys; [reflexivity| |]; discriminate.
  - change (get Patients (save Diagnoses now items ls) = get Patients ls).
    rewrite !get_key, save_other_keys; [reflexivity| |]; discriminate.
  - intros c k. apply save_other_keys.
Qed.

(** A list that localStorage accepts reads back after the save. *)
Lemma save_accepted c now items ls ls1 :
  setItem (key_of c) (stringify (JArr items)) ls = Ok ls1 ->
  get c (save c now items ls) = JArr items.
Proof.
  intros H1. rewrite save_writes, H1. apply get_stored.
  destruct (setItem CACHE_KEYS.LAST_SYNC now ls1) as [ls2|e] eqn:H2.
  - rewrite (getItem_setItem_ne _ _ _ _ _ (key_of_not_last_sync c) H2).
    apply (getItem_setItem _ _ _ _ H1).
  - apply (getItem_setItem _ _ _ _ H1).
Qed.

(** X26.  A completed analysis is appended to the cached diagnoses: when
    the cache holds a list of diagnoses, or holds nothing, and localStorage
    accepts the new list, [onSuccess] returns, the cache then reads as the
    former list followed by the result, the cached patients are untouched,
    the result is the one the page shows, the two queries are invalidated
    and one toast is raised. *)
Theorem onSuccess_appends_to_the_cache t_success chars now data page l ls1 :
  getDiagnoses (Pages.localStorage page) = JArr l
  \/ (getDiagnoses (Pages.localStorage page) = JNull /\ l = []) ->
  setItem CACHE_KEYS.DIAGNOSES (stringify (JArr (l ++ [Pages.value_json data])))
    (Pages.localStorage page) = Ok ls1 ->
  exists page',
    Pages.onSuccess t_success chars now data page = (Ok tt, page')
    /\ getDiagnoses (Pages.localStorage page') = JArr (l ++ [Pages.value_json data])
    /\ getPatients (Pages.localStorage page') = getPatients (Pages.localStorage page)
    /\ Pages.diagnosisResult page' = Some data
    /\ Pages.invalidated page'
       = Pages.invalidated page ++ ["/api/patients"; "/api/diagnoses"]
    /\ Pages.toasts page'
       = Pages.toasts page
         ++ [Pages.mkToast t_success (Pages.description_of data) None].
Proof.
  intros Hcache Hset. unfold Pages.onSuccess. cbn [Pages.localStorage].
  assert (Hspread : Pages.spread chars
                      (if falsy (getDiagnoses (Pages.localStorage page))
                       then JArr [] else getDiagnoses (Pages.localStorage page))
                    = Ok l).
  { destruct Hcache as [-> | [-> ->]]; reflexivity. }
  rewrite Hspread. eexists. split; [reflexivity|].
  cbn [Pages.localStorage Pages.diagnosisResult Pages.invalidated Pages.toasts].
  split; [|split; [|repeat split]].
  - exact (save_accepted Diagnoses now _ _ _ Hset).
  - change (get Patients (save Diagnoses now (l ++ [Pages.value_json data])
                            (Pages.localStorage page))
            = get Patients (Pages.localStorage page)).
    rewrite !get_key, save_other_keys; [reflexivity| |]; discriminate.
Qed.

Lemma onSuccess_appends_to_the_cache_witness :
  getItem CACHE_KEYS.DIAGNOSES (Pages.localStorage page_cached)
  = Some (stringify (JArr [cached_diagnosis]))
  /\ exists page',
       Pages.onSuccess "Success" (fun _ => []) stamp (unavailable input_fever)
         page_cached
       = (Ok tt, page')
       /\ getDiagnoses (Pages.localStorage page')
          = JArr ([cached_diagnosis] ++ [Pages.value_json (unavailable input_fever)]).
Proof.
  split; [reflexivity|].
  destruct (onSuccess_appends_to_the_cache "Success" (fun _ => []) stamp
              (unavailable input_fever) page_cached [cached_diagnosis]
              (mkStorage
                 (<[CACHE_KEYS.DIAGNOSES :=
                      stringify (JArr ([cached_diagnosis]
                                       ++ [Pages.value_json (unavailable input_fever)]))]>
                    (items (Pages.localStorage page_cached)))
                 1000))
    as (page' & Hrun & Hget & _).
  - left. vm_compute. reflexivity.
  - vm_compute. reflexivity.
  - exists page'. split; assumption.
Defined.

(** What [diagnoseOffline] returns is an object or an array. *)
Lemma diagnoseOffline_truthy w input v :
  snd (diagnoseOffline w input) = Ok v -> Pages.truthy_value v = true.
Proof.
  rewrite diagnoseOffline_run. cbn [snd]. unfold tag_response.
  destruct (fetch w fallback_url input) as [|res]; cbn [try_catch].
  - intros [= <-]. reflexivity.
  - destruct (ok res); cbn [negb try_catch]; [|intros [= <-]; reflexivity].
    destruct (json_body res) as [[| b | n | s | l | m]|]; cbn [try_catch];
      try (intros [= <-]; reflexivity).
    destruct (negb (has_key "mode" m)); intros [= <-]; reflexivity.
Qed.

(** X27.  The toast of a result that came from the fallback: when the
    browser is offline, or the primary call throws, [analyze] returns a
    value that [onSuccess] announces with "Diagnosis completed in offline
    mode", unless the answer of the fallback backend carried a [mode] of its
    own other than "offline", in which case the toast reads "Diagnosis
    completed successfully". *)
Theorem fallback_result_is_announced w data :
  isOnline (navigator w) = false
  \/ (exists e, apiRequest w "POST" "/api/diagnose" data = Throw e) ->
  exists v,
    snd (analyze w data) = Ok v
    /\ Pages.description_of v = announced (own_mode (fetch w fallback_url data)).
Proof.
  intros Hpath.
  assert (Hrun : snd (analyze w data) = snd (diagnoseOffline w data)).
  { destruct (isOnline (navigator w)) eqn:Hon.
    - destruct Hpath as [Hoff | [e He]]; [discriminate|].
      rewrite (analyze_primary_throws w data e Hon He). reflexivity.
    - rewrite (analyze_offline w data Hon). reflexivity. }
  destruct (diagnoseOffline_mode w data) as (v & Hv & Hmode).
  exists v. split; [rewrite Hrun; exact Hv|].
  unfold Pages.description_of. rewrite (diagnoseOffline_truthy w data v Hv), Hmode.
  cbn [andb]. unfold announced.
  destruct (own_mode (fetch w fallback_url data)) as [[| | |m| |]|]; reflexivity.
Qed.

Lemma fallback_result_is_announced_witness :
  exists v,
    snd (analyze world_offline_unreachable input_fever) = Ok v
    /\ Pages.description_of v = "Diagnosis completed in offline mode".
Proof.
  apply (fallback_result_is_announced world_offline_unreachable input_fever).
  left. reflexivity.
Defined.
End Cache.

(** *** The selection of symptoms *)

Lemma toggle_absent symptom prev :
  ~ In symptom prev -> Pages.handleSymptomToggle symptom prev = prev ++ [symptom].
Proof.
  intros H. unfold Pages.handleSymptomToggle.
  destruct (existsb (String.eqb symptom) prev) eqn:E; [|reflexivity].
  apply existsb_In_eqb in E. tauto.
Qed.

Lemma toggle_present symptom prev :
  In symptom prev ->
  Pages.handleSymptomToggle symptom prev
  = List.filter (fun s => negb (String.eqb s symptom)) prev.
Proof.
  intros H. unfold Pages.handleSymptomToggle.
  apply existsb_In_eqb in H. rewrite H. reflexivity.
Qed.

Lemma In_filter_other symptom prev s :
  In s (List.filter (fun s => negb (String.eqb s symptom)) prev)
  <-> In s prev /\ s <> symptom.
Proof.
  rewrite List.filter_In, negb_true_iff, String.eqb_neq. reflexivity.
Qed.

Lemma filter_other_absent symptom prev :
  ~ In symptom prev ->
  List.filter (fun s => negb (String.eqb s symptom)) prev = prev.
Proof.
  induction prev as [|x t IH]; cbn [In List.filter]; [reflexivity|].
  intros H. destruct (String.eqb_spec x symptom) as [E|E]; [tauto|].
  cbn [negb]. rewrite IH by tauto. reflexivity.
Qed.

Lemma toggle_NoDup symptom prev :
  List.NoDup prev -> List.NoDup (Pages.handleSymptomToggle symptom prev).
Proof.
  intros Hn. destruct (in_dec string_dec symptom prev) as [Hin|Hout].
  - rewrite (toggle_present _ _ Hin). apply List.NoDup_filter. exact Hn.
  - rewrite (toggle_absent _ _ Hout). apply NoDup_snoc; assumption.
Qed.

(** X28.  A click on a symptom flips that symptom and no other: after
    [handleSymptomToggle] the symptom is selected exactly when it was not
    before, every other symptom is selected exactly when it was, a symptom
    newly selected goes to the end of the list, and a second click on it
    restores the list.  The selection never holds a symptom twice, whatever
    the sequence of clicks from the empty selection. *)
Theorem handleSymptomToggle_flips symptom prev :
  (In symptom (Pages.handleSymptomToggle symptom prev) <-> ~ In symptom prev)
  /\ (forall s, s <> symptom ->
        (In s (Pages.handleSymptomToggle symptom prev) <-> In s prev))
  /\ (~ In symptom prev ->
      Pages.handleSymptomToggle symptom prev = prev ++ [symptom]
      /\ Pages.handleSymptomToggle symptom
           (Pages.handleSymptomToggle symptom prev) = prev)
  /\ (forall clicks,
        List.NoDup (fold_left (fun selected s => Pages.handleSymptomToggle s selected)
                      clicks [])).
Proof.
  split; [|split; [|split]].
  - destruct (in_dec string_dec symptom prev) as [Hin|Hout].
    + rewrite (toggle_present _ _ Hin), In_filter_other. tauto.
    + rewrite (toggle_absent _ _ Hout), in_app_iff. cbn. tauto.
  - intros s Hs. destruct (in_dec string_dec symptom prev) as [Hin|Hout].
    + rewrite (toggle_present _ _ Hin), In_filter_other. tauto.
    + rewrite (toggle_absent _ _ Hout), in_app_iff. cbn. split; [|tauto].
      intros [H|[H|[]]]; [exact H|congruence].
  - intros Hout. split; [apply toggle_absent; exact Hout|].
    rewrite (toggle_absent _ _ Hout), toggle_present
      by (apply in_or_app; right; left; reflexivity).
    rewrite List.filter_app, (filter_other_absent _ _ Hout). cbn [List.filter].
    rewrite String.eqb_refl. cbn [negb]. apply app_nil_r.
  - intros clicks.
    assert (H : forall selected, List.NoDup selected ->
              List.NoDup (fold_left (fun selected s =>
                                       Pages.handleSymptomToggle s selected)
                            clicks selected)).
    { induction clicks as [|s t IH]; intros selected Hn; [exact Hn|].
      cbn [fold_left]. apply IH, toggle_NoDup, Hn. }
    apply H. constructor.
Qed.

(** *** The history *)

Section HistoryOrder.
Variable Date_getTime : json -> option Z.

Lemma compare_createdAt_le a b :
  Pages.compare_createdAt Date_getTime a b <= 0 -> history_order Date_getTime a b.
Proof.
  unfold Pages.compare_createdAt, history_order.
  destruct (Pages.parseCreatedAt _ (prop "createdAt" a)),
           (Pages.parseCreatedAt _ (prop "createdAt" b)); intros H; try exact I; lia.
Qed.

Lemma compare_createdAt_gt a b :
  0 < Pages.compare_createdAt Date_getTime a b -> history_order Date_getTime b a.
Proof.
  unfold Pages.compare_createdAt, history_order.
  destruct (Pages.parseCreatedAt _ (prop "createdAt" a)),
           (Pages.parseCreatedAt _ (prop "createdAt" b)); intros H; try exact I; lia.
Qed.

Lemma history_order_trans a b c :
  history_order Date_getTime a b -> history_order Date_getTime b c ->
  history_order Date_getTime a c.
Proof.
  unfold history_order.
  destruct (Pages.parseCreatedAt _ (prop "createdAt" a)),
           (Pages.parseCreatedAt _ (prop "createdAt" b)),
           (Pages.parseCreatedAt _ (prop "createdAt" c)); intros H1 H2;
    try exact I; try contradiction; lia.
Qed.

Lemma history_insert_sorted x l :
  StronglySorted (history_order Date_getTime) l ->
  StronglySorted (history_order Date_getTime)
    (sort_insert (Pages.compare_createdAt Date_getTime) x l).
Proof.
  induction 1 as [|y t Ht IH Hy]; cbn [sort_insert].
  - repeat constructor.
  - destruct (Pages.compare_createdAt Date_getTime x y <=? 0) eqn:E.
    + apply Z.leb_le in E. constructor; [constructor; assumption|].
      constructor; [apply compare_createdAt_le; exact E|].
      eapply List.Forall_impl; [|exact Hy]. intros z Hz.
      eapply history_order_trans; [apply compare_createdAt_le; exact E|exact Hz].
    + apply Z.leb_gt in E. constructor; [assumption|].
      apply List.Forall_forall. intros z Hz.
      apply (Permutation_in _ (sort_insert_perm _ x t)) in Hz.
      destruct Hz as [<- | Hz]; [apply compare_createdAt_gt; exact E|].
      apply (proj1 (List.Forall_forall _ _) Hy z Hz).
Qed.

Lemma history_insert_undated x l :
  List.filter (undated Date_getTime)
    (sort_insert (Pages.compare_createdAt Date_getTime) x l)
  = List.filter (undated Date_getTime) (x :: l).
Proof.
  induction l as [|y t IH]; cbn [sort_insert]; [reflexivity|].
  destruct (Pages.compare_createdAt Date_getTime x y <=? 0) eqn:E; [reflexivity|].
  apply Z.leb_gt in E. cbn [List.filter] in *. rewrite IH.
  assert (H : undated Date_getTime x && undated Date_getTime y = false).
  { unfold Pages.compare_createdAt, undated in *.
    destruct (Pages.parseCreatedAt _ (prop "createdAt" x)),
             (Pages.parseCreatedAt _ (prop "createdAt" y)); try reflexivity; lia. }
  destruct (undated Date_getTime x), (undated Date_getTime y);
    try reflexivity; discriminate.
Qed.

(** X29.  The history page lists the diagnoses it was given, each once:
    those whose date can be read come first, the most recent first, and
    those whose [createdAt] is missing, falsy or not a date come after all
    of them, in the order in which they were given. *)
Theorem sortedDiagnoses_newest_first diagnoses :
  Permutation (Pages.sortedDiagnoses Date_getTime diagnoses) diagnoses
  /\ StronglySorted (history_order Date_getTime)
       (Pages.sortedDiagnoses Date_getTime diagnoses)
  /\ List.filter (undated Date_getTime) (Pages.sortedDiagnoses Date_getTime diagnoses)
     = List.filter (undated Date_getTime) diagnoses.
Proof.
  unfold Pages.sortedDiagnoses. split; [apply sort_perm|]. split.
  - induction diagnoses as [|x t IH]; cbn [sort fold_right]; [constructor|].
    apply history_insert_sorted. exact IH.
  - induction diagnoses as [|x t IH]; [reflexivity|].
    cbn [sort fold_right]. fold (sort (Pages.compare_createdAt Date_getTime) t).
    rewrite history_insert_undated. cbn [List.filter]. rewrite IH. reflexivity.
Qed.
End HistoryOrder.
